(** * Unstack PR monitor: a shallow embedding of the scripts and their properties

    The development follows the scripts of the pipeline:
    - [test-runner.js]       (module [TestRunner]),
    - [pr-monitor.js]        (module [PRMonitor]),
    - [refactor-analyzer.js] (module [RefactorAnalyzer]),
    - [monitor-daemon.js]    (module [MonitorDaemon]),
    - [setup.js]             (module [SetupManager]),
    over a common model of JavaScript strings ([Js]) and of the host the
    scripts run on ([Host]: git working tree, external tools, remote API,
    clock and checkpoint file).  Definitions come first, properties after. *)

From Stdlib Require Import ZArith List String Ascii Bool Lia DecimalString DecimalNat.
From stdpp Require Import base gmap strings list.

(** ** JavaScript strings

    A JS string is a sequence of UTF-16 code units.  Source text is modelled
    by [string] with one [ascii] per code unit, that is, text within Latin-1;
    [String.length] is then JS [.length].  Literals of the scripts that hold
    emoji are written as they stand in the scripts; no length is taken of
    them. *)
Module Js.

(** The line feed ["\n"] and the double quote. *)
Definition nl : string := String (ascii_of_nat 10) EmptyString.
Definition dq : string := String (ascii_of_nat 34) EmptyString.

(** A number inside a template literal: its decimal digits. *)
Definition string_of_nat (n : nat) : string :=
  NilEmpty.string_of_uint (Nat.to_uint n).

(** [s.includes(sub)]. *)
Fixpoint includes (sub s : string) : bool :=
  String.prefix sub s ||
  match s with
  | EmptyString => false
  | String _ s' => includes sub s'
  end.

(** White space and line terminators of ECMAScript below U+0100:
    TAB, LF, VT, FF, CR, SP and NBSP. *)
Definition is_space (c : ascii) : bool :=
  let n := nat_of_ascii c in
  ((9 <=? n) && (n <=? 13)) || (n =? 32) || (n =? 160).

Fixpoint trimStart (s : string) : string :=
  match s with
  | EmptyString => EmptyString
  | String c s' => if is_space c then trimStart s' else s
  end.

Fixpoint trimEnd (s : string) : string :=
  match s with
  | EmptyString => EmptyString
  | String c s' =>
      let t := trimEnd s' in
      if is_space c && String.eqb t EmptyString then EmptyString
      else String c t
  end.

(** [s.trim()]. *)
Definition trim (s : string) : string := trimEnd (trimStart s).

(** [s.split('\n')]: never empty, [""] gives one empty line. *)
Fixpoint split_lines (s : string) : list string :=
  match s with
  | EmptyString => [EmptyString]
  | String c s' =>
      if Ascii.eqb c (ascii_of_nat 10) then EmptyString :: split_lines s'
      else match split_lines s' with
           | l :: ls => String c l :: ls
           | [] => [String c EmptyString]
           end
  end.

(** [lines.join('\n')]. *)
Definition join_lines (ls : list string) : string := String.concat nl ls.

(** [(s.match(/c/g) || []).length] for a one-character pattern. *)
Fixpoint count_char (c : ascii) (s : string) : nat :=
  match s with
  | EmptyString => 0
  | String d s' => (if Ascii.eqb c d then 1 else 0) + count_char c s'
  end.

(** [a.slice(i, j)] on an array, for [i <= j]. *)
Definition slice {A} (i j : nat) (a : list A) : list A := take (j - i) (drop i a).

(** [prefix ++ rest = s] gives [Some rest]. *)
Fixpoint strip_prefix (p s : string) : option string :=
  match p, s with
  | EmptyString, _ => Some s
  | String a p', String b s' => if Ascii.eqb a b then strip_prefix p' s' else None
  | String _ _, EmptyString => None
  end.

(** [s.endsWith(suffix)]: some tail of [s] is [suffix]. *)
Fixpoint endsWith (suffix s : string) : bool :=
  String.eqb s suffix ||
  match s with
  | EmptyString => false
  | String _ s' => endsWith suffix s'
  end.

(** [s.split(sep)] for a separator of one character: never empty. *)
Fixpoint split_on (sep : ascii) (s : string) : list string :=
  match s with
  | EmptyString => [EmptyString]
  | String c s' =>
      if Ascii.eqb c sep then EmptyString :: split_on sep s'
      else match split_on sep s' with
           | l :: ls => String c l :: ls
           | [] => [String c EmptyString]
           end
  end.

(** The class [\w] of a regular expression without the unicode flag:
    [A-Za-z0-9_]; and [A-Z]. *)
Definition is_upper (c : ascii) : bool :=
  let n := nat_of_ascii c in (65 <=? n) && (n <=? 90).

Definition is_word (c : ascii) : bool :=
  let n := nat_of_ascii c in
  ((48 <=? n) && (n <=? 57)) || is_upper c || (n =? 95) || ((97 <=? n) && (n <=? 122)).

(** What is left of [s] after a greedy [\w*]. *)
Fixpoint skip_word (s : string) : string :=
  match s with
  | EmptyString => EmptyString
  | String c s' => if is_word c then skip_word s' else s
  end.

End Js.

(** ** The host: working tree, external tools, remote API, clock, files

    A script runs against a world it reads and changes through [execSync],
    the octokit client and [fs].  What each external call answers is given by
    an environment, indexed by the number of external calls made before it,
    so that the same call may succeed once and fail later. *)
Module Host.
Import Js.

(** How a call completes: normally with a value, or by throwing an
    [Error] with a message. *)
Inductive Completion (A : Type) : Type :=
| Return (a : A)
| Throw (msg : string).
Arguments Return {A} a.
Arguments Throw {A} msg.

(** The text of a date (an ISO-8601 string), as what [new Date(text)]
    makes of it: [Some ms] for a valid date, milliseconds since the epoch,
    and [None] for [Invalid Date].  [toISOString] followed by [new Date]
    is the identity on valid dates. *)
Definition Timestamp : Type := option Z.

(** [new Date(a) > new Date(b)]: a comparison with [NaN] is false. *)
Definition date_gt (a b : Timestamp) : bool :=
  match a, b with
  | Some x, Some y => (y <? x)%Z
  | _, _ => false
  end.

Record PullRequest := {
  number : nat;
  title : string;
  head_ref : string;
  created_at : Timestamp
}.

Record ChangedFile := {
  filename : string;
  additions : nat;
  deletions : nat
}.

(** External calls, as they happen. *)
Inductive Event :=
| Exec (cmd : string) (ok : bool)
| PullsList (ok : bool)
| PullsListFiles (pull_number : nat) (ok : bool)
| IssuesCreateComment (issue_number : nat) (body : string) (ok : bool)
| PullsCreate (pr_title head base body : string) (ok : bool).

Record Env := {
  (** [__dirname] *)
  scriptsDir : string;
  (** the command run by [execSync]: [None] for exit code 0, [Some msg] when it throws *)
  exec_error : nat -> string -> option string;
  pulls_list : nat -> Completion (list PullRequest);
  pulls_listFiles : nat -> nat -> Completion (list ChangedFile);
  issues_createComment_error : nat -> nat -> string -> option string;
  (** the [html_url] of the created pull request *)
  pulls_create : nat -> string -> string -> string -> string -> Completion string;
  (** [Date.now()] *)
  clock : nat -> Z;
  fs_read_error : nat -> option string;
  fs_write_error : nat -> option string
}.

Record World := {
  (** the active branch of the working tree *)
  branch : string;
  (** external calls made so far *)
  ticks : nat;
  trace : list Event;
  (** lines given to [log] (time prefix left out) *)
  logs : list string;
  (** content of the file [.last-pr-check], [None] when it does not exist *)
  lastCheckedFile : option Timestamp
}.

Definition M (A : Type) : Type := World -> Completion A * World.

Definition ret {A} (a : A) : M A := fun w => (Return a, w).

Definition bind {A B} (m : M A) (k : A -> M B) : M B :=
  fun w =>
    match m w with
    | (Return a, w') => k a w'
    | (Throw e, w') => (Throw e, w')
    end.

(** [try { body } catch (error) { handler(error.message) }] *)
Definition try_catch {A} (body : M A) (handler : string -> M A) : M A :=
  fun w =>
    match body w with
    | (Return a, w') => (Return a, w')
    | (Throw e, w') => handler e w'
    end.

(** [try { body } finally { fin }]: [fin] always runs; its own throw
    replaces the completion of [body]. *)
Definition try_finally {A} (body : M A) (fin : M unit) : M A :=
  fun w =>
    let '(r, w1) := body w in
    match fin w1 with
    | (Return _, w2) => (r, w2)
    | (Throw e, w2) => (Throw e, w2)
    end.

(** [throw new Error(msg)] *)
Definition throw {A} (msg : string) : M A := fun w => (Throw msg, w).

Declare Scope host_scope.
Delimit Scope host_scope with host.
Notation "x <- m ;; k" := (bind m (fun x => k))
  (at level 100, m at next level, right associativity) : host_scope.
Notation "m ;; k" := (bind m (fun _ => k))
  (at level 100, right associativity) : host_scope.

(** The branch a successful command switches to: [git checkout -b <name>]
    and [git checkout <name>]; no other command moves the working tree. *)
Definition checkout_target (cmd : string) : option string :=
  match strip_prefix "git checkout -b " cmd with
  | Some b => Some b
  | None => strip_prefix "git checkout " cmd
  end.

Definition step (ev : Event) (w : World) : World :=
  {| branch := branch w; ticks := S (ticks w); trace := trace w ++ [ev];
     logs := logs w; lastCheckedFile := lastCheckedFile w |}.

Definition set_branch (b : string) (w : World) : World :=
  {| branch := b; ticks := ticks w; trace := trace w;
     logs := logs w; lastCheckedFile := lastCheckedFile w |}.

(** [console.log] and the append to the log file. *)
Definition append_log (msg : string) : M unit :=
  fun w =>
    (Return tt,
     {| branch := branch w; ticks := ticks w; trace := trace w;
        logs := logs w ++ [msg]; lastCheckedFile := lastCheckedFile w |}).

Section WithEnv.
Variable env : Env.

(** [execSync(cmd)]: a command that fails leaves the branch alone. *)
Definition execSync (cmd : string) : M unit :=
  fun w =>
    match exec_error env (ticks w) cmd with
    | None =>
        let w' := step (Exec cmd true) w in
        (Return tt,
         match checkout_target cmd with
         | Some b => set_branch b w'
         | None => w'
         end)
    | Some msg => (Throw msg, step (Exec cmd false) w)
    end.

Definition octokit_pulls_list : M (list PullRequest) :=
  fun w =>
    match pulls_list env (ticks w) with
    | Return prs => (Return prs, step (PullsList true) w)
    | Throw e => (Throw e, step (PullsList false) w)
    end.

Definition octokit_pulls_listFiles (pull_number : nat) : M (list ChangedFile) :=
  fun w =>
    match pulls_listFiles env (ticks w) pull_number with
    | Return fs => (Return fs, step (PullsListFiles pull_number true) w)
    | Throw e => (Throw e, step (PullsListFiles pull_number false) w)
    end.

Definition octokit_issues_createComment (issue_number : nat) (body : string) : M unit :=
  fun w =>
    match issues_createComment_error env (ticks w) issue_number body with
    | None => (Return tt, step (IssuesCreateComment issue_number body true) w)
    | Some e => (Throw e, step (IssuesCreateComment issue_number body false) w)
    end.

Definition octokit_pulls_create (pr_title head base body : string) : M string :=
  fun w =>
    match pulls_create env (ticks w) pr_title head base body with
    | Return url => (Return url, step (PullsCreate pr_title head base body true) w)
    | Throw e => (Throw e, step (PullsCreate pr_title head base body false) w)
    end.

Definition date_now : M Z := fun w => (Return (clock env (ticks w)), w).

Definition fs_existsSync_lastChecked : M bool :=
  fun w => (Return (bool_decide (is_Some (lastCheckedFile w))), w).

Definition fs_readFileSync_lastChecked : M Timestamp :=
  fun w =>
    match fs_read_error env (ticks w), lastCheckedFile w with
    | Some e, _ => (Throw e, w)
    | None, Some content => (Return content, w)
    | None, None => (Throw "ENOENT: no such file or directory", w)
    end.

Definition fs_writeFileSync_lastChecked (content : Timestamp) : M unit :=
  fun w =>
    match fs_write_error env (ticks w) with
    | Some e => (Throw e, w)
    | None =>
        (Return tt,
         {| branch := branch w; ticks := ticks w; trace := trace w;
            logs := logs w; lastCheckedFile := Some content |})
    end.
End WithEnv.

(** What the remote service answers to a call of [pulls.list] that names no
    page and no page size, as the one of [getNewPullRequests]: the first
    page of the open units, a page holding 30 units when the call does not
    ask otherwise.  [open_units] are the open units of the repository,
    newest first, the order the call asks for. *)
Definition default_page_size : nat := 30.

Definition first_page (open_units : list PullRequest) : list PullRequest :=
  take default_page_size open_units.

(** *** Vocabulary of the statements about computations *)

(** A computation returns normally from every world. *)
Definition returns {A} (m : M A) : Prop := forall w, exists a, fst (m w) = Return a.

(** Every run of a computation relates the world before to the world after. *)
Definition preserves (R : World -> World -> Prop) {A} (m : M A) : Prop :=
  forall w, R w (snd (m w)).

(** From [w] to [w'] the trace grew by events that satisfy [P], the log
    grew, and the count of external calls did not go back. *)
Definition grows (P : Event -> Prop) (w w' : World) : Prop :=
  (exists evs, trace w' = trace w ++ evs /\ Forall P evs) /\
  (exists ls, logs w' = logs w ++ ls) /\
  ticks w <= ticks w'.

(** From [w] to [w'] the count of external calls did not go back, and the
    checkpoint file is as it was or holds the clock reading of a moment of
    the run. *)
Definition checkpoint_kept (env : Env) (w w' : World) : Prop :=
  ticks w <= ticks w' /\
  (lastCheckedFile w' = lastCheckedFile w \/
   exists t, ticks w <= t /\ t <= ticks w' /\
             lastCheckedFile w' = Some (Some (clock env t))).

(** The branch the working tree is on after the external calls [evs],
    started on branch [b]: a successful checkout moves it, no other call
    does. *)
Definition branch_after (b : string) (evs : list Event) : string :=
  fold_left
    (fun b ev =>
       match ev with
       | Exec cmd true =>
           match checkout_target cmd with
           | Some target => target
           | None => b
           end
       | _ => b
       end)
    evs b.

(** From [w] to [w'] the external calls [evs] were made, and the working
    tree is where they left it. *)
Definition replays (w w' : World) : Prop :=
  exists evs,
    trace w' = trace w ++ evs /\
    branch w' = branch_after (branch w) evs /\
    ticks w' = ticks w + length evs.

(** From external call [k] on: the checkpoint file holds a valid date at or
    after the clock reading at [k]. *)
Definition checkpoint_from (env : Env) (k : nat) (w : World) : Prop :=
  k <= ticks w /\
  exists T, lastCheckedFile w = Some (Some T) /\ (clock env k <= T)%Z.

End Host.

(** ** refactor-analyzer.js: suggestions and the textual scanners *)
Module RefactorAnalyzer.
Import Js.

Inductive SuggestionType := refactor | improvement | cleanup | consistency.
Inductive Severity := low | medium | high.

(** A suggestion object; [file] and [line] are absent ([undefined]) on
    project-level suggestions. *)
Record Suggestion := {
  type : SuggestionType;
  file : option string;
  line : option nat;
  message : string;
  severity : Severity;
  suggestion : string
}.

(** The result of [getSourceFiles] with what [fs.readFileSync] returns for
    each path: the source files in walk order, each with its content. *)
Definition SourceTree := list (string * string).

(** *** checkForLongFunctions *)

(** The loop variables of the scan of one file, and [this.suggestions]. *)
Record LongFnState := {
  currentFunction : option string;
  functionStart : nat;
  braceCount : Z;
  suggestions : list Suggestion
}.

(** Truthiness of [currentFunction]: [null] and [""] are falsy. *)
Definition truthy (o : option string) : bool :=
  match o with
  | Some s => negb (String.eqb s EmptyString)
  | None => false
  end.

(** The test of "Detect function start", on the trimmed line. *)
Definition is_function_start (line : string) : bool :=
  includes "function " line ||
  (includes "const " line && includes " = " line && includes "=>" line).

(** Opening minus closing braces of the trimmed line. *)
Definition brace_delta (line : string) : Z :=
  (Z.of_nat (count_char "{" line) - Z.of_nat (count_char "}" line))%Z.

Definition long_function_suggestion (f : string) (start len : nat) : Suggestion :=
  {| type := refactor;
     file := Some f;
     line := Some (start + 1);
     message := "Function is " +:+ string_of_nat len +:+
                " lines long. Consider breaking it into smaller functions.";
     severity := medium;
     suggestion := "Break this function into smaller, more focused functions." |}.

(** One iteration of [for (let i = 0; i < lines.length; i++)]. *)
Definition long_step (f : string) (i : nat) (raw : string) (st : LongFnState)
  : LongFnState :=
  let line := trim raw in
  let st1 :=
    if is_function_start line && (braceCount st =? 0)%Z
    then {| currentFunction := Some line; functionStart := i;
            braceCount := braceCount st; suggestions := suggestions st |}
    else st in
  let bc := (braceCount st1 + brace_delta line)%Z in
  if truthy (currentFunction st1) && (bc =? 0)%Z && (functionStart st1 <? i)
  then
    let functionLength := i - functionStart st1 in
    {| currentFunction := None;
       functionStart := functionStart st1;
       braceCount := bc;
       suggestions :=
         if 50 <? functionLength
         then suggestions st1 ++ [long_function_suggestion f (functionStart st1) functionLength]
         else suggestions st1 |}
  else
    {| currentFunction := currentFunction st1;
       functionStart := functionStart st1;
       braceCount := bc;
       suggestions := suggestions st1 |}.

Fixpoint long_loop (f : string) (i : nat) (lines : list string) (st : LongFnState)
  : LongFnState :=
  match lines with
  | [] => st
  | raw :: rest => long_loop f (S i) rest (long_step f i raw st)
  end.

(** The body of [for (const file of srcFiles)]: fresh loop variables, the
    suggestion list carried over. *)
Definition long_file (sugg : list Suggestion) (fc : string * string) : list Suggestion :=
  let '(f, content) := fc in
  suggestions
    (long_loop f 0 (split_lines content)
       {| currentFunction := None; functionStart := 0; braceCount := 0%Z;
          suggestions := sugg |}).

Definition checkForLongFunctions (srcFiles : SourceTree) (sugg : list Suggestion)
  : list Suggestion :=
  fold_left long_file srcFiles sugg.

(** *** checkForDuplicateCode *)

(** [lines.slice(i, i + 5).join('\n').trim()]. *)
Definition block_at (lines : list string) (i : nat) : string :=
  trim (join_lines (slice i (i + 5) lines)).

Definition duplicate_suggestion (f : string) (ln : nat) (existing : string * nat)
  : Suggestion :=
  {| type := refactor;
     file := Some f;
     line := Some ln;
     message := "Duplicate code block found (also in " +:+ fst existing +:+ ":" +:+
                string_of_nat (snd existing) +:+ ")";
     severity := medium;
     suggestion := "Extract this code into a reusable function or component." |}.

(** The [codeBlocks] map and [this.suggestions]. *)
Definition DupState : Type := gmap string (string * nat) * list Suggestion.

(** The body of the inner loop, for the block of one window. *)
Definition dup_block (f : string) (i : nat) (block : string) (st : DupState) : DupState :=
  let '(codeBlocks, sugg) := st in
  if 50 <? String.length block then
    match codeBlocks !! block with
    | Some existing => (codeBlocks, sugg ++ [duplicate_suggestion f (i + 1) existing])
    | None => (<[block := (f, i + 1)]> codeBlocks, sugg)
    end
  else st.

(** The indices of [for (let i = 0; i <= lines.length - 5; i++)]. *)
Definition window_starts (lines : list string) : list nat := seq 0 (length lines - 4).

Definition dup_file (st : DupState) (fc : string * string) : DupState :=
  let '(f, content) := fc in
  let lines := split_lines content in
  fold_left (fun st i => dup_block f i (block_at lines i) st) (window_starts lines) st.

Definition checkForDuplicateCode (srcFiles : SourceTree) (sugg : list Suggestion)
  : list Suggestion :=
  snd (fold_left dup_file srcFiles (∅, sugg)).

(** *** generatePRDescription *)

(** [`${s.file}`]: an absent file renders as [undefined]. *)
Definition render_file (o : option string) : string :=
  match o with Some f => f | None => "undefined" end.

Definition severity_eqb (a b : Severity) : bool :=
  match a, b with
  | low, low | medium, medium | high, high => true
  | _, _ => false
  end.

Definition section_title (sev : Severity) : string :=
  match sev with
  | high => "### 🔴 High Priority Issues ("
  | medium => "### 🟡 Medium Priority Issues ("
  | low => "### 🟢 Low Priority Issues ("
  end.

(** The heading line of a section with [n] entries. *)
Definition section_heading (sev : Severity) (n : nat) : string :=
  section_title sev +:+ string_of_nat n +:+ ")" +:+ nl.

Definition item_line (s : Suggestion) : string :=
  "- **" +:+ render_file (file s) +:+ "**: " +:+ message s +:+ nl.

(** What one [if (xPriority.length > 0) { ... }] appends. *)
Definition section_pieces (sev : Severity) (priority : list Suggestion) : list string :=
  if 0 <? length priority
  then section_heading sev (length priority) :: map item_line priority ++ [nl]
  else [].

Definition intro_pieces (prNumber : nat) : list string :=
  [ "## 🔧 Automated Code Improvements" +:+ nl +:+ nl;
    "This PR contains automated code improvements based on analysis of PR #" +:+
      string_of_nat prNumber +:+ "." +:+ nl +:+ nl ].

(** The fixed text after the sections, starting with the automatic-fixes note. *)
Definition closing_pieces : list string :=
  [ "### 🤖 Automatic Fixes Applied" +:+ nl;
    "- ESLint automatic fixes" +:+ nl;
    "- Prettier code formatting" +:+ nl +:+ nl;
    "### 📋 Manual Review Needed" +:+ nl;
    "Please review the suggestions above and consider implementing the recommended changes." +:+ nl +:+ nl;
    "---" +:+ nl +:+ "*This PR was automatically generated by the code quality monitoring system.*" ].

(** The operands of the successive [description += ...], in order. *)
Definition description_pieces (prNumber : nat) (sugg : list Suggestion) : list string :=
  let highPriority := List.filter (fun s => severity_eqb (severity s) high) sugg in
  let mediumPriority := List.filter (fun s => severity_eqb (severity s) medium) sugg in
  let lowPriority := List.filter (fun s => severity_eqb (severity s) low) sugg in
  intro_pieces prNumber ++
  section_pieces high highPriority ++
  section_pieces medium mediumPriority ++
  section_pieces low lowPriority ++
  closing_pieces.

Definition generatePRDescription (prNumber : nat) (sugg : list Suggestion) : string :=
  String.concat EmptyString (description_pieces prNumber sugg).

(** *** Vocabulary of the statements about the scanners *)

(** What a raw line adds to the brace depth. *)
Definition line_delta (raw : string) : Z := brace_delta (trim raw).

(** The brace depth after [lines], from depth [d]. *)
Fixpoint depth_after (d : Z) (lines : list string) : Z :=
  match lines with
  | [] => d
  | raw :: rest => depth_after (d + line_delta raw) rest
  end.

(** From depth [d], the depth is not 0 after any of [lines]. *)
Fixpoint stays_open (d : Z) (lines : list string) : bool :=
  match lines with
  | [] => true
  | raw :: rest =>
      negb (d + line_delta raw =? 0)%Z && stays_open (d + line_delta raw) rest
  end.

(** With a function open since the line before and the depth [d] after that
    line, the first of [lines] does not start the detection anew: the depth
    is off 0, or the line is no declaration. *)
Definition no_restart (d : Z) (lines : list string) : bool :=
  match lines with
  | [] => true
  | raw :: _ => negb (d =? 0)%Z || negb (is_function_start (trim raw))
  end.

(** The suggestion is anchored at line [ln] of file [f]. *)
Definition anchored_at (f : string) (ln : nat) (s : Suggestion) : bool :=
  match file s, line s with
  | Some f', Some ln' => String.eqb f' f && (ln' =? ln)
  | _, _ => false
  end.

(** A window of the duplicate scan: file, index of its first line, block. *)
Definition Window : Type := string * nat * string.

Definition window_block (w : Window) : string := snd w.

(** Where a window is reported: file and 1-based line. *)
Definition window_place (w : Window) : string * nat := (fst (fst w), snd (fst w) + 1).

(** The windows of a file, and of the tree, in scan order. *)
Definition file_windows (fc : string * string) : list Window :=
  let lines := split_lines (snd fc) in
  map (fun i => (fst fc, i, block_at lines i)) (window_starts lines).

Definition windows (tree : SourceTree) : list Window := flat_map file_windows tree.

(** The places where the block [K] occurs, in scan order. *)
Definition occurrences (K : string) (tree : SourceTree) : list (string * nat) :=
  map window_place (List.filter (fun w => String.eqb (window_block w) K) (windows tree)).

(** The inner loop body on a window. *)
Definition dup_window (st : DupState) (w : Window) : DupState :=
  dup_block (fst (fst w)) (snd (fst w)) (window_block w) st.

(** The suggestion is reported at the place [p]. *)
Definition reported_at (p : string * nat) (s : Suggestion) : bool :=
  anchored_at (fst p) (snd p) s.

(** The suggestion is reported at one of the places [ps]. *)
Definition reported_among (ps : list (string * nat)) (s : Suggestion) : bool :=
  existsb (fun p => reported_at p s) ps.

(** The suggestion is anchored in file [f] at a line whose index is in
    [lo, hi). *)
Definition anchored_in (f : string) (lo hi : nat) (s : Suggestion) : Prop :=
  file s = Some f /\ exists k, lo <= k /\ k < hi /\ line s = Some (k + 1).

(** *** Vocabulary of the statements about the description *)

(** The section of a severity is rendered: its heading line was appended. *)
Definition section_rendered (sev : Severity) (pieces : list string) : Prop :=
  exists n, In (section_heading sev n) pieces.

Definition count_severity (sev : Severity) (sugg : list Suggestion) : nat :=
  length (List.filter (fun s => severity_eqb (severity s) sev) sugg).

(** The text a section contributes to the description. *)
Definition section_text (sev : Severity) (sugg : list Suggestion) : string :=
  String.concat EmptyString
    (section_pieces sev (List.filter (fun s => severity_eqb (severity s) sev) sugg)).

(** *** The remediation workflow *)

Section Workflow.
Import Host.
Local Open Scope host_scope.
Variable env : Env.

Definition log (msg : string) : M unit := append_log msg.

Definition applyAutomaticFixes : M unit :=
  log "Applying automatic fixes...";;
  try_catch
    (execSync env "npx eslint src/ --fix";;
     log "Applied ESLint automatic fixes.")
    (fun _ => log "ESLint fix failed, continuing...");;
  try_catch
    (execSync env ("npx prettier --write " +:+ dq +:+ "src/**/*.{ts,tsx,js,jsx}" +:+ dq);;
     log "Applied Prettier formatting.")
    (fun _ => log "Prettier formatting failed, continuing...").

(** The inner [try] around [git diff --exit-code]: [false] stands for its
    [return] (nothing to commit), [true] for falling through the empty
    [catch]. *)
Definition has_changes : M bool :=
  try_catch
    (execSync env "git diff --exit-code";;
     log "No changes to commit after automatic fixes.";;
     ret false)
    (fun _ => ret true).

Definition generateRefactoringPR (prNumber : nat) (sugg : list Suggestion) : M unit :=
  if length sugg =? 0 then
    log "No refactoring suggestions found."
  else
    log ("Generating refactoring PR with " +:+ string_of_nat (length sugg) +:+ " suggestions...");;
    let branchName := "refactor/automated-improvements-pr-" +:+ string_of_nat prNumber in
    try_finally
      (try_catch
         (execSync env ("git checkout -b " +:+ branchName);;
          applyAutomaticFixes;;
          changed <- has_changes;;
          if changed then
            execSync env "git add .";;
            execSync env ("git commit -m " +:+ dq +:+
                          "refactor: automated code improvements based on PR #" +:+
                          string_of_nat prNumber +:+ dq);;
            execSync env ("git push origin " +:+ branchName);;
            let prBody := generatePRDescription prNumber sugg in
            html_url <- octokit_pulls_create env
                          ("🔧 Automated Code Improvements (Based on PR #" +:+
                           string_of_nat prNumber +:+ ")")
                          branchName "main" prBody;;
            log ("Created refactoring PR: " +:+ html_url)
          else ret tt)
         (fun e => log ("Error creating refactoring PR: " +:+ e)))
      (try_catch
         (execSync env "git checkout main")
         (fun e => log ("Error returning to main: " +:+ e))).

End Workflow.

(** *** getSourceFiles *)












(** *** checkForComplexComponents *)

Definition is_component_file (f : string) : bool :=
  includes "/components/" f && endsWith ".tsx" f.

(** [/use[A-Z]/] matches at the head of [s]. *)
Definition hook_head (s : string) : bool :=
  match s with
  | String "u" (String "s" (String "e" (String c _))) => is_upper c
  | _ => false
  end.

(** [(content.match(/use[A-Z]\w*/g) || []).length]: the matches from left
    to right; [inside] holds within a match, whose greedy [\w*] runs to the
    next character that is not of a word. *)
Fixpoint count_hooks_from (inside : bool) (s : string) : nat :=
  match s with
  | EmptyString => 0
  | String c s' =>
      if inside && is_word c then count_hooks_from true s'
      else if hook_head s then S (count_hooks_from true s')
      else count_hooks_from false s'
  end.

Definition count_hooks (content : string) : nat := count_hooks_from false content.

Definition hooks_suggestion (f : string) (hookCount : nat) : Suggestion :=
  {| type := refactor;
     file := Some f;
     line := None;
     message := "Component uses " +:+ string_of_nat hookCount +:+
                " hooks. Consider using custom hooks or breaking into smaller components.";
     severity := medium;
     suggestion := "Extract logic into custom hooks or split component." |}.

Definition long_component_suggestion (f : string) (lineCount : nat) : Suggestion :=
  {| type := refactor;
     file := Some f;
     line := None;
     message := "Component is " +:+ string_of_nat lineCount +:+
                " lines long. Consider breaking into smaller components.";
     severity := high;
     suggestion := "Split this component into smaller, more focused components." |}.

(** The body of the loop over the component files ([jsxCount], which
    nothing reads, is left out). *)
Definition complex_file (sugg : list Suggestion) (fc : string * string) : list Suggestion :=
  let '(f, content) := fc in
  let hookCount := count_hooks content in
  let lineCount := length (split_lines content) in
  let sugg1 := if 8 <? hookCount then sugg ++ [hooks_suggestion f hookCount] else sugg in
  if 300 <? lineCount then sugg1 ++ [long_component_suggestion f lineCount] else sugg1.

Definition checkForComplexComponents (srcFiles : SourceTree) (sugg : list Suggestion)
  : list Suggestion :=
  let componentFiles := List.filter (fun fc => is_component_file (fst fc)) srcFiles in
  fold_left complex_file componentFiles sugg.

(** *** checkForMissingTypes *)

Definition is_ts_file (f : string) : bool := endsWith ".ts" f || endsWith ".tsx" f.

(** What follows is at a word boundary after a word character: the end of
    the text, or a character that is not of a word. *)
Definition at_word_end (s : string) : bool :=
  match s with
  | EmptyString => true
  | String c _ => negb (is_word c)
  end.

(** [/:\s*any\b/] matches at the head of [s]. *)
Definition any_head (s : string) : bool :=
  match s with
  | String ":" r =>
      match strip_prefix "any" (trimStart r) with
      | Some t => at_word_end t
      | None => false
      end
  | _ => false
  end.

(** The number of matches of [/:\s*any\b/g]: a match holds one colon, its
    first character, so that matches do not overlap. *)
Fixpoint count_any (s : string) : nat :=
  match s with
  | EmptyString => 0
  | String _ s' => (if any_head s then 1 else 0) + count_any s'
  end.

(** [/\(\s*\w+\s*\)/] matches at the head of [s]. *)
Definition bare_param_head (s : string) : bool :=
  match s with
  | String "(" r =>
      let name := trimStart r in
      let after := skip_word name in
      (String.length after <? String.length name) && String.prefix ")" (trimStart after)
  | _ => false
  end.

(** [/\(\s*\w+\s*\)/g] has a match in [s]. *)
Fixpoint has_bare_param (s : string) : bool :=
  match s with
  | EmptyString => false
  | String _ s' => bare_param_head s || has_bare_param s'
  end.

Definition any_suggestion (f : string) (n : nat) : Suggestion :=
  {| type := improvement;
     file := Some f;
     line := None;
     message := "Found " +:+ string_of_nat n +:+
                " usage(s) of 'any' type. Consider using specific types.";
     severity := low;
     suggestion := "Replace any types with specific type definitions." |}.

Definition untyped_suggestion (f : string) : Suggestion :=
  {| type := improvement;
     file := Some f;
     line := None;
     message := "Found function parameters without explicit types.";
     severity := low;
     suggestion := "Add explicit types to function parameters." |}.

Definition types_file (sugg : list Suggestion) (fc : string * string) : list Suggestion :=
  let '(f, content) := fc in
  let anyMatches := count_any content in
  let sugg1 := if 0 <? anyMatches then sugg ++ [any_suggestion f anyMatches] else sugg in
  if has_bare_param content then sugg1 ++ [untyped_suggestion f] else sugg1.

Definition checkForMissingTypes (srcFiles : SourceTree) (sugg : list Suggestion)
  : list Suggestion :=
  let tsFiles := List.filter (fun fc => is_ts_file (fst fc)) srcFiles in
  fold_left types_file tsFiles sugg.

(** *** checkForUnusedImports *)

(** The parts of the ESLint report the check reads. *)
Record EslintMessage := {
  ruleId : option string;
  eslint_text : string
}.

Record EslintFileResult := {
  filePath : string;
  messages : list EslintMessage
}.

Definition is_unused_import (msg : EslintMessage) : bool :=
  match ruleId msg with
  | Some r => String.eqb r "no-unused-vars"
  | None => false
  end && includes "is defined but never used" (eslint_text msg).

Definition unused_suggestion (f : string) (n : nat) : Suggestion :=
  {| type := cleanup;
     file := Some f;
     line := None;
     message := "Found " +:+ string_of_nat n +:+ " unused import(s).";
     severity := low;
     suggestion := "Remove unused imports to clean up the code." |}.

(** The body of [for (const fileResult of eslintResults)]. *)
Definition unused_file (sugg : list Suggestion) (fileResult : EslintFileResult)
  : list Suggestion :=
  let unusedImports := List.filter is_unused_import (messages fileResult) in
  if 0 <? length unusedImports
  then sugg ++ [unused_suggestion (filePath fileResult) (length unusedImports)]
  else sugg.

Definition eslint_command : string :=
  "npx eslint src/ --format json --rule " +:+ dq +:+ "no-unused-vars: error" +:+ dq.

(** *** checkForConsistencyIssues *)

(** The counters of [patterns]. *)
Record Patterns := {
  quotes_single : nat;
  quotes_double : nat;
  semicolons_with : nat;
  semicolons_without : nat;
  indentation_spaces : nat;
  indentation_tabs : nat
}.

Definition count_where (p : string -> bool) (lines : list string) : nat :=
  length (List.filter p lines).

Definition tab : string := String (ascii_of_nat 9) EmptyString.

(** The body of [for (const file of srcFiles)]. *)
Definition consistency_file (patterns : Patterns) (fc : string * string) : Patterns :=
  let content := snd fc in
  let lines := split_lines content in
  {| quotes_single := quotes_single patterns + count_char "'" content;
     quotes_double := quotes_double patterns + count_char (ascii_of_nat 34) content;
     semicolons_with :=
       semicolons_with patterns + count_where (fun l => endsWith ";" (trim l)) lines;
     semicolons_without :=
       semicolons_without patterns +
       count_where (fun l => negb (endsWith ";" (trim l)) &&
                             (0 <? String.length (trim l)) &&
                             negb (endsWith "{" (trim l)) && negb (endsWith "}" (trim l)))
                   lines;
     indentation_spaces :=
       indentation_spaces patterns +
       count_where (fun l => negb (String.prefix tab l) && String.prefix "  " l) lines;
     indentation_tabs :=
       indentation_tabs patterns + count_where (fun l => String.prefix tab l) lines |}.

Definition no_patterns : Patterns :=
  {| quotes_single := 0; quotes_double := 0; semicolons_with := 0; semicolons_without := 0;
     indentation_spaces := 0; indentation_tabs := 0 |}.

Definition quotes_suggestion (dominant : string) : Suggestion :=
  {| type := consistency;
     file := None;
     line := None;
     message := "Mixed quote styles found. Consider using " +:+ dominant +:+
                " quotes consistently.";
     severity := low;
     suggestion := "Use " +:+ dominant +:+ " quotes throughout the codebase." |}.

Definition checkForConsistencyIssues (srcFiles : SourceTree) (sugg : list Suggestion)
  : list Suggestion :=
  let patterns := fold_left consistency_file srcFiles no_patterns in
  if (0 <? quotes_single patterns) && (0 <? quotes_double patterns) then
    let dominant :=
      if quotes_double patterns <? quotes_single patterns then "single" else "double" in
    sugg ++ [quotes_suggestion dominant]
  else sugg.

(** *** Vocabulary of the statements about the checks *)

(** The single and the double quotes in the contents of the source files. *)
Definition single_quotes (srcFiles : SourceTree) : nat :=
  list_sum (map (fun fc => count_char "'" (snd fc)) srcFiles).

Definition double_quotes (srcFiles : SourceTree) : nat :=
  list_sum (map (fun fc => count_char (ascii_of_nat 34) (snd fc)) srcFiles).

(** The branch, the commands and the title of [generateRefactoringPR]. *)
Definition refactor_branch (prNumber : nat) : string :=
  "refactor/automated-improvements-pr-" +:+ string_of_nat prNumber.

Definition create_branch_command (prNumber : nat) : string :=
  "git checkout -b " +:+ refactor_branch prNumber.

Definition commit_command (prNumber : nat) : string :=
  "git commit -m " +:+ dq +:+ "refactor: automated code improvements based on PR #" +:+
  string_of_nat prNumber +:+ dq.

Definition push_command (prNumber : nat) : string :=
  "git push origin " +:+ refactor_branch prNumber.

Definition eslint_fix_command : string := "npx eslint src/ --fix".

Definition prettier_command : string :=
  "npx prettier --write " +:+ dq +:+ "src/**/*.{ts,tsx,js,jsx}" +:+ dq.

Definition refactor_title (prNumber : nat) : string :=
  "🔧 Automated Code Improvements (Based on PR #" +:+ string_of_nat prNumber +:+ ")".

(** The event is a call of [pulls.create]. *)
Definition is_pulls_create (ev : Host.Event) : bool :=
  match ev with
  | Host.PullsCreate _ _ _ _ _ => true
  | _ => false
  end.

(** *** analyzeCodeQuality and run *)

Section Analysis.
Import Host.
Local Open Scope host_scope.
Variable env : Env.

(** What [JSON.parse] makes of the output of the ESLint command started at
    external call [t]: the file results, or the error it throws. *)
Variable eslint_report : nat -> Completion (list EslintFileResult).

(** [JSON.parse(execSync(eslint_command))] *)
Definition eslint_results : M (list EslintFileResult) :=
  fun w =>
    match execSync env eslint_command w with
    | (Return _, w') =>
        match eslint_report (ticks w) with
        | Return results => (Return results, w')
        | Throw e => (Throw e, w')
        end
    | (Throw e, w') => (Throw e, w')
    end.

(** The state [this.suggestions] is passed in and returned. *)
Definition checkForUnusedImports (sugg : list Suggestion) : M (list Suggestion) :=
  log "Checking for unused imports...";;
  try_catch
    (eslintResults <- eslint_results;;
     ret (fold_left unused_file eslintResults sugg))
    (fun e => log ("ESLint check failed: " +:+ e);; ret sugg).

(** What the walk of [src] and the reads of the textual check number
    [check] give (0 long functions, 1 duplicate code, 2 complex components,
    3 missing types, 4 consistency): the source files with their content,
    which is [source_tree] of the directory when every call answers, or the
    error thrown by [readdirSync], [statSync] or [readFileSync], none of
    which is guarded. *)
Variable source_files : nat -> Completion SourceTree.

(** [this.getSourceFiles()] and the [fs.readFileSync] of a check. *)
Definition read_sources (check : nat) : M SourceTree :=
  fun w =>
    match source_files check with
    | Return srcFiles => (Return srcFiles, w)
    | Throw e => (Throw e, w)
    end.

(** The six checks in order, each after its log line; the value returned
    is the pair of [issues], to which nothing is ever added, and
    [this.suggestions].  An error of the walk or of a read leaves the check
    and the analysis. *)
Definition analyzeCodeQuality (sugg : list Suggestion)
  : M (list string * list Suggestion) :=
  log "Analyzing code quality...";;
  let issues := [] in
  log "Checking for long functions...";;
  srcFiles <- read_sources 0;;
  let sugg1 := checkForLongFunctions srcFiles sugg in
  log "Checking for duplicate code...";;
  srcFiles <- read_sources 1;;
  let sugg2 := checkForDuplicateCode srcFiles sugg1 in
  log "Checking for complex React components...";;
  srcFiles <- read_sources 2;;
  let sugg3 := checkForComplexComponents srcFiles sugg2 in
  log "Checking for missing TypeScript types...";;
  srcFiles <- read_sources 3;;
  let sugg4 := checkForMissingTypes srcFiles sugg3 in
  sugg5 <- checkForUnusedImports sugg4;;
  log "Checking for consistency issues...";;
  srcFiles <- read_sources 4;;
  let sugg6 := checkForConsistencyIssues srcFiles sugg5 in
  ret (issues, sugg6).

(** [run()] of an analyzer made for [prNumber], whose list of suggestions
    starts empty; an error of the analysis leaves [run]. *)
Definition run (prNumber : nat) : M unit :=
  log ("Starting refactoring analysis for PR #" +:+ string_of_nat prNumber);;
  analysis <- analyzeCodeQuality [];;
  let sugg := snd analysis in
  if 0 <? length sugg then
    log ("Found " +:+ string_of_nat (length sugg) +:+ " suggestions for improvement.");;
    generateRefactoringPR env prNumber sugg
  else
    log "No refactoring suggestions found. Code quality looks good!".

End Analysis.

End RefactorAnalyzer.

(** ** test-runner.js

    Console and log-file output is not part of the model.  What a test
    function does on the project is given with the test: how long the call
    takes and whether its promise resolves or rejects. *)
Module TestRunner.

Record TestResult := {
  name : string;
  status : string;
  duration : nat;
  error : option string;
  critical : bool
}.

(** [this.results] *)
Record Results := {
  passed : nat;
  failed : nat;
  skipped : nat;
  tests : list TestResult
}.

(** The runner: [this.results], and the names of the test functions called
    so far, in call order. *)
Record Runner := {
  results : Results;
  called : list string
}.

(** The behaviour of one call of a test function. *)
Record TestFn := {
  elapsed : nat;
  rejection : option string
}.

Record Test := {
  test_name : string;
  fn : TestFn;
  test_critical : bool
}.

(** The constructor's [this.results]. *)
Definition new_runner : Runner :=
  {| results := {| passed := 0; failed := 0; skipped := 0; tests := [] |};
     called := [] |}.

Definition push_test (t : TestResult) (r : Results) : Results :=
  {| passed := passed r; failed := failed r; skipped := skipped r;
     tests := tests r ++ [t] |}.

(** [runTest(testName, testFunction, critical)] *)
Definition runTest (testName : string) (testFunction : TestFn) (is_critical : bool)
    (r : Runner) : Host.Completion TestResult * Runner :=
  let calls := called r ++ [testName] in
  let res := results r in
  match rejection testFunction with
  | None =>
      let result := {| name := testName; status := "passed";
                       duration := elapsed testFunction; error := None;
                       critical := is_critical |} in
      let res1 := {| passed := S (passed res); failed := failed res;
                     skipped := skipped res; tests := tests res |} in
      (Host.Return result, {| results := push_test result res1; called := calls |})
  | Some msg =>
      let result := {| name := testName; status := "failed";
                       duration := elapsed testFunction; error := Some msg;
                       critical := is_critical |} in
      let res1 := {| passed := passed res; failed := S (failed res);
                     skipped := skipped res; tests := tests res |} in
      if is_critical
      then (Host.Throw ("Critical test failed: " +:+ testName),
            {| results := res1; called := calls |})
      else (Host.Return result, {| results := push_test result res1; called := calls |})
  end.

(** [for (const test of tests) { try { await this.runTest(...) } catch { break } }] *)
Fixpoint run_tests (ts : list Test) (r : Runner) : Runner :=
  match ts with
  | [] => r
  | t :: rest =>
      match runTest (test_name t) (fn t) (test_critical t) r with
      | (Host.Return _, r') => run_tests rest r'
      | (Host.Throw _, r') => r'
      end
  end.

(** The behaviour of the eight test methods on the project at hand. *)
Record Suite := {
  testBuild : TestFn;
  testTypeScript : TestFn;
  testLinting : TestFn;
  testDependencies : TestFn;
  testCodeQuality : TestFn;
  testPerformance : TestFn;
  testSecurity : TestFn;
  testAccessibility : TestFn
}.

Definition suite_tests (s : Suite) : list Test :=
  [ {| test_name := "Build Test"; fn := testBuild s; test_critical := true |};
    {| test_name := "TypeScript Check"; fn := testTypeScript s; test_critical := true |};
    {| test_name := "Linting"; fn := testLinting s; test_critical := false |};
    {| test_name := "Dependency Security"; fn := testDependencies s; test_critical := false |};
    {| test_name := "Code Quality"; fn := testCodeQuality s; test_critical := false |};
    {| test_name := "Performance"; fn := testPerformance s; test_critical := false |};
    {| test_name := "Security Scan"; fn := testSecurity s; test_critical := false |};
    {| test_name := "Accessibility"; fn := testAccessibility s; test_critical := false |} ].

(** The report written to [test-report.json] (time stamp and the
    floating-point pass rate left out). *)
Record Report := {
  report_prNumber : option nat;
  summary_total : nat;
  summary_passed : nat;
  summary_failed : nat;
  summary_skipped : nat;
  report_tests : list TestResult
}.

(** [generateReport()]: the report, and the returned [this.results.failed === 0]. *)
Definition generateReport (prNumber : option nat) (r : Runner) : Report * bool :=
  let res := results r in
  let total := passed res + failed res + skipped res in
  ({| report_prNumber := prNumber;
      summary_total := total;
      summary_passed := passed res;
      summary_failed := failed res;
      summary_skipped := skipped res;
      report_tests := tests res |},
   failed res =? 0).

(** [runAllTests()] on a list of tests: the runner after the loop and what
    [generateReport] gives. *)
Definition run_and_report (prNumber : option nat) (ts : list Test) : Runner * (Report * bool) :=
  let r := run_tests ts new_runner in
  (r, generateReport prNumber r).

Definition runAllTests (prNumber : option nat) (s : Suite) : Runner * (Report * bool) :=
  run_and_report prNumber (suite_tests s).

(** The exit code of the script: [process.exit(success ? 0 : 1)] with
    [success = runner.results.failed === 0]. *)
Definition exit_code (r : Runner) : nat :=
  if failed (results r) =? 0 then 0 else 1.

(** *** The test methods *)

(** What [execSync] with [stdio: 'pipe'] gives: the output of a command
    that exits with code 0, or the error it throws, with the exit code
    ([null] for a command ended by a signal), the output captured, if any,
    and the message. *)
Inductive ExecResult :=
| Exited0 (stdout : string)
| ExecFailed (exit_status : option nat) (stdout : option string) (message : string).

(** What the test methods meet on the project: the result of each command
    they run, the error thrown by each walk of the files, if any, and the
    time each test takes. *)
Record Project := {
  build : ExecResult;
  typecheck : ExecResult;
  lint : ExecResult;
  audit : ExecResult;
  outdated : ExecResult;
  quality_walk_error : option string;
  rebuild : ExecResult;
  dist_walk_error : option string;
  secrets_walk_error : option string;
  a11y_walk_error : option string;
  elapsed_ms : string -> nat
}.

(** The message each test method rejects with, [None] when it resolves. *)
Definition testBuild_rejection (r : ExecResult) : option string :=
  match r with
  | Exited0 _ => None
  | ExecFailed _ _ message => Some ("Build failed: " +:+ message)
  end.

Definition testTypeScript_rejection (r : ExecResult) : option string :=
  match r with
  | Exited0 _ => None
  | ExecFailed _ _ message => Some ("TypeScript compilation failed: " +:+ message)
  end.

Definition testLinting_rejection (r : ExecResult) : option string :=
  match r with
  | Exited0 _ => None
  | ExecFailed _ stdout message =>
      let output := match stdout with Some o => o | None => EmptyString end in
      if Js.includes "warning" output && negb (Js.includes "error" output)
      then None
      else Some ("Linting failed: " +:+ message)
  end.

(** Both commands of [testDependencies] run in one [try]: the exit code 1
    of either is reported as vulnerabilities. *)
Definition testDependencies_rejection (audit_result outdated_result : ExecResult)
  : option string :=
  let caught (exit_status : option nat) (message : string) :=
    match exit_status with
    | Some 1 => Some "Security vulnerabilities found in dependencies"
    | _ => Some ("Dependency check failed: " +:+ message)
    end in
  match audit_result with
  | ExecFailed exit_status _ message => caught exit_status message
  | Exited0 _ =>
      match outdated_result with
      | ExecFailed exit_status _ message => caught exit_status message
      | Exited0 _ => None
      end
  end.

Definition walk_rejection (label : string) (walk_error : option string) : option string :=
  match walk_error with
  | Some message => Some (label +:+ message)
  | None => None
  end.

Definition testPerformance_rejection (r : ExecResult) (walk_error : option string)
  : option string :=
  match r with
  | ExecFailed _ _ message => Some ("Performance test failed: " +:+ message)
  | Exited0 _ => walk_rejection "Performance test failed: " walk_error
  end.

(** The eight test methods on a project. *)
Definition suite_of (p : Project) : Suite :=
  let test (name : string) (rejected : option string) :=
    {| elapsed := elapsed_ms p name; rejection := rejected |} in
  {| testBuild := test "Build Test" (testBuild_rejection (build p));
     testTypeScript := test "TypeScript Check" (testTypeScript_rejection (typecheck p));
     testLinting := test "Linting" (testLinting_rejection (lint p));
     testDependencies :=
       test "Dependency Security" (testDependencies_rejection (audit p) (outdated p));
     testCodeQuality :=
       test "Code Quality" (walk_rejection "Code quality check failed: " (quality_walk_error p));
     testPerformance :=
       test "Performance" (testPerformance_rejection (rebuild p) (dist_walk_error p));
     testSecurity :=
       test "Security Scan" (walk_rejection "Security test failed: " (secrets_walk_error p));
     testAccessibility :=
       test "Accessibility"
         (walk_rejection "Accessibility test failed: " (a11y_walk_error p)) |}.

(** The command exited with code 0. *)
Definition exited0 (r : ExecResult) : bool :=
  match r with
  | Exited0 _ => true
  | ExecFailed _ _ _ => false
  end.

(** The linter exited with code 0, or its output speaks of a warning and
    nowhere of an error. *)
Definition lint_tolerated (r : ExecResult) : bool :=
  match r with
  | Exited0 _ => true
  | ExecFailed _ (Some output) _ =>
      Js.includes "warning" output && negb (Js.includes "error" output)
  | ExecFailed _ None _ => false
  end.

(** The results [generateReport] lists under "Failed Tests:". *)
Definition failed_tests (r : Runner) : list TestResult :=
  List.filter (fun t => String.eqb (status t) "failed") (tests (results r)).

(** *** Vocabulary of the statements about the runner *)

(** The promise of the test function rejects. *)
Definition rejects (t : Test) : bool :=
  match rejection (fn t) with Some _ => true | None => false end.

(** A critical test that fails. *)
Definition aborts (t : Test) : bool := test_critical t && rejects t.

(** The result object [runTest] builds for a test. *)
Definition result_of (t : Test) : TestResult :=
  {| name := test_name t;
     status := if rejects t then "failed" else "passed";
     duration := elapsed (fn t);
     error := rejection (fn t);
     critical := test_critical t |}.

(** A test function that resolves, and one that rejects. *)
Definition resolves_after (ms : nat) : TestFn := {| elapsed := ms; rejection := None |}.
Definition rejects_after (ms : nat) (msg : string) : TestFn :=
  {| elapsed := ms; rejection := Some msg |}.

(** Five checks, the second critical and failing. *)
Definition five_checks : list Test :=
  [ {| test_name := "first"; fn := resolves_after 10; test_critical := false |};
    {| test_name := "second"; fn := rejects_after 20 "Build failed: exit code 1";
       test_critical := true |};
    {| test_name := "third"; fn := resolves_after 30; test_critical := false |};
    {| test_name := "fourth"; fn := resolves_after 40; test_critical := false |};
    {| test_name := "fifth"; fn := resolves_after 50; test_critical := true |} ].

(** A project on which only the linter (an advisory check) fails. *)
Definition lint_fails : Suite :=
  {| testBuild := resolves_after 900;
     testTypeScript := resolves_after 400;
     testLinting := rejects_after 120 "Linting failed: Command failed: npm run lint";
     testDependencies := resolves_after 300;
     testCodeQuality := resolves_after 5;
     testPerformance := resolves_after 950;
     testSecurity := resolves_after 7;
     testAccessibility := resolves_after 4 |}.

End TestRunner.

(** ** pr-monitor.js *)
Module PRMonitor.
Import Js Host.
Local Open Scope host_scope.

(** The object returned by [analyzePRChanges]; its fields [additions] and
    [deletions] are [total_additions] and [total_deletions] here, apart from
    those of a changed file ([fileTypes], a count per extension that nothing
    reads, is left out). *)
Record Analysis := {
  totalFiles : nat;
  total_additions : nat;
  total_deletions : nat;
  criticalFiles : list string;
  testFiles : list string
}.

(** The object returned by [runTests]. *)
Record TestResults := {
  success : bool;
  errors : list string
}.

Definition is_critical_file (f : string) : bool :=
  includes "package.json" f || includes "tsconfig" f ||
  includes "vite.config" f || includes "supabase/migrations" f.

Definition is_test_file (f : string) : bool :=
  includes ".test." f || includes ".spec." f || includes "__tests__" f.

Definition analysis_of (files : list ChangedFile) : Analysis :=
  {| totalFiles := length files;
     total_additions := fold_left (fun sum f => sum + additions f) files 0;
     total_deletions := fold_left (fun sum f => sum + deletions f) files 0;
     criticalFiles := List.filter is_critical_file (map filename files);
     testFiles := List.filter is_test_file (map filename files) |}.

(** [analysis && (analysis.totalFiles > 5 || analysis.additions > 100)] *)
Definition needs_refactoring (analysis : option Analysis) : bool :=
  match analysis with
  | Some a => (5 <? totalFiles a) || (100 <? total_additions a)
  | None => false
  end.

(** [`${analysis?.x || 'N/A'}`]: an absent analysis and the number 0 both
    give [N/A]. *)
Definition or_NA (x : option nat) : string :=
  match x with
  | Some (S n) => string_of_nat (S n)
  | _ => "N/A"
  end.

Definition success_body (analysis : option Analysis) : string :=
  "✅ **Automated Testing Complete**" +:+ nl +:+ nl +:+
  "All tests passed successfully!" +:+ nl +:+ nl +:+
  "**Analysis:**" +:+ nl +:+
  "- Files changed: " +:+ or_NA (totalFiles <$> analysis) +:+ nl +:+
  "- Lines added: " +:+ or_NA (total_additions <$> analysis) +:+ nl +:+
  "- Lines deleted: " +:+ or_NA (total_deletions <$> analysis) +:+ nl +:+ nl +:+
  "Build, linting, and type checking all completed successfully.".

Definition failure_body (errs : list string) : string :=
  "❌ **Automated Testing Failed**" +:+ nl +:+ nl +:+
  "The following issues were found:" +:+ nl +:+ nl +:+
  String.concat nl (map (fun e => "- " +:+ e) errs) +:+
  nl +:+ nl +:+ "Please fix these issues before merging.".

(** The command run by [triggerRefactoring]. *)
Definition refactor_command (dir : string) (prNumber : nat) : string :=
  "node " +:+ dir +:+ "/refactor-analyzer.js " +:+ string_of_nat prNumber.

Section WithEnv.
Variable env : Env.

Definition log (msg : string) : M unit := append_log msg.

Definition getLastCheckedTime : M Timestamp :=
  stored <- try_catch
              (there <- fs_existsSync_lastChecked;;
               if there : bool
               then content <- fs_readFileSync_lastChecked env;; ret (Some content)
               else ret None)
              (fun e => log ("Error reading last checked time: " +:+ e);; ret None);;
  match stored with
  | Some content => ret content
  | None => now <- date_now env;; ret (Some (now - 24 * 60 * 60 * 1000)%Z)
  end.

Definition updateLastCheckedTime : M unit :=
  now <- date_now env;;
  fs_writeFileSync_lastChecked env (Some now).

Definition getNewPullRequests : M (list PullRequest) :=
  try_catch
    (lastChecked <- getLastCheckedTime;;
     pullRequests <- octokit_pulls_list env;;
     let newPRs := List.filter (fun pr => date_gt (created_at pr) lastChecked) pullRequests in
     ret newPRs)
    (fun e => log ("Error fetching pull requests: " +:+ e);; ret []).

Definition analyzePRChanges (prNumber : nat) : M (option Analysis) :=
  try_catch
    (files <- octokit_pulls_listFiles env prNumber;;
     ret (Some (analysis_of files)))
    (fun e => log ("Error analyzing PR changes: " +:+ e);; ret None).

Definition runTests (prNumber : nat) (branchName : string) : M TestResults :=
  log ("Running tests for PR #" +:+ string_of_nat prNumber +:+ " on branch " +:+ branchName);;
  try_finally
    (try_catch
       (execSync env ("git fetch origin pull/" +:+ string_of_nat prNumber +:+
                      "/head:pr-" +:+ string_of_nat prNumber);;
        execSync env ("git checkout pr-" +:+ string_of_nat prNumber);;
        log "Installing dependencies...";;
        execSync env "npm install";;
        log "Running ESLint...";;
        try_catch
          (execSync env "npm run lint")
          (fun _ => log "Linting failed, but continuing with tests...");;
        log "Testing build...";;
        execSync env "npm run build";;
        log "Running TypeScript type check...";;
        execSync env "npx tsc --noEmit";;
        log "All tests passed successfully!";;
        ret {| success := true; errors := [] |})
       (fun e =>
          log ("Tests failed: " +:+ e);;
          ret {| success := false; errors := [e] |}))
    (try_catch
       (execSync env "git checkout main")
       (fun e => log ("Error returning to main branch: " +:+ e))).

Definition triggerRefactoring (pr : PullRequest) : M unit :=
  log ("Triggering refactoring analysis for PR #" +:+ string_of_nat (number pr));;
  try_catch
    (execSync env (refactor_command (scriptsDir env) (number pr)))
    (fun e => log ("Refactoring analysis failed: " +:+ e)).

Definition createRefactoringBranch (prNumber : nat) : M (option string) :=
  let branchName := "refactor/pr-" +:+ string_of_nat prNumber +:+ "-improvements" in
  try_catch
    (execSync env ("git checkout -b " +:+ branchName);;
     ret (Some branchName))
    (fun e => log ("Error creating refactoring branch: " +:+ e);; ret None).

(** The part of [processPullRequest] after the test run: the report comment
    and the remediation trigger. *)
Definition report_results (pr : PullRequest) (analysis : option Analysis)
    (testResults : TestResults) : M unit :=
  if success testResults then
    log ("Tests passed for PR #" +:+ string_of_nat (number pr));;
    octokit_issues_createComment env (number pr) (success_body analysis);;
    if needs_refactoring analysis then triggerRefactoring pr else ret tt
  else
    log ("Tests failed for PR #" +:+ string_of_nat (number pr));;
    octokit_issues_createComment env (number pr) (failure_body (errors testResults)).

(** The part of [processPullRequest] between the analysis and the test
    run: [if (analysis) { ... }], which only logs. *)
Definition log_analysis (analysis : option Analysis) : M unit :=
  match analysis with
  | Some a =>
      log ("PR Analysis: " +:+ string_of_nat (totalFiles a) +:+ " files, +" +:+
           string_of_nat (total_additions a) +:+ "/-" +:+
           string_of_nat (total_deletions a) +:+ " lines");;
      if 0 <? length (criticalFiles a)
      then log ("Critical files modified: " +:+ String.concat ", " (criticalFiles a))
      else ret tt
  | None => ret tt
  end.

Definition processPullRequest (pr : PullRequest) : M unit :=
  log ("Processing PR #" +:+ string_of_nat (number pr) +:+ ": " +:+ title pr);;
  analysis <- analyzePRChanges (number pr);;
  log_analysis analysis;;
  testResults <- runTests (number pr) (head_ref pr);;
  report_results pr analysis testResults.

(** [for (const pr of newPRs) { await this.processPullRequest(pr); }] *)
Fixpoint process_all (prs : list PullRequest) : M unit :=
  match prs with
  | [] => ret tt
  | pr :: rest => processPullRequest pr;; process_all rest
  end.

Definition start : M unit :=
  log "Starting PR monitor...";;
  newPRs <- getNewPullRequests;;
  (if length newPRs =? 0
   then log "No new pull requests found."
   else
     log ("Found " +:+ string_of_nat (length newPRs) +:+ " new pull request(s)");;
     process_all newPRs);;
  updateLastCheckedTime;;
  log "PR monitor cycle complete.".

End WithEnv.

(** *** Vocabulary of the statements about a run *)

(** What a run from [w] to [w'] added to the trace and to the log. *)
Definition new_events (w w' : World) : list Event := drop (length (trace w)) (trace w').
Definition new_logs (w w' : World) : list string := drop (length (logs w)) (logs w').

(** The remediation workflow was started for [pr] between [w] and [w']. *)
Definition refactoring_triggered (env : Env) (pr : PullRequest) (w w' : World) : Prop :=
  exists ok, In (Exec (refactor_command (scriptsDir env) (number pr)) ok) (new_events w w').

(** The event [ev] is not the start of the remediation workflow for unit [k]. *)
Definition no_trigger (env : Env) (k : nat) (ev : Event) : Prop :=
  forall ok, ev <> Exec (refactor_command (scriptsDir env) k) ok.

(** The first log line of [processPullRequest]. *)
Definition processing_line (pr : PullRequest) : string :=
  "Processing PR #" +:+ string_of_nat (number pr) +:+ ": " +:+ title pr.

(** The unit [pr] was processed between [w] and [w']: its processing was
    announced and its report comment was posted. *)
Definition processed (pr : PullRequest) (w w' : World) : Prop :=
  In (processing_line pr) (new_logs w w') /\
  exists body, In (IssuesCreateComment (number pr) body true) (new_events w w').

(** Cycles one after the other, the daemon idle for [gap] external-call
    slots of the environment before each. *)
Definition idle (gap : nat) (w : World) : World :=
  {| branch := branch w; ticks := ticks w + gap; trace := trace w; logs := logs w;
     lastCheckedFile := lastCheckedFile w |}.

Fixpoint run_cycles (env : Env) (gaps : list nat) (w : World) : World :=
  match gaps with
  | [] => w
  | gap :: rest => run_cycles env rest (snd (start env (idle gap w)))
  end.

(** The commands of [runTests] before the [finally], in script order, and
    those among them outside an inner [try]. *)
Definition fetch_command (prNumber : nat) : string :=
  "git fetch origin pull/" +:+ string_of_nat prNumber +:+ "/head:pr-" +:+ string_of_nat prNumber.

Definition checkout_command (prNumber : nat) : string :=
  "git checkout pr-" +:+ string_of_nat prNumber.

Definition mandatory_commands (prNumber : nat) : list string :=
  [ fetch_command prNumber; checkout_command prNumber; "npm install"; "npm run build";
    "npx tsc --noEmit" ].

(** The event is a call of [issues.createComment]. *)
Definition is_comment (ev : Event) : bool :=
  match ev with
  | IssuesCreateComment _ _ _ => true
  | _ => false
  end.

(** The event is a command run by [execSync]. *)
Definition is_exec (ev : Event) : bool :=
  match ev with
  | Exec _ _ => true
  | _ => false
  end.

(** The checkpoint file is left as it was. *)
Definition same_checkpoint (w w' : World) : Prop := lastCheckedFile w' = lastCheckedFile w.

(** The checkpoint file is left as it was and the count of external calls
    did not go back. *)
Definition untouched (w w' : World) : Prop := same_checkpoint w w' /\ ticks w <= ticks w'.

End PRMonitor.

(** ** monitor-daemon.js *)
Module MonitorDaemon.
Import Js Host.
Local Open Scope host_scope.

(** The values of JSON.  Numbers are the integers of magnitude below
    [2^53], which [JSON.parse] reads exactly and [String] prints by their
    decimal digits; fractions and larger numbers are outside the model. *)
#[warnings="-register-all"] Inductive Json :=
| JNull
| JBool (b : bool)
| JNumber (z : Z)
| JString (s : string)
| JArray (items : list Json)
| JObject (fields : list (string * Json)).

(** An object by its own properties: the configuration, and what an
    object spread copies. *)
Definition Config : Type := gmap string Json.

(** The keys of the characters of a string and of the items of an array:
    their indices. *)
Definition indexed {A} (wrap : A -> Json) (l : list A) : Config :=
  list_to_map (imap (fun i x => (string_of_nat i, wrap x)) l).

(** The own enumerable properties of a value, as [{...value}] copies them:
    the fields of an object, the last one of a name that occurs twice; the
    items of an array and the characters of a string under their indices;
    none of a number, a boolean or [null]. *)
Definition spread (value : Json) : Config :=
  match value with
  | JObject fields => list_to_map (rev fields)
  | JArray items => indexed id items
  | JString s => indexed (fun c => JString (String c EmptyString)) (list_ascii_of_string s)
  | JNull | JBool _ | JNumber _ => ∅
  end.

(** [{...a, ...b}]: the properties of [b], then those of [a] it lacks. *)
Definition merge (a b : Config) : Config := b ∪ a.

Definition defaultConfig : Config :=
  list_to_map
    [ ("checkInterval", JString "*/5 * * * *");
      ("enableAutoRefactoring", JBool true);
      ("enableAutoTesting", JBool true);
      ("maxConcurrentPRs", JNumber 3);
      ("notifications",
       JObject [("slack", JBool false); ("email", JBool false); ("discord", JBool false)]) ].

(** The file [monitor-config.json] as [loadConfig] meets it: absent; there
    and read or parsed with an error; there and parsed. *)
Inductive ConfigFile :=
| NoFile
| Unreadable (error : string)
| Parsed (value : Json).

(** What a call did besides returning: the configuration it wrote to the
    file, if any, and the lines it logged. *)
Record Effects := {
  written : option Config;
  logged : list string
}.

(** [loadConfig()]; [write_error] is what [fs.writeFileSync] throws, if it
    does. *)
Definition loadConfig (file : ConfigFile) (write_error : option string)
  : Completion Config * Effects :=
  let save_default (lines : list string) :=
    match write_error with
    | Some e => (Throw e, {| written := None; logged := lines |})
    | None => (Return defaultConfig, {| written := Some defaultConfig; logged := lines |})
    end in
  match file with
  | Parsed userConfig =>
      (Return (merge defaultConfig (spread userConfig)), {| written := None; logged := [] |})
  | Unreadable e => save_default ["Error loading config: " +:+ e]
  | NoFile => save_default []
  end.

(** The daemon: [this.isRunning] and [this.config]. *)
Record Daemon := {
  isRunning : bool;
  config : Config
}.

(** [updateConfig(newConfig)]: the value returned and the daemon after. *)
Definition updateConfig (d : Daemon) (newConfig : Config) (write_error : option string)
  : bool * Daemon * Effects :=
  let updatedConfig := merge (config d) newConfig in
  match write_error with
  | None =>
      (true, {| isRunning := isRunning d; config := updatedConfig |},
       {| written := Some updatedConfig;
          logged := ["📝 Configuration updated successfully"] |})
  | Some e =>
      (false, d,
       {| written := None; logged := ["❌ Failed to update configuration: " +:+ e] |})
  end.

(** What [JSON.parse] makes of the text [JSON.stringify] wrote for a
    configuration. *)
Definition file_of (c : Config) : ConfigFile := Parsed (JObject (map_to_list c)).

(** *** showLogs *)

(** [a.slice(start)] *)
Definition slice_from {A} (start : Z) (a : list A) : list A :=
  let len := Z.of_nat (length a) in
  let k := if (start <? 0)%Z then Z.max (len + start) 0 else Z.min start len in
  drop (Z.to_nat k) a.

Inductive Colour := red | yellow | green | plain.

(** The colour [showLogs] prints a line in. *)
Definition entry_colour (line : string) : Colour :=
  if includes "[ERROR]" line then red
  else if includes "[WARNING]" line then yellow
  else if includes "[SUCCESS]" line then green
  else plain.

(** The lines of the log that are not blank. *)
Definition log_entries (logContent : string) : list string :=
  List.filter (fun line => negb (String.eqb (trim line) EmptyString))
    (split_lines logContent).

(** The entries [showLogs(lines)] prints from the content of the log. *)
Definition recent_entries (lines : Z) (logContent : string) : list string :=
  let logLines := log_entries logContent in
  slice_from (- lines) logLines.

(** [showLogs(lines)]: the number in the heading and the entries printed,
    each with its colour; or the line logged when the log cannot be read. *)
Definition showLogs (lines : Z) (logFile : Completion string)
  : option (nat * list (Colour * string)) * list string :=
  match logFile with
  | Return logContent =>
      let recentLines := recent_entries lines logContent in
      (Some (length recentLines, map (fun line => (entry_colour line, line)) recentLines), [])
  | Throw e => (None, ["❌ Failed to read logs: " +:+ e])
  end.

(** *** start *)

(** [String(value)] inside a template literal. *)
Fixpoint display (value : Json) : string :=
  match value with
  | JNull => "null"
  | JBool true => "true"
  | JBool false => "false"
  | JNumber z => NilEmpty.string_of_int (Z.to_int z)
  | JString s => s
  | JArray items =>
      String.concat ","
        (map (fun item => match item with JNull => EmptyString | _ => display item end) items)
  | JObject _ => "[object Object]"
  end.

Definition display_property (c : Config) (key : string) : string :=
  match c !! key with
  | Some value => display value
  | None => "undefined"
  end.

(** Truthiness of a property. *)
Definition truthy_property (c : Config) (key : string) : bool :=
  match c !! key with
  | None | Some JNull | Some (JBool false) => false
  | Some (JNumber z) => negb (z =? 0)%Z
  | Some (JString s) => negb (String.eqb s EmptyString)
  | Some _ => true
  end.

Section WithEnv.
Variable env : Env.

(** What [cron.schedule] throws for an expression it does not accept; the
    expression is the property [checkInterval], absent or of any value. *)
Variable schedule_error : option Json -> option string.

(** The console line of [log(message, level)]; the level gives its colour. *)
Definition log (message level : string) : M unit := append_log message.

(** The task given to [cron.schedule]: one run of it. *)
Definition scheduled_check : M unit :=
  try_catch
    (log "🔍 Running scheduled PR check..." "info";;
     PRMonitor.start env;;
     log "✅ Scheduled PR check completed" "success")
    (fun e => log ("❌ Scheduled PR check failed: " +:+ e) "error").

(** The first four lines [start()] logs on a daemon that is not running. *)
Definition announce (d : Daemon) : M unit :=
  log "🚀 Starting PR Monitor Daemon" "success";;
  log ("📅 Check interval: " +:+ display_property (config d) "checkInterval") "info";;
  log ("🔧 Auto-refactoring: " +:+
       (if truthy_property (config d) "enableAutoRefactoring" then "enabled" else "disabled"))
      "info";;
  log ("🧪 Auto-testing: " +:+
       (if truthy_property (config d) "enableAutoTesting" then "enabled" else "disabled"))
      "info".

(** [start()] up to the timer that keeps the process alive: the daemon
    after the call. *)
Definition start (d : Daemon) : M Daemon :=
  if isRunning d then
    log "Monitor daemon is already running" "warning";;
    ret d
  else
    let d' := {| isRunning := true; config := config d |} in
    announce d;;
    match schedule_error (config d !! "checkInterval") with
    | Some e => throw e
    | None => ret tt
    end;;
    try_catch
      (log "🔍 Running initial PR check..." "info";;
       PRMonitor.start env;;
       log "✅ Initial PR check completed" "success")
      (fun e => log ("❌ Initial PR check failed: " +:+ e) "error");;
    log "✨ PR Monitor Daemon is now running" "success";;
    log "Press Ctrl+C to stop" "info";;
    ret d'.

(** Runs of the scheduled task one after the other, the daemon idle for
    [gap] external-call slots of the environment before each. *)
Fixpoint scheduled_checks (gaps : list nat) (w : World) : Completion unit * World :=
  match gaps with
  | [] => (Return tt, w)
  | gap :: rest =>
      match scheduled_check (PRMonitor.idle gap w) with
      | (Return _, w') => scheduled_checks rest w'
      | (Throw e, w') => (Throw e, w')
      end
  end.

End WithEnv.

End MonitorDaemon.

(** ** setup.js: the questions of setupEnvironment and what it saves *)
Module SetupManager.
Import Js.

(** A validator returns [true], here [None], or the message shown. *)
Definition validate_token (input : string) : option string :=
  if String.eqb input EmptyString || (String.length input <? 10)
  then Some "Please enter a valid GitHub token"
  else None.

Definition validate_cron (input : string) : option string :=
  let parts := split_on " " input in
  if negb (length parts =? 5)
  then Some "Cron expression must have 5 parts (minute hour day month weekday)"
  else None.

(** The number typed, [None] for [NaN]; a comparison with [NaN] is false. *)
Definition validate_max (input : option Z) : option string :=
  match input with
  | Some n =>
      if (n <? 1)%Z || (10 <? n)%Z
      then Some "Please enter a number between 1 and 10"
      else None
  | None => None
  end.

(** The values of the choices of the list question. *)
Definition interval_choices : list string :=
  [ "*/5 * * * *"; "*/15 * * * *"; "*/30 * * * *"; "0 * * * *"; "custom" ].

(** The answers object; [customInterval] is absent when its question was
    not asked. *)
Record Answers := {
  githubToken : string;
  checkInterval : string;
  customInterval : option string;
  enableAutoRefactoring : bool;
  enableAutoTesting : bool;
  maxConcurrentPRs : option Z
}.

(** What the prompt gives: an answer to each question asked, accepted by
    its validator; the custom expression is asked for exactly when the
    choice is [custom]. *)
Definition prompted (a : Answers) : Prop :=
  validate_token (githubToken a) = None /\
  In (checkInterval a) interval_choices /\
  match customInterval a with
  | Some expression => checkInterval a = "custom" /\ validate_cron expression = None
  | None => checkInterval a <> "custom"
  end /\
  validate_max (maxConcurrentPRs a) = None.

(** The content of the file [.env]. *)
Definition envContent (a : Answers) : string := "GITHUB_TOKEN=" +:+ githubToken a +:+ nl.

(** [answers.customInterval || answers.checkInterval] *)
Definition chosen_interval (a : Answers) : string :=
  match customInterval a with
  | Some expression =>
      if String.eqb expression EmptyString then checkInterval a else expression
  | None => checkInterval a
  end.

(** The configuration saved, as [JSON.stringify] writes it: [NaN] is
    written as [null]. *)
Definition saved_config (a : Answers) : MonitorDaemon.Config :=
  list_to_map
    [ ("checkInterval", MonitorDaemon.JString (chosen_interval a));
      ("enableAutoRefactoring", MonitorDaemon.JBool (enableAutoRefactoring a));
      ("enableAutoTesting", MonitorDaemon.JBool (enableAutoTesting a));
      ("maxConcurrentPRs",
       match maxConcurrentPRs a with
       | Some n => MonitorDaemon.JNumber n
       | None => MonitorDaemon.JNull
       end);
      ("notifications",
       MonitorDaemon.JObject
         [ ("slack", MonitorDaemon.JBool false); ("email", MonitorDaemon.JBool false);
           ("discord", MonitorDaemon.JBool false) ]) ].

End SetupManager.

(** ** Concrete inputs used by the examples below *)
Module Examples.
Import Js Host.

(** A host where every external call succeeds: no open unit, one changed
    file with 200 added lines per unit; the clock advances by one second per
    external call. *)
Definition env_ok : Env :=
  {| scriptsDir := "/repo/scripts";
     exec_error := fun _ _ => None;
     pulls_list := fun _ => Return [];
     pulls_listFiles := fun _ _ =>
       Return [ {| filename := "src/App.tsx"; additions := 200; deletions := 0 |} ];
     issues_createComment_error := fun _ _ _ => None;
     pulls_create := fun _ _ _ _ _ => Return "https://github.com/Ch0daboy/Unstack/pull/9";
     clock := fun t => (1000 * Z.of_nat t)%Z;
     fs_read_error := fun _ => None;
     fs_write_error := fun _ => None |}.

(** The same host where the commands of [failing] exit with an error. *)
Definition with_exec_failing (failing : list string) (e : Env) : Env :=
  {| scriptsDir := scriptsDir e;
     exec_error := fun t cmd =>
       if existsb (String.eqb cmd) failing then Some ("Command failed: " +:+ cmd)
       else exec_error e t cmd;
     pulls_list := pulls_list e;
     pulls_listFiles := pulls_listFiles e;
     issues_createComment_error := issues_createComment_error e;
     pulls_create := pulls_create e;
     clock := clock e;
     fs_read_error := fs_read_error e;
     fs_write_error := fs_write_error e |}.

(** The same host with another answer to the list call. *)
Definition with_pulls (answer : nat -> Completion (list PullRequest)) (e : Env) : Env :=
  {| scriptsDir := scriptsDir e;
     exec_error := exec_error e;
     pulls_list := answer;
     pulls_listFiles := pulls_listFiles e;
     issues_createComment_error := issues_createComment_error e;
     pulls_create := pulls_create e;
     clock := clock e;
     fs_read_error := fs_read_error e;
     fs_write_error := fs_write_error e |}.

(** The same host where posting a comment on unit [issue] fails. *)
Definition with_comment_failing (issue : nat) (e : Env) : Env :=
  {| scriptsDir := scriptsDir e;
     exec_error := exec_error e;
     pulls_list := pulls_list e;
     pulls_listFiles := pulls_listFiles e;
     issues_createComment_error := fun t n body =>
       if n =? issue then Some "HttpError: Resource not accessible by integration"
       else issues_createComment_error e t n body;
     pulls_create := pulls_create e;
     clock := clock e;
     fs_read_error := fs_read_error e;
     fs_write_error := fs_write_error e |}.

Definition env_failing (failing : list string) : Env := with_exec_failing failing env_ok.

(** The working tree on the baseline branch, nothing done yet. *)
Definition world0 : World :=
  {| branch := "main"; ticks := 0; trace := []; logs := []; lastCheckedFile := None |}.

Definition with_checkpoint (T : Timestamp) (w : World) : World :=
  {| branch := branch w; ticks := ticks w; trace := trace w; logs := logs w;
     lastCheckedFile := Some T |}.

Definition pr7 : PullRequest :=
  {| number := 7; title := "Add login"; head_ref := "feature/login"; created_at := Some 5000%Z |}.

Definition pr8 : PullRequest :=
  {| number := 8; title := "Fix typo"; head_ref := "fix/typo"; created_at := Some 6000%Z |}.

(** Two open units, newest first; everything succeeds, except that the
    report comment cannot be posted on unit 8. *)
Definition env_two_units : Env := with_pulls (fun _ => Return [pr8; pr7]) env_ok.
Definition env_comment_fails_8 : Env := with_comment_failing 8 env_two_units.

(** Two open units, and a project whose build fails. *)
Definition env_build_fails : Env := with_exec_failing ["npm run build"] env_two_units.

(** The analysis of the one changed file of [env_ok]. *)
Definition analysis_200 : PRMonitor.Analysis :=
  {| PRMonitor.totalFiles := 1; PRMonitor.total_additions := 200;
     PRMonitor.total_deletions := 0; PRMonitor.criticalFiles := [];
     PRMonitor.testFiles := [] |}.

(** The list call fails in the first cycle (at external call 0); later it
    answers with a unit created before that cycle ran and one created
    after it. *)
Definition pr_before_outage : PullRequest :=
  {| number := 21; title := "Opened during the outage"; head_ref := "outage";
     created_at := Some 500%Z |}.

Definition pr_after_outage : PullRequest :=
  {| number := 22; title := "Opened later"; head_ref := "later";
     created_at := Some 4000%Z |}.

Definition env_outage : Env :=
  with_pulls (fun t => if t =? 0 then Throw "HttpError: connect ETIMEDOUT"
                       else Return [pr_after_outage; pr_before_outage])
    env_ok.

(** A function of [n] body lines: a declaration line, the body, the
    closing brace; and a file that holds it after two lines and before one. *)
Definition function_lines (n : nat) : list string :=
  "function render() {" :: repeat "  work();" n ++ ["}"].

Definition file_with_function (n : nat) : string :=
  join_lines (["import { work } from './work';"; ""] ++ function_lines n ++ [""]).

Definition tree_with_function (n : nat) : RefactorAnalyzer.SourceTree :=
  [ ("src/util.ts", "export const one = 1;"); ("src/render.ts", file_with_function n) ].

(** Two files that share one block of five lines (more than 50 characters
    once joined and trimmed) at different places, and nothing else. *)
Definition shared_block : list string :=
  [ "  const total = items.reduce((sum, item) => sum + item.price, 0);";
    "  const tax = total * TAX_RATE;";
    "  const shipping = total > FREE_SHIPPING ? 0 : SHIPPING_FEE;";
    "  const grand = total + tax + shipping;";
    "  return formatCurrency(grand);" ].

Definition cart_file : string :=
  join_lines (["export function cartTotal(items) {"] ++ shared_block ++ ["}"]).

Definition invoice_file : string :=
  join_lines (["import { formatCurrency } from './format';"; "";
               "export function invoiceTotal(items) {"] ++ shared_block ++
              ["  // rounding is left to the caller"; "}"]).

Definition tree_with_duplicate : RefactorAnalyzer.SourceTree :=
  [ ("src/cart.ts", cart_file); ("src/invoice.ts", invoice_file) ].


(** One high-severity, no medium-severity and two low-severity suggestions,
    in the order the scanners would emit them. *)
Definition suggestion_low_any : RefactorAnalyzer.Suggestion :=
  {| RefactorAnalyzer.type := RefactorAnalyzer.improvement;
     RefactorAnalyzer.file := Some "src/api.ts";
     RefactorAnalyzer.line := None;
     RefactorAnalyzer.message :=
       "Found 3 usage(s) of 'any' type. Consider using specific types.";
     RefactorAnalyzer.severity := RefactorAnalyzer.low;
     RefactorAnalyzer.suggestion := "Replace any types with specific type definitions." |}.

Definition suggestion_high_lines : RefactorAnalyzer.Suggestion :=
  {| RefactorAnalyzer.type := RefactorAnalyzer.refactor;
     RefactorAnalyzer.file := Some "src/components/Board.tsx";
     RefactorAnalyzer.line := None;
     RefactorAnalyzer.message :=
       "Component is 412 lines long. Consider breaking into smaller components.";
     RefactorAnalyzer.severity := RefactorAnalyzer.high;
     RefactorAnalyzer.suggestion :=
       "Split this component into smaller, more focused components." |}.

Definition suggestion_low_quotes : RefactorAnalyzer.Suggestion :=
  {| RefactorAnalyzer.type := RefactorAnalyzer.consistency;
     RefactorAnalyzer.file := None;
     RefactorAnalyzer.line := None;
     RefactorAnalyzer.message :=
       "Mixed quote styles found. Consider using single quotes consistently.";
     RefactorAnalyzer.severity := RefactorAnalyzer.low;
     RefactorAnalyzer.suggestion := "Use single quotes throughout the codebase." |}.

Definition one_high_two_low : list RefactorAnalyzer.Suggestion :=
  [suggestion_low_any; suggestion_high_lines; suggestion_low_quotes].

(** A project on which the build passes and the type check, the second
    critical check, fails. *)
Definition typecheck_fails : TestRunner.Suite :=
  {| TestRunner.testBuild := TestRunner.resolves_after 900;
     TestRunner.testTypeScript :=
       TestRunner.rejects_after 400
         "TypeScript compilation failed: Command failed: npx tsc --noEmit";
     TestRunner.testLinting := TestRunner.resolves_after 120;
     TestRunner.testDependencies := TestRunner.resolves_after 300;
     TestRunner.testCodeQuality := TestRunner.resolves_after 5;
     TestRunner.testPerformance := TestRunner.resolves_after 950;
     TestRunner.testSecurity := TestRunner.resolves_after 7;
     TestRunner.testAccessibility := TestRunner.resolves_after 4 |}.

(** The scenario of the specification: the checkpoint is
    2024-01-01T00:00:00Z, one unit was created at 2023-12-31T23:00:00Z and
    one at 2024-01-01T01:00:00Z (milliseconds since the epoch). *)
Definition checkpoint_2024 : Z := 1704067200000%Z.

Definition pr_old : PullRequest :=
  {| number := 11; title := "Old"; head_ref := "old"; created_at := Some 1704063600000%Z |}.

Definition pr_new : PullRequest :=
  {| number := 12; title := "New"; head_ref := "new"; created_at := Some 1704070800000%Z |}.

Definition pr_at_checkpoint : PullRequest :=
  {| number := 13; title := "Same instant"; head_ref := "same";
     created_at := Some checkpoint_2024 |}.

(** A repository with 31 open units, all opened after the checkpoint, unit
    [i] at [i] ms after it; newest first.  The list call answers with the
    first page. *)
Definition opened (i : nat) : PullRequest :=
  {| number := i; title := "Unit " +:+ string_of_nat i;
     head_ref := "topic-" +:+ string_of_nat i;
     created_at := Some (checkpoint_2024 + Z.of_nat i)%Z |}.

Definition open_units_31 : list PullRequest := map opened (rev (seq 1 31)).

Definition env_31_open : Env := with_pulls (fun _ => Return (first_page open_units_31)) env_ok.


End Examples.

(** * Properties *)

Import Js Host.
Local Open Scope host_scope.

(** ** Restoring the baseline branch (runTests, generateRefactoringPR) *)

(** C1 as stated fails: with every step of the test run succeeding and the
    final [git checkout main] failing, [runTests] returns normally, reports
    success, logs the failure and leaves the working tree on [pr-7]. *)
Lemma runTests_may_leave_pr_branch :
  let run := PRMonitor.runTests (Examples.env_failing ["git checkout main"]) 7
               "feature/login" Examples.world0 in
  branch Examples.world0 = "main" /\
  fst run = Return {| PRMonitor.success := true; PRMonitor.errors := [] |} /\
  branch (snd run) = "pr-7" /\
  String.eqb (branch (snd run)) "main" = false /\
  last (logs (snd run)) = Some "Error returning to main branch: Command failed: git checkout main".
Proof. vm_compute. repeat split. Qed.

(** With the build failing and the final checkout succeeding, the test run
    reports the failure and the working tree is back on [main]. *)
Example runTests_failed_build_back_on_main :
  let run := PRMonitor.runTests (Examples.env_failing ["npm run build"]) 7
               "feature/login" Examples.world0 in
  fst run = Return {| PRMonitor.success := false;
                      PRMonitor.errors := ["Command failed: npm run build"] |} /\
  map (fun ev => match ev with Exec cmd ok => (cmd, ok) | _ => (EmptyString, false) end)
      (trace (snd run)) =
    [("git fetch origin pull/7/head:pr-7", true); ("git checkout pr-7", true);
     ("npm install", true); ("npm run lint", true); ("npm run build", false);
     ("git checkout main", true)] /\
  branch (snd run) = "main".
Proof. vm_compute. repeat split. Qed.

(** ** The change detector (getNewPullRequests) *)

Lemma getLastCheckedTime_stored env w T :
  lastCheckedFile w = Some T ->
  fs_read_error env (ticks w) = None ->
  PRMonitor.getLastCheckedTime env w = (Return T, w).
Proof.
  intros Hf Hr.
  unfold PRMonitor.getLastCheckedTime, bind, try_catch, fs_existsSync_lastChecked,
    fs_readFileSync_lastChecked, ret.
  rewrite Hf. cbn. rewrite Hr, Hf. reflexivity.
Qed.

Lemma filter_no_newer (T : Z) (prs : list PullRequest) :
  (forall pr t, In pr prs -> created_at pr = Some t -> (t <= T)%Z) ->
  List.filter (fun pr => date_gt (created_at pr) (Some T)) prs = [].
Proof.
  induction prs as [|pr prs IH]; intros Hold; [reflexivity|].
  simpl. destruct (created_at pr) as [t|] eqn:Et; simpl.
  - assert (t <= T)%Z as Hle by (apply (Hold pr t); [left; reflexivity | exact Et]).
    destruct (Z.ltb_spec T t); [lia|].
    apply IH. intros p t' Hp. apply Hold. right. exact Hp.
  - apply IH. intros p t' Hp. apply Hold. right. exact Hp.
Qed.

(** C5, as the code has it.  With the checkpoint [T] stored and the one list
    call of the detector answering [prs] (the units of the page it is
    given), the detector returns normally, and a unit of [prs] created at
    [t] is among the returned ones exactly when [T < t]; nothing else is
    returned,
    the order of the answer is kept, a unit created exactly at [T] is left
    out, an answer with no newer unit gives the empty list, and the
    checkpoint is not moved. *)
Theorem getNewPullRequests_strictly_newer env w (T : Z) prs :
  lastCheckedFile w = Some (Some T) ->
  fs_read_error env (ticks w) = None ->
  pulls_list env (ticks w) = Return prs ->
  exists news w',
    PRMonitor.getNewPullRequests env w = (Return news, w') /\
    (forall pr t, In pr prs -> created_at pr = Some t -> (In pr news <-> (T < t)%Z)) /\
    (forall pr, In pr news -> In pr prs) /\
    (forall pr, In pr prs -> created_at pr = Some T -> ~ In pr news) /\
    news = List.filter (fun pr => date_gt (created_at pr) (Some T)) prs /\
    ((forall pr t, In pr prs -> created_at pr = Some t -> (t <= T)%Z) -> news = []) /\
    lastCheckedFile w' = lastCheckedFile w.
Proof.
  intros Hf Hr Hl.
  exists (List.filter (fun pr => date_gt (created_at pr) (Some T)) prs),
         (step (PullsList true) w).
  assert (Hin : forall pr t, In pr prs -> created_at pr = Some t ->
            (In pr (List.filter (fun pr => date_gt (created_at pr) (Some T)) prs)
             <-> (T < t)%Z)).
  { intros pr t Hpr Ht. rewrite List.filter_In. unfold date_gt. rewrite Ht.
    rewrite Z.ltb_lt. tauto. }
  split; [|split; [|split; [|split; [|split; [|split]]]]].
  - unfold PRMonitor.getNewPullRequests, try_catch. unfold bind at 1.
    rewrite (getLastCheckedTime_stored env w (Some T) Hf Hr).
    unfold bind, octokit_pulls_list, ret. rewrite Hl. reflexivity.
  - exact Hin.
  - intros pr Hpr. apply List.filter_In in Hpr. tauto.
  - intros pr Hpr Ht Hn. apply (Hin pr T Hpr Ht) in Hn. lia.
  - reflexivity.
  - apply filter_no_newer.
  - reflexivity.
Qed.

Lemma getNewPullRequests_strictly_newer_witness :
  let env := Examples.with_pulls
               (fun _ => Return [Examples.pr_new; Examples.pr_at_checkpoint; Examples.pr_old])
               Examples.env_ok in
  let w := Examples.with_checkpoint (Some Examples.checkpoint_2024) Examples.world0 in
  exists news w',
    PRMonitor.getNewPullRequests env w = (Return news, w') /\
    (forall pr t,
       In pr [Examples.pr_new; Examples.pr_at_checkpoint; Examples.pr_old] ->
       created_at pr = Some t -> (In pr news <-> (Examples.checkpoint_2024 < t)%Z)) /\
    (forall pr, In pr news ->
       In pr [Examples.pr_new; Examples.pr_at_checkpoint; Examples.pr_old]) /\
    (forall pr,
       In pr [Examples.pr_new; Examples.pr_at_checkpoint; Examples.pr_old] ->
       created_at pr = Some Examples.checkpoint_2024 -> ~ In pr news) /\
    news = List.filter (fun pr => date_gt (created_at pr) (Some Examples.checkpoint_2024))
             [Examples.pr_new; Examples.pr_at_checkpoint; Examples.pr_old] /\
    ((forall pr t,
        In pr [Examples.pr_new; Examples.pr_at_checkpoint; Examples.pr_old] ->
        created_at pr = Some t -> (t <= Examples.checkpoint_2024)%Z) -> news = []) /\
    lastCheckedFile w' = lastCheckedFile w.
Proof.
  exact (getNewPullRequests_strictly_newer
           (Examples.with_pulls
              (fun _ => Return [Examples.pr_new; Examples.pr_at_checkpoint; Examples.pr_old])
              Examples.env_ok)
           (Examples.with_checkpoint (Some Examples.checkpoint_2024) Examples.world0)
           Examples.checkpoint_2024
           [Examples.pr_new; Examples.pr_at_checkpoint; Examples.pr_old]
           eq_refl eq_refl eq_refl).
Defined.

(** The scenario of the specification: only the unit created after the
    checkpoint is returned. *)
Example getNewPullRequests_scenario :
  fst (PRMonitor.getNewPullRequests
         (Examples.with_pulls
            (fun _ => Return [Examples.pr_new; Examples.pr_at_checkpoint; Examples.pr_old])
            Examples.env_ok)
         (Examples.with_checkpoint (Some Examples.checkpoint_2024) Examples.world0))
  = Return [Examples.pr_new].
Proof. vm_compute. reflexivity. Qed.

(** ** The test runner *)

Section RunTests.
Import TestRunner.

Lemma runTest_passing t r :
  rejects t = false ->
  runTest (test_name t) (fn t) (test_critical t) r =
  (Return (result_of t),
   {| results := {| passed := S (passed (results r)); failed := failed (results r);
                    skipped := skipped (results r);
                    tests := tests (results r) ++ [result_of t] |};
      called := called r ++ [test_name t] |}).
Proof.
  unfold rejects, runTest, result_of, rejects.
  destruct (rejection (fn t)); [discriminate|]. reflexivity.
Qed.

Lemma runTest_advisory_failing t r :
  rejects t = true -> test_critical t = false ->
  runTest (test_name t) (fn t) (test_critical t) r =
  (Return (result_of t),
   {| results := {| passed := passed (results r); failed := S (failed (results r));
                    skipped := skipped (results r);
                    tests := tests (results r) ++ [result_of t] |};
      called := called r ++ [test_name t] |}).
Proof.
  unfold rejects, runTest, result_of, rejects.
  destruct (rejection (fn t)); [|discriminate]. intros _ ->. reflexivity.
Qed.

(** A failing critical test is counted and thrown, and not pushed. *)
Lemma runTest_critical_failing t r :
  aborts t = true ->
  runTest (test_name t) (fn t) (test_critical t) r =
  (Throw ("Critical test failed: " +:+ test_name t),
   {| results := {| passed := passed (results r); failed := S (failed (results r));
                    skipped := skipped (results r);
                    tests := tests (results r) |};
      called := called r ++ [test_name t] |}).
Proof.
  unfold aborts, rejects, runTest. intros H. apply andb_prop in H as [Hc Hr].
  destruct (rejection (fn t)); [|discriminate]. rewrite Hc. reflexivity.
Qed.

(** The loop over tests none of which aborts: every test is called and
    recorded, in order, and counted as passed or failed. *)
Lemma run_tests_complete ts : forall r,
  forallb (fun t => negb (aborts t)) ts = true ->
  run_tests ts r =
  {| results := {| passed := passed (results r) + length (List.filter (fun t => negb (rejects t)) ts);
                   failed := failed (results r) + length (List.filter rejects ts);
                   skipped := skipped (results r);
                   tests := tests (results r) ++ map result_of ts |};
     called := called r ++ map test_name ts |}.
Proof.
  induction ts as [|t ts IH]; intros r Hall.
  - simpl. rewrite !Nat.add_0_r, !app_nil_r. destruct r as [[] ?]; reflexivity.
  - simpl in Hall. apply andb_prop in Hall as [Ht Hts].
    cbn [run_tests]. destruct (rejects t) eqn:Er.
    + assert (test_critical t = false) as Hc.
      { unfold aborts in Ht. rewrite Er, andb_true_r in Ht.
        destruct (test_critical t); [discriminate | reflexivity]. }
      rewrite (runTest_advisory_failing t r Er Hc), (IH _ Hts).
      cbn [results passed failed skipped tests called List.filter map length negb].
      rewrite Er. cbn [negb length].
      rewrite <- !app_assoc. cbn [app]. f_equal. f_equal. lia.
    + rewrite (runTest_passing t r Er), (IH _ Hts).
      cbn [results passed failed skipped tests called List.filter map length negb].
      rewrite Er. cbn [negb length].
      rewrite <- !app_assoc. cbn [app]. f_equal. f_equal. lia.
Qed.

(** The loop up to a failing critical test: the tests before it and the
    critical test itself are called, no later test is; the critical failure
    is counted in [failed] and its result object is not recorded. *)
Lemma run_tests_aborted pre c post r :
  forallb (fun t => negb (aborts t)) pre = true ->
  aborts c = true ->
  run_tests (pre ++ c :: post) r =
  {| results := {| passed := passed (results r) + length (List.filter (fun t => negb (rejects t)) pre);
                   failed := S (failed (results r) + length (List.filter rejects pre));
                   skipped := skipped (results r);
                   tests := tests (results r) ++ map result_of pre |};
     called := called r ++ map test_name pre ++ [test_name c] |}.
Proof.
  revert r. induction pre as [|t pre IH]; intros r Hall Hc.
  - cbn [app run_tests]. rewrite (runTest_critical_failing c r Hc).
    cbn [List.filter length map app]. rewrite !Nat.add_0_r, app_nil_r. reflexivity.
  - simpl in Hall. apply andb_prop in Hall as [Ht Hts].
    cbn [app run_tests]. destruct (rejects t) eqn:Er.
    + assert (test_critical t = false) as Hcr.
      { unfold aborts in Ht. rewrite Er, andb_true_r in Ht.
        destruct (test_critical t); [discriminate | reflexivity]. }
      rewrite (runTest_advisory_failing t r Er Hcr), (IH _ Hts Hc).
      cbn [results passed failed skipped tests called List.filter map length negb].
      rewrite Er. cbn [negb length].
      rewrite <- !app_assoc. cbn [app]. f_equal. f_equal. lia.
    + rewrite (runTest_passing t r Er), (IH _ Hts Hc).
      cbn [results passed failed skipped tests called List.filter map length negb].
      rewrite Er. cbn [negb length].
      rewrite <- !app_assoc. cbn [app]. f_equal. f_equal. lia.
Qed.

End RunTests.

Lemma passed_plus_failed (ts : list TestRunner.Test) :
  length (List.filter (fun t => negb (TestRunner.rejects t)) ts) +
  length (List.filter TestRunner.rejects ts) = length ts.
Proof.
  induction ts as [|t ts IH]; [reflexivity|].
  simpl. destruct (TestRunner.rejects t); simpl; lia.
Qed.

(** What the run reports when a critical test fails after tests that do not
    abort: the run is failed, nothing after the critical test is called, and
    the recorded list holds the results of the earlier tests only. *)
Lemma critical_failure_stops_run prNumber pre c post :
  forallb (fun t => negb (TestRunner.aborts t)) pre = true ->
  TestRunner.aborts c = true ->
  let '(r, (report, ok)) := TestRunner.run_and_report prNumber (pre ++ c :: post) in
  TestRunner.called r = map TestRunner.test_name pre ++ [TestRunner.test_name c] /\
  ok = false /\
  TestRunner.exit_code r = 1 /\
  TestRunner.tests (TestRunner.results r) = map TestRunner.result_of pre /\
  TestRunner.report_tests report = map TestRunner.result_of pre /\
  TestRunner.summary_total report = S (length pre) /\
  TestRunner.summary_failed report = S (length (List.filter TestRunner.rejects pre)).
Proof.
  intros Hpre Hc. unfold TestRunner.run_and_report.
  rewrite (run_tests_aborted pre c post TestRunner.new_runner Hpre Hc).
  unfold TestRunner.generateReport, TestRunner.exit_code.
  cbn [TestRunner.results TestRunner.called TestRunner.tests TestRunner.failed
       TestRunner.passed TestRunner.skipped TestRunner.new_runner
       TestRunner.report_tests TestRunner.summary_total TestRunner.summary_failed
       app Nat.eqb Nat.add].
  repeat split.
  pose proof (passed_plus_failed pre). lia.
Qed.

(** C2 at the failing input: five checks, the second critical and failing.
    The first two checks are called and no other, and the run is failed; the
    recorded list has one entry, for the first check: the failing critical
    check is counted ([failed] is 1, the total is 2) and its result is not
    recorded. *)
Theorem five_checks_second_critical_fails :
  let '(r, (report, ok)) := TestRunner.run_and_report None TestRunner.five_checks in
  TestRunner.called r = ["first"; "second"] /\
  ok = false /\
  TestRunner.exit_code r = 1 /\
  length (TestRunner.tests (TestRunner.results r)) = 1 /\
  map TestRunner.name (TestRunner.report_tests report) = ["first"] /\
  TestRunner.summary_total report = 2 /\
  TestRunner.summary_failed report = 1.
Proof.
  unfold TestRunner.five_checks.
  match goal with
  | |- context [TestRunner.run_and_report None (?a :: ?c :: ?post)] =>
      pose proof (critical_failure_stops_run None [a] c post eq_refl eq_refl) as H;
      cbn [app] in H;
      destruct (TestRunner.run_and_report None (a :: c :: post)) as [r [report ok]]
  end.
  destruct H as (Hc & Hok & Hx & Ht & Hr & Hs & Hf).
  rewrite Hc, Hok, Hx, Ht, Hr, Hs.
  rewrite Hf. repeat split.
Qed.

(** The same on the fixed suite: the build passes, the type check fails;
    two checks are called and one is recorded. *)
Example typecheck_failure_not_recorded :
  let '(r, (report, ok)) := TestRunner.runAllTests (Some 7) Examples.typecheck_fails in
  TestRunner.called r = ["Build Test"; "TypeScript Check"] /\
  map TestRunner.name (TestRunner.report_tests report) = ["Build Test"] /\
  TestRunner.summary_total report = 2 /\
  TestRunner.summary_failed report = 1 /\
  ok = false.
Proof. vm_compute. repeat split. Qed.

(** What the run reports when no critical test fails: every test is called
    and recorded, failed ones included, and the run is passed exactly when
    no test at all failed. *)
Lemma run_without_critical_failure prNumber ts :
  forallb (fun t => negb (TestRunner.aborts t)) ts = true ->
  let '(r, (report, ok)) := TestRunner.run_and_report prNumber ts in
  TestRunner.called r = map TestRunner.test_name ts /\
  TestRunner.report_tests report = map TestRunner.result_of ts /\
  (ok = true <-> forall t, In t ts -> TestRunner.rejects t = false) /\
  (TestRunner.exit_code r = 0 <-> ok = true).
Proof.
  intros Hall. unfold TestRunner.run_and_report.
  rewrite (run_tests_complete ts TestRunner.new_runner Hall).
  unfold TestRunner.generateReport, TestRunner.exit_code.
  cbn [TestRunner.results TestRunner.called TestRunner.tests TestRunner.failed
       TestRunner.new_runner TestRunner.report_tests app Nat.add].
  repeat split.
  - intros Hz t Ht. apply Nat.eqb_eq in Hz.
    destruct (TestRunner.rejects t) eqn:Er; [|reflexivity].
    assert (In t (List.filter TestRunner.rejects ts)) as Hin
      by (apply List.filter_In; split; assumption).
    destruct (List.filter TestRunner.rejects ts); [destruct Hin | discriminate].
  - intros Hno. apply Nat.eqb_eq.
    destruct (List.filter TestRunner.rejects ts) as [|t l] eqn:Ef; [reflexivity|].
    assert (In t (List.filter TestRunner.rejects ts)) as Hin by (rewrite Ef; left; reflexivity).
    apply List.filter_In in Hin as [Hin Hr]. rewrite (Hno t Hin) in Hr. discriminate.
  - destruct (length (List.filter TestRunner.rejects ts) =? 0); [reflexivity | discriminate].
  - intros ->. reflexivity.
Qed.

(** C3 at the failing input: the build and the type check pass and only the
    linter, an advisory check, fails.  All eight checks are called and
    recorded, the failed one included, and the run is failed:
    [generateReport] returns [false] and the script exits with code 1. *)
Theorem advisory_failure_fails_the_run :
  let '(r, (report, ok)) := TestRunner.runAllTests None TestRunner.lint_fails in
  TestRunner.called r =
    ["Build Test"; "TypeScript Check"; "Linting"; "Dependency Security"; "Code Quality";
     "Performance"; "Security Scan"; "Accessibility"] /\
  map (fun t => (TestRunner.name t, TestRunner.status t, TestRunner.critical t))
      (TestRunner.report_tests report) =
    [("Build Test", "passed", true); ("TypeScript Check", "passed", true);
     ("Linting", "failed", false); ("Dependency Security", "passed", false);
     ("Code Quality", "passed", false); ("Performance", "passed", false);
     ("Security Scan", "passed", false); ("Accessibility", "passed", false)] /\
  ok = false /\
  TestRunner.exit_code r = 1.
Proof.
  unfold TestRunner.runAllTests.
  pose proof (run_without_critical_failure None
                (TestRunner.suite_tests TestRunner.lint_fails) eq_refl) as H.
  destruct (TestRunner.run_and_report None (TestRunner.suite_tests TestRunner.lint_fails))
    as [r [report ok]].
  destruct H as (Hc & Ht & Hok & Hx).
  rewrite Hc, Ht.
  assert (ok = false) as Hfalse.
  { destruct ok; [|reflexivity].
    destruct Hok as [Hok _].
    specialize (Hok eq_refl (nth 2 (TestRunner.suite_tests TestRunner.lint_fails)
                               (nth 0 (TestRunner.suite_tests TestRunner.lint_fails)
                                  {| TestRunner.test_name := ""; 
                                     TestRunner.fn := TestRunner.resolves_after 0;
                                     TestRunner.test_critical := false |}))).
    cbn in Hok. specialize (Hok (or_intror (or_intror (or_introl eq_refl)))). discriminate. }
  repeat split; try reflexivity; try exact Hfalse.
  destruct (TestRunner.exit_code r) as [|[|n]] eqn:Ex.
  - destruct Hx as [Hx _]. rewrite (Hx eq_refl) in Hfalse. discriminate.
  - reflexivity.
  - unfold TestRunner.exit_code in Ex. destruct (_ =? 0) in Ex; discriminate.
Qed.

(** ** The description of the remediation unit (generatePRDescription) *)

Section Description.
Import RefactorAnalyzer.

Lemma severity_eqb_eq a b : severity_eqb a b = true <-> a = b.
Proof. destruct a, b; simpl; split; congruence. Qed.

Lemma append_cons (c : ascii) (s t : string) : String c s +:+ t = String c (s +:+ t).
Proof. reflexivity. Qed.

Lemma append_nil_r (s : string) : s +:+ EmptyString = s.
Proof. induction s as [|c s IH]; [reflexivity|]. rewrite append_cons, IH. reflexivity. Qed.

Lemma append_assoc (a b c : string) : (a +:+ b) +:+ c = a +:+ (b +:+ c).
Proof. induction a as [|x a IH]; [reflexivity|]. rewrite !append_cons, IH. reflexivity. Qed.

Lemma length_append (a b : string) :
  String.length (a +:+ b) = String.length a + String.length b.
Proof.
  induction a as [|x a IH]; [reflexivity|]. rewrite append_cons. simpl. rewrite IH. reflexivity.
Qed.

Lemma append_suffix_cancel (c : string) : forall a b, a +:+ c = b +:+ c -> a = b.
Proof.
  induction a as [|x a IH]; intros [|y b] H.
  - reflexivity.
  - apply (f_equal String.length) in H. rewrite !length_append in H. simpl in H. lia.
  - apply (f_equal String.length) in H. rewrite !length_append in H. simpl in H. lia.
  - rewrite !append_cons in H. injection H as -> H. f_equal. apply IH. exact H.
Qed.

Lemma string_of_nat_inj n k : string_of_nat n = string_of_nat k -> n = k.
Proof.
  unfold string_of_nat. intros H.
  apply (f_equal NilEmpty.uint_of_string) in H. rewrite !NilEmpty.usu in H.
  injection H as H. apply (f_equal Nat.of_uint) in H.
  rewrite !Unsigned.of_to in H. exact H.
Qed.

Lemma concat_empty_app (a b : list string) :
  String.concat EmptyString (a ++ b) =
  String.concat EmptyString a +:+ String.concat EmptyString b.
Proof.
  induction a as [|x a IH]; [reflexivity|].
  destruct a as [|y a].
  - simpl. destruct b; simpl; [rewrite append_nil_r|]; reflexivity.
  - change (String.concat EmptyString ((x :: y :: a) ++ b))
      with (x +:+ EmptyString +:+ String.concat EmptyString ((y :: a) ++ b)).
    rewrite IH. simpl. rewrite append_assoc. reflexivity.
Qed.

(** What a section appends: its heading when it has entries, item lines,
    and the blank line. *)
Lemma in_section_pieces sev l x :
  In x (section_pieces sev l) ->
  (x = section_heading sev (length l) /\ l <> []) \/
  (exists s, x = item_line s) \/
  x = nl.
Proof.
  unfold section_pieces. destruct l as [|s l]; [intros []|].
  cbn [length Nat.ltb Nat.leb]. intros [<-|H].
  - left. split; [reflexivity | discriminate].
  - apply in_app_or in H as [H|[<-|[]]].
    + right. left. apply in_map_iff in H as (s' & <- & _). exists s'. reflexivity.
    + right. right. reflexivity.
Qed.

Lemma heading_in_section sev l :
  l <> [] -> In (section_heading sev (length l)) (section_pieces sev l).
Proof.
  unfold section_pieces. destruct l as [|s l]; [congruence|]. intros _. left. reflexivity.
Qed.

(** A heading line is no item line, no blank line, none of the fixed
    lines, and the heading of no other severity. *)
Lemma heading_not_item sev n s : section_heading sev n <> item_line s.
Proof. destruct sev; cbn; discriminate. Qed.

Lemma heading_not_nl sev n : section_heading sev n <> nl.
Proof. destruct sev; cbn; discriminate. Qed.

Lemma heading_severity sev sev' n k :
  section_heading sev n = section_heading sev' k -> sev = sev'.
Proof. destruct sev, sev'; cbn; intros H; try reflexivity; discriminate. Qed.

Lemma heading_not_intro sev n prNumber : ~ In (section_heading sev n) (intro_pieces prNumber).
Proof. destruct sev; cbn; intros [H|[H|[]]]; discriminate. Qed.

Lemma heading_not_closing sev n : ~ In (section_heading sev n) closing_pieces.
Proof.
  destruct sev; cbn; intros [H|[H|[H|[H|[H|[H|[]]]]]]]; discriminate.
Qed.

Lemma filter_severity_nonempty sev sugg :
  List.filter (fun s => severity_eqb (severity s) sev) sugg <> [] <->
  exists s, In s sugg /\ severity s = sev.
Proof.
  split.
  - intros Hne.
    destruct (List.filter (fun s => severity_eqb (severity s) sev) sugg) as [|s l] eqn:E;
      [congruence|].
    assert (In s (List.filter (fun s => severity_eqb (severity s) sev) sugg)) as Hin
      by (rewrite E; left; reflexivity).
    apply List.filter_In in Hin as [Hin Hs]. exists s. split; [exact Hin|].
    apply severity_eqb_eq. exact Hs.
  - intros (s & Hin & Hs) E.
    assert (In s (List.filter (fun s => severity_eqb (severity s) sev) sugg)) as Hf.
    { apply List.filter_In. split; [exact Hin | apply severity_eqb_eq; exact Hs]. }
    rewrite E in Hf. destruct Hf.
Qed.

End Description.

Lemma section_rendered_iff prNumber sugg sev :
  RefactorAnalyzer.section_rendered sev (RefactorAnalyzer.description_pieces prNumber sugg) <->
  exists s, In s sugg /\ RefactorAnalyzer.severity s = sev.
Proof.
  rewrite <- filter_severity_nonempty.
  unfold RefactorAnalyzer.section_rendered, RefactorAnalyzer.description_pieces. split.
  - intros (n & Hin).
    apply in_app_or in Hin as [Hin|Hin]; [exfalso; exact (heading_not_intro _ _ _ Hin)|].
    assert (forall sev' l,
              In (RefactorAnalyzer.section_heading sev n) (RefactorAnalyzer.section_pieces sev' l) ->
              sev = sev' /\ l <> []) as Hsec.
    { intros sev' l H. apply in_section_pieces in H as [[He Hl]|[[s He]|He]].
      - split; [exact (heading_severity _ _ _ _ He) | exact Hl].
      - exfalso. exact (heading_not_item _ _ _ He).
      - exfalso. exact (heading_not_nl _ _ He). }
    apply in_app_or in Hin as [Hin|Hin]; [apply Hsec in Hin as [-> Hl]; exact Hl|].
    apply in_app_or in Hin as [Hin|Hin]; [apply Hsec in Hin as [-> Hl]; exact Hl|].
    apply in_app_or in Hin as [Hin|Hin]; [apply Hsec in Hin as [-> Hl]; exact Hl|].
    exfalso. exact (heading_not_closing _ _ Hin).
  - intros Hne.
    exists (length (List.filter
                      (fun s => RefactorAnalyzer.severity_eqb (RefactorAnalyzer.severity s) sev)
                      sugg)).
    apply in_or_app. right.
    destruct sev.
    + apply in_or_app. right. apply in_or_app. right. apply in_or_app. left.
      apply heading_in_section. exact Hne.
    + apply in_or_app. right. apply in_or_app. left.
      apply heading_in_section. exact Hne.
    + apply in_or_app. left. apply heading_in_section. exact Hne.
Qed.

(** C9.  For every suggestion list, the section of a severity is rendered
    (its heading line is appended to the description) exactly when some
    suggestion has that severity, and then its heading carries the number
    of such suggestions.  The description is the introduction, the text of
    the High, Medium and Low sections in this order, each empty without a
    suggestion of its severity and starting with its heading otherwise, and
    the fixed text that starts with the automatic-fixes note, written out
    here.  In particular a list with one high, no medium and two low
    suggestions renders the High and the Low section and no Medium
    section: the generated text is the introduction, the High heading with
    its one item, the Low heading with its two items, and the fixed
    text. *)
Theorem generatePRDescription_sections prNumber sugg :
  let pieces := RefactorAnalyzer.description_pieces prNumber sugg in
  (forall sev,
     RefactorAnalyzer.section_rendered sev pieces <->
     exists s, In s sugg /\ RefactorAnalyzer.severity s = sev) /\
  (forall sev n,
     In (RefactorAnalyzer.section_heading sev n) pieces ->
     n = RefactorAnalyzer.count_severity sev sugg) /\
  RefactorAnalyzer.generatePRDescription prNumber sugg =
    String.concat EmptyString (RefactorAnalyzer.intro_pieces prNumber) +:+
    RefactorAnalyzer.section_text RefactorAnalyzer.high sugg +:+
    RefactorAnalyzer.section_text RefactorAnalyzer.medium sugg +:+
    RefactorAnalyzer.section_text RefactorAnalyzer.low sugg +:+
    String.concat EmptyString RefactorAnalyzer.closing_pieces /\
  (forall sev,
     (RefactorAnalyzer.count_severity sev sugg = 0 ->
      RefactorAnalyzer.section_text sev sugg = EmptyString) /\
     (RefactorAnalyzer.count_severity sev sugg <> 0 ->
      exists rest,
        RefactorAnalyzer.section_text sev sugg =
        RefactorAnalyzer.section_heading sev (RefactorAnalyzer.count_severity sev sugg) +:+
        rest)) /\
  (RefactorAnalyzer.count_severity RefactorAnalyzer.high sugg = 1 ->
   RefactorAnalyzer.count_severity RefactorAnalyzer.medium sugg = 0 ->
   RefactorAnalyzer.count_severity RefactorAnalyzer.low sugg = 2 ->
   In (RefactorAnalyzer.section_heading RefactorAnalyzer.high 1) pieces /\
   In (RefactorAnalyzer.section_heading RefactorAnalyzer.low 2) pieces /\
   ~ RefactorAnalyzer.section_rendered RefactorAnalyzer.medium pieces) /\
  (forall sev n,
     RefactorAnalyzer.section_heading sev n =
     match sev with
     | RefactorAnalyzer.high => "### 🔴 High Priority Issues ("
     | RefactorAnalyzer.medium => "### 🟡 Medium Priority Issues ("
     | RefactorAnalyzer.low => "### 🟢 Low Priority Issues ("
     end +:+ string_of_nat n +:+ ")" +:+ nl) /\
  String.concat EmptyString (RefactorAnalyzer.intro_pieces prNumber) =
    "## 🔧 Automated Code Improvements" +:+ nl +:+ nl +:+
    "This PR contains automated code improvements based on analysis of PR #" +:+
    string_of_nat prNumber +:+ "." +:+ nl +:+ nl /\
  String.concat EmptyString RefactorAnalyzer.closing_pieces =
    "### 🤖 Automatic Fixes Applied" +:+ nl +:+
    "- ESLint automatic fixes" +:+ nl +:+
    "- Prettier code formatting" +:+ nl +:+ nl +:+
    "### 📋 Manual Review Needed" +:+ nl +:+
    "Please review the suggestions above and consider implementing the recommended changes."
    +:+ nl +:+ nl +:+
    "---" +:+ nl +:+
    "*This PR was automatically generated by the code quality monitoring system.*" /\
  (forall h l1 l2,
     List.filter (fun s => RefactorAnalyzer.severity_eqb (RefactorAnalyzer.severity s)
                             RefactorAnalyzer.high) sugg = [h] ->
     List.filter (fun s => RefactorAnalyzer.severity_eqb (RefactorAnalyzer.severity s)
                             RefactorAnalyzer.medium) sugg = [] ->
     List.filter (fun s => RefactorAnalyzer.severity_eqb (RefactorAnalyzer.severity s)
                             RefactorAnalyzer.low) sugg = [l1; l2] ->
     RefactorAnalyzer.generatePRDescription prNumber sugg =
       "## 🔧 Automated Code Improvements" +:+ nl +:+ nl +:+
       "This PR contains automated code improvements based on analysis of PR #" +:+
       string_of_nat prNumber +:+ "." +:+ nl +:+ nl +:+
       "### 🔴 High Priority Issues (1)" +:+ nl +:+
       RefactorAnalyzer.item_line h +:+ nl +:+
       "### 🟢 Low Priority Issues (2)" +:+ nl +:+
       RefactorAnalyzer.item_line l1 +:+ RefactorAnalyzer.item_line l2 +:+ nl +:+
       "### 🤖 Automatic Fixes Applied" +:+ nl +:+
       "- ESLint automatic fixes" +:+ nl +:+
       "- Prettier code formatting" +:+ nl +:+ nl +:+
       "### 📋 Manual Review Needed" +:+ nl +:+
       "Please review the suggestions above and consider implementing the recommended changes."
       +:+ nl +:+ nl +:+
       "---" +:+ nl +:+
       "*This PR was automatically generated by the code quality monitoring system.*").
Proof.
  intros pieces.
  assert (forall sev,
            RefactorAnalyzer.count_severity sev sugg <> 0 ->
            In (RefactorAnalyzer.section_heading sev (RefactorAnalyzer.count_severity sev sugg))
               pieces) as Hhead.
  { intros sev Hc. unfold pieces, RefactorAnalyzer.description_pieces.
    assert (List.filter
              (fun s => RefactorAnalyzer.severity_eqb (RefactorAnalyzer.severity s) sev) sugg
            <> []) as Hne.
    { intros E. apply Hc. unfold RefactorAnalyzer.count_severity. rewrite E. reflexivity. }
    apply in_or_app. right. unfold RefactorAnalyzer.count_severity.
    destruct sev.
    - apply in_or_app. right. apply in_or_app. right. apply in_or_app. left.
      apply heading_in_section. exact Hne.
    - apply in_or_app. right. apply in_or_app. left. apply heading_in_section. exact Hne.
    - apply in_or_app. left. apply heading_in_section. exact Hne. }
  split; [|split; [|split; [|split; [|split; [|split; [|split; [|split]]]]]]].
  - intros sev. apply section_rendered_iff.
  - intros sev n Hin. unfold pieces, RefactorAnalyzer.description_pieces in Hin.
    apply in_app_or in Hin as [Hin|Hin]; [exfalso; exact (heading_not_intro _ _ _ Hin)|].
    assert (forall sev' l,
              In (RefactorAnalyzer.section_heading sev n) (RefactorAnalyzer.section_pieces sev' l) ->
              sev = sev' /\ RefactorAnalyzer.section_heading sev n =
                            RefactorAnalyzer.section_heading sev (length l)) as Hsec.
    { intros sev' l H. apply in_section_pieces in H as [[He Hl]|[[s He]|He]].
      - pose proof (heading_severity _ _ _ _ He) as <-. split; [reflexivity | exact He].
      - exfalso. exact (heading_not_item _ _ _ He).
      - exfalso. exact (heading_not_nl _ _ He). }
    assert (forall k, RefactorAnalyzer.section_heading sev n =
                      RefactorAnalyzer.section_heading sev k -> n = k) as Hnum.
    { intros k He. unfold RefactorAnalyzer.section_heading in He.
      apply String.app_inj in He. apply append_suffix_cancel in He.
      apply string_of_nat_inj. exact He. }
    unfold RefactorAnalyzer.count_severity.
    apply in_app_or in Hin as [Hin|Hin]; [apply Hsec in Hin as [-> He]; exact (Hnum _ He)|].
    apply in_app_or in Hin as [Hin|Hin]; [apply Hsec in Hin as [-> He]; exact (Hnum _ He)|].
    apply in_app_or in Hin as [Hin|Hin]; [apply Hsec in Hin as [-> He]; exact (Hnum _ He)|].
    exfalso. exact (heading_not_closing _ _ Hin).
  - unfold RefactorAnalyzer.generatePRDescription, RefactorAnalyzer.description_pieces,
      RefactorAnalyzer.section_text.
    rewrite !concat_empty_app. reflexivity.
  - intros sev. unfold RefactorAnalyzer.section_text, RefactorAnalyzer.count_severity,
      RefactorAnalyzer.section_pieces.
    destruct (List.filter _ sugg) as [|s l]; cbn [length Nat.ltb Nat.leb].
    + split; [reflexivity | congruence].
    + split; [discriminate|]. intros _.
      exists (String.concat EmptyString (map RefactorAnalyzer.item_line (s :: l) ++ [nl])).
      cbn [map app]. reflexivity.
  - intros Hh Hm Hl. split; [|split].
    + rewrite <- Hh. apply Hhead. rewrite Hh. discriminate.
    + rewrite <- Hl. apply Hhead. rewrite Hl. discriminate.
    + intros Hr. apply section_rendered_iff in Hr. apply filter_severity_nonempty in Hr.
      unfold RefactorAnalyzer.count_severity in Hm.
      destruct (List.filter _ sugg); [congruence | discriminate].
  - intros [] n; reflexivity.
  - cbn [RefactorAnalyzer.intro_pieces String.concat]. rewrite !append_assoc. reflexivity.
  - vm_compute. reflexivity.
  - intros h l1 l2 Hh Hm Hl.
    unfold RefactorAnalyzer.generatePRDescription, RefactorAnalyzer.description_pieces.
    rewrite Hh, Hm, Hl.
    unfold RefactorAnalyzer.section_pieces, RefactorAnalyzer.intro_pieces,
      RefactorAnalyzer.closing_pieces, RefactorAnalyzer.section_heading,
      RefactorAnalyzer.section_title.
    cbn [length Nat.ltb Nat.leb map app String.concat].
    change (string_of_nat 1) with "1". change (string_of_nat 2) with "2".
    rewrite !append_assoc. reflexivity.
Qed.

(** The description of one high, no medium and two low suggestions: the
    High section, the Low section, the fixed text; a suggestion without a
    file is rendered with [undefined]. *)
Example description_one_high_two_low :
  RefactorAnalyzer.generatePRDescription 7 Examples.one_high_two_low =
  String.concat nl
    [ "## 🔧 Automated Code Improvements";
      "";
      "This PR contains automated code improvements based on analysis of PR #7.";
      "";
      "### 🔴 High Priority Issues (1)";
      "- **src/components/Board.tsx**: Component is 412 lines long. Consider breaking into smaller components.";
      "";
      "### 🟢 Low Priority Issues (2)";
      "- **src/api.ts**: Found 3 usage(s) of 'any' type. Consider using specific types.";
      "- **undefined**: Mixed quote styles found. Consider using single quotes consistently.";
      "";
      "### 🤖 Automatic Fixes Applied";
      "- ESLint automatic fixes";
      "- Prettier code formatting";
      "";
      "### 📋 Manual Review Needed";
      "Please review the suggestions above and consider implementing the recommended changes.";
      "";
      "---";
      "*This PR was automatically generated by the code quality monitoring system.*" ].
Proof. vm_compute. reflexivity. Qed.

(** ** Reasoning about runs *)

Lemma returns_ret {A} (a : A) : returns (ret a).
Proof. intros w. exists a. reflexivity. Qed.

Lemma returns_log msg : returns (append_log msg).
Proof. intros w. exists tt. reflexivity. Qed.

Lemma returns_bind {A B} (m : M A) (k : A -> M B) :
  returns m -> (forall a, returns (k a)) -> returns (bind m k).
Proof.
  intros Hm Hk w. unfold bind. destruct (Hm w) as [a Ha].
  destruct (m w) as [[a'|e] w1]; simpl in Ha; [|discriminate].
  apply Hk.
Qed.

Lemma returns_try_catch {A} (body : M A) (h : string -> M A) :
  (forall e, returns (h e)) -> returns (try_catch body h).
Proof.
  intros Hh w. unfold try_catch. destruct (body w) as [[a|e] w1].
  - exists a. reflexivity.
  - apply Hh.
Qed.

Lemma returns_try_finally {A} (body : M A) (fin : M unit) :
  returns body -> returns fin -> returns (try_finally body fin).
Proof.
  intros Hb Hf w. unfold try_finally. destruct (Hb w) as [a Ha].
  destruct (body w) as [r w1]. simpl in Ha. subst r.
  destruct (Hf w1) as [u Hu]. destruct (fin w1) as [[u'|e] w2]; simpl in Hu; [|discriminate].
  exists a. reflexivity.
Qed.

(** Every step of a computation keeps a relation between the world before
    and the world after, for a relation that composes. *)
Section Preserves.
Variable R : World -> World -> Prop.
Hypothesis R_refl : forall w, R w w.
Hypothesis R_trans : forall w1 w2 w3, R w1 w2 -> R w2 w3 -> R w1 w3.

Lemma preserves_ret {A} (a : A) : preserves R (ret a).
Proof. intros w. apply R_refl. Qed.

Lemma preserves_bind {A B} (m : M A) (k : A -> M B) :
  preserves R m -> (forall a, preserves R (k a)) -> preserves R (bind m k).
Proof.
  intros Hm Hk w. unfold bind. specialize (Hm w).
  destruct (m w) as [[a|e] w1]; simpl in *; [|exact Hm].
  eapply R_trans; [exact Hm | apply Hk].
Qed.

Lemma preserves_try_catch {A} (body : M A) (h : string -> M A) :
  preserves R body -> (forall e, preserves R (h e)) -> preserves R (try_catch body h).
Proof.
  intros Hb Hh w. unfold try_catch. specialize (Hb w).
  destruct (body w) as [[a|e] w1]; simpl in *; [exact Hb|].
  eapply R_trans; [exact Hb | apply Hh].
Qed.

Lemma preserves_try_finally {A} (body : M A) (fin : M unit) :
  preserves R body -> preserves R fin -> preserves R (try_finally body fin).
Proof.
  intros Hb Hf w. unfold try_finally. specialize (Hb w).
  destruct (body w) as [r w1]. specialize (Hf w1).
  destruct (fin w1) as [[u|e] w2]; simpl in *; eapply R_trans; eassumption.
Qed.

End Preserves.

Lemma grows_refl P w : grows P w w.
Proof.
  repeat split.
  - exists []. rewrite app_nil_r. split; [reflexivity | constructor].
  - exists []. rewrite app_nil_r. reflexivity.
  - lia.
Qed.

Lemma grows_trans P w1 w2 w3 : grows P w1 w2 -> grows P w2 w3 -> grows P w1 w3.
Proof.
  intros ((e1 & H1 & F1) & (l1 & L1) & T1) ((e2 & H2 & F2) & (l2 & L2) & T2).
  repeat split.
  - exists (e1 ++ e2). rewrite H2, H1, app_assoc. split; [reflexivity|].
    apply Forall_app. split; assumption.
  - exists (l1 ++ l2). rewrite L2, L1, app_assoc. reflexivity.
  - lia.
Qed.

Lemma grows_step P ev w : P ev -> grows P w (step ev w).
Proof.
  intros HP. repeat split; simpl.
  - exists [ev]. split; [reflexivity | repeat constructor; exact HP].
  - exists []. rewrite app_nil_r. reflexivity.
  - lia.
Qed.

Lemma grows_log P msg : preserves (grows P) (append_log msg).
Proof.
  intros w. repeat split; simpl.
  - exists []. rewrite app_nil_r. split; [reflexivity | constructor].
  - exists [msg]. reflexivity.
  - lia.
Qed.

Lemma grows_execSync P env cmd :
  (forall ok, P (Exec cmd ok)) -> preserves (grows P) (execSync env cmd).
Proof.
  intros HP w. unfold execSync. destruct (exec_error env (ticks w) cmd).
  - apply grows_step, HP.
  - simpl. destruct (checkout_target cmd); apply (grows_step P (Exec cmd true) w), HP.
Qed.

Lemma grows_listFiles P env n :
  (forall ok, P (PullsListFiles n ok)) -> preserves (grows P) (octokit_pulls_listFiles env n).
Proof.
  intros HP w. unfold octokit_pulls_listFiles.
  destruct (pulls_listFiles env (ticks w) n); apply grows_step, HP.
Qed.

Lemma grows_pulls_list P env :
  (forall ok, P (PullsList ok)) -> preserves (grows P) (octokit_pulls_list env).
Proof.
  intros HP w. unfold octokit_pulls_list.
  destruct (pulls_list env (ticks w)); apply grows_step, HP.
Qed.

Lemma grows_createComment P env n body :
  (forall ok, P (IssuesCreateComment n body ok)) ->
  preserves (grows P) (octokit_issues_createComment env n body).
Proof.
  intros HP w. unfold octokit_issues_createComment.
  destruct (issues_createComment_error env (ticks w) n body); apply grows_step, HP.
Qed.

Lemma grows_ret P {A} (a : A) : preserves (grows P) (ret a).
Proof. apply preserves_ret, grows_refl. Qed.

Lemma grows_bind P {A B} (m : M A) (k : A -> M B) :
  preserves (grows P) m -> (forall a, preserves (grows P) (k a)) ->
  preserves (grows P) (bind m k).
Proof. apply preserves_bind, grows_trans. Qed.

Lemma grows_try_catch P {A} (body : M A) (h : string -> M A) :
  preserves (grows P) body -> (forall e, preserves (grows P) (h e)) ->
  preserves (grows P) (try_catch body h).
Proof. apply preserves_try_catch, grows_trans. Qed.

Lemma grows_try_finally P {A} (body : M A) (fin : M unit) :
  preserves (grows P) body -> preserves (grows P) fin ->
  preserves (grows P) (try_finally body fin).
Proof. apply preserves_try_finally, grows_trans. Qed.

(** Decomposes a goal [preserves (grows P) m] or [returns m] along the
    structure of the script. *)
Ltac along_script :=
  repeat first
    [ apply grows_bind; [ | intros ]
    | apply grows_try_catch; [ | intros ]
    | apply grows_try_finally
    | apply grows_ret
    | apply grows_log
    | apply returns_bind; [ | intros ]
    | apply returns_try_catch; intros
    | apply returns_try_finally
    | apply returns_ret
    | apply returns_log ].

(** ** The per-unit driver (processPullRequest) *)

Section Driver.
Import PRMonitor.
Variable env : Env.

Lemma analyzePRChanges_returns n : returns (analyzePRChanges env n).
Proof. unfold analyzePRChanges, log. along_script. Qed.

Lemma runTests_returns n b : returns (runTests env n b).
Proof. unfold runTests, log. along_script. Qed.

Lemma triggerRefactoring_returns pr : returns (triggerRefactoring env pr).
Proof. unfold triggerRefactoring, log. along_script. Qed.

Lemma getNewPullRequests_returns : returns (getNewPullRequests env).
Proof. unfold getNewPullRequests, log. along_script. Qed.

Lemma analyzePRChanges_no_trigger k n : preserves (grows (no_trigger env k)) (analyzePRChanges env n).
Proof.
  unfold analyzePRChanges, log. along_script.
  apply grows_listFiles. intros ok ok'. discriminate.
Qed.

Lemma runTests_no_trigger k n b : preserves (grows (no_trigger env k)) (runTests env n b).
Proof.
  unfold runTests, log. along_script;
    apply grows_execSync; intros ok ok' H; unfold refactor_command in H;
    rewrite ?append_cons in H; discriminate H.
Qed.

Lemma triggerRefactoring_grows pr : preserves (grows (fun _ => True)) (triggerRefactoring env pr).
Proof.
  unfold triggerRefactoring, log. along_script; apply grows_execSync; intros; exact I.
Qed.

Lemma report_results_grows pr analysis testResults :
  preserves (grows (fun _ => True)) (report_results env pr analysis testResults).
Proof.
  unfold report_results, log.
  destruct (success testResults); along_script.
  - apply grows_createComment. intros; exact I.
  - destruct (needs_refactoring analysis);
      [apply triggerRefactoring_grows | apply grows_ret].
  - apply grows_createComment. intros; exact I.
Qed.

Lemma bind_eq {A B} (m : M A) (k : A -> M B) w a w1 :
  m w = (Return a, w1) -> bind m k w = k a w1.
Proof. intros H. unfold bind. rewrite H. reflexivity. Qed.

Lemma returns_eq {A} (m : M A) :
  returns m -> forall w, exists a, m w = (Return a, snd (m w)).
Proof.
  intros H w. destruct (H w) as [a Ha]. exists a.
  destruct (m w) as [r w1]. simpl in *. subst r. reflexivity.
Qed.

Lemma grows_weaken (P Q : Event -> Prop) w w' :
  (forall ev, P ev -> Q ev) -> grows P w w' -> grows Q w w'.
Proof.
  intros HPQ ((evs & Ht & HF) & Hl & Hk). repeat split; try assumption.
  exists evs. split; [exact Ht|]. eapply Forall_impl; [exact HF|]. exact HPQ.
Qed.

(** [processPullRequest] up to the report: the analysis and the test run
    return normally whatever the host answers, and start no remediation. *)
Lemma processPullRequest_steps pr w :
  let w1 := snd (log (processing_line pr) w) in
  exists analysis testResults w2 w4,
    analyzePRChanges env (number pr) w1 = (Return analysis, w2) /\
    runTests env (number pr) (head_ref pr) (snd (log_analysis analysis w2))
      = (Return testResults, w4) /\
    processPullRequest env pr w = report_results env pr analysis testResults w4 /\
    (forall k, grows (no_trigger env k) w1 w4).
Proof.
  intros w1.
  destruct (returns_eq _ (analyzePRChanges_returns (number pr)) w1) as [analysis Ea].
  set (w2 := snd (analyzePRChanges env (number pr) w1)) in *.
  set (m3 := log_analysis analysis).
  assert (returns m3) as R3.
  { unfold m3, log_analysis, log. destruct analysis as [a|]; along_script.
    destruct (0 <? length (criticalFiles a)); along_script. }
  assert (forall k, preserves (grows (no_trigger env k)) m3) as G3.
  { intros k. unfold m3, log_analysis, log. destruct analysis as [a|]; along_script.
    destruct (0 <? length (criticalFiles a)); along_script. }
  destruct (returns_eq _ R3 w2) as [[] E3].
  set (w3 := snd (m3 w2)) in *.
  destruct (returns_eq _ (runTests_returns (number pr) (head_ref pr)) w3) as [testResults Et].
  set (w4 := snd (runTests env (number pr) (head_ref pr) w3)) in *.
  exists analysis, testResults, w2, w4.
  split; [exact Ea|]. split; [exact Et|]. split.
  - unfold processPullRequest.
    fold (processing_line pr).
    rewrite (bind_eq (log (processing_line pr)) _ w tt w1 eq_refl).
    rewrite (bind_eq (analyzePRChanges env (number pr)) _ w1 analysis w2 Ea).
    fold m3. rewrite (bind_eq m3 _ w2 tt w3 E3).
    rewrite (bind_eq (runTests env (number pr) (head_ref pr)) _ w3 testResults w4 Et).
    reflexivity.
  - intros k.
    eapply grows_trans; [apply (analyzePRChanges_no_trigger k (number pr) w1)|].
    fold w2. eapply grows_trans; [apply (G3 k w2)|]. fold w3.
    apply (runTests_no_trigger k (number pr) (head_ref pr) w3).
Qed.

End Driver.

Lemma new_events_app w w' evs : trace w' = trace w ++ evs -> PRMonitor.new_events w w' = evs.
Proof. intros H. unfold PRMonitor.new_events. rewrite H. apply drop_app_length. Qed.

Lemma new_logs_app w w' ls : logs w' = logs w ++ ls -> PRMonitor.new_logs w w' = ls.
Proof. intros H. unfold PRMonitor.new_logs. rewrite H. apply drop_app_length. Qed.

(** What the report step adds to the trace: the comment and, after a
    comment posted on a passed run that meets the threshold, the command
    that starts the remediation workflow. *)
Lemma report_results_trace env pr analysis testResults w :
  let w' := snd (PRMonitor.report_results env pr analysis testResults w) in
  let posted := issues_createComment_error env (ticks w) (number pr)
                  (PRMonitor.success_body analysis) in
  if PRMonitor.success testResults then
    match posted with
    | Some _ =>
        trace w' = trace w ++
          [IssuesCreateComment (number pr) (PRMonitor.success_body analysis) false]
    | None =>
        if PRMonitor.needs_refactoring analysis then
          exists ok,
            trace w' = trace w ++
              [IssuesCreateComment (number pr) (PRMonitor.success_body analysis) true;
               Exec (PRMonitor.refactor_command (scriptsDir env) (number pr)) ok]
        else
          trace w' = trace w ++
            [IssuesCreateComment (number pr) (PRMonitor.success_body analysis) true]
    end
  else
    exists ok,
      trace w' = trace w ++
        [IssuesCreateComment (number pr)
           (PRMonitor.failure_body (PRMonitor.errors testResults)) ok].
Proof.
  unfold PRMonitor.report_results, PRMonitor.triggerRefactoring, PRMonitor.log.
  unfold bind, try_catch, append_log, octokit_issues_createComment, execSync.
  destruct (PRMonitor.success testResults); cbn [ticks].
  - destruct (issues_createComment_error env (ticks w) (number pr)
                (PRMonitor.success_body analysis)); cbn [snd ticks trace step].
    + reflexivity.
    + destruct (PRMonitor.needs_refactoring analysis); cbn [snd ticks trace step ret].
      * destruct (exec_error env (S (ticks w))
                    (PRMonitor.refactor_command (scriptsDir env) (number pr))).
        -- exists false. cbn. rewrite <- app_assoc. reflexivity.
        -- exists true. cbn.
           destruct (checkout_target _); cbn; rewrite <- app_assoc; reflexivity.
      * reflexivity.
  - destruct (issues_createComment_error env (ticks w) (number pr)
                (PRMonitor.failure_body (PRMonitor.errors testResults))).
    + exists false. reflexivity.
    + exists true. reflexivity.
Qed.

(** Where the remediation workflow is started.  In every run of
    [processPullRequest] the analysis of the unit returns [analysis]; the
    test run of the unit, started where the analysis and its log lines left
    the world, returns [testResults]; and the workflow is started for the
    unit exactly when [testResults] is a success, the success comment for
    [analysis] is posted without error, and the threshold predicate holds
    of [analysis]. *)
Lemma refactoring_triggered_iff env pr w :
  let w1 := snd (PRMonitor.log (PRMonitor.processing_line pr) w) in
  exists analysis testResults w2 w4,
    PRMonitor.analyzePRChanges env (number pr) w1 = (Return analysis, w2) /\
    PRMonitor.runTests env (number pr) (head_ref pr)
      (snd (PRMonitor.log_analysis analysis w2)) = (Return testResults, w4) /\
    (PRMonitor.refactoring_triggered env pr w (snd (PRMonitor.processPullRequest env pr w)) <->
     PRMonitor.success testResults = true /\
     issues_createComment_error env (ticks w4) (number pr)
       (PRMonitor.success_body analysis) = None /\
     PRMonitor.needs_refactoring analysis = true).
Proof.
  intros w1.
  destruct (processPullRequest_steps env pr w)
    as (analysis & testResults & w2 & w4 & Ea & Et & Ep & Hg).
  exists analysis, testResults, w2, w4.
  split; [exact Ea|]. split; [exact Et|].
  destruct (Hg (number pr)) as ((evs & Ht & HF) & _ & _).
  change (trace (snd (PRMonitor.log (PRMonitor.processing_line pr) w))) with (trace w) in Ht.
  rewrite Ep. unfold PRMonitor.refactoring_triggered.
  pose proof (report_results_trace env pr analysis testResults w4) as Hr. cbv zeta in Hr.
  assert (forall ok, ~ In (Exec (PRMonitor.refactor_command (scriptsDir env) (number pr)) ok) evs)
    as Hevs.
  { intros ok Hin. rewrite List.Forall_forall in HF. exact (HF _ Hin ok eq_refl). }
  destruct (PRMonitor.success testResults).
  - destruct (issues_createComment_error env (ticks w4) (number pr)
                (PRMonitor.success_body analysis)) as [e|].
    + rewrite Ht, <- app_assoc in Hr. rewrite (new_events_app _ _ _ Hr).
      split.
      * intros (ok & Hin). apply in_app_or in Hin as [Hin|[Hin|[]]];
          [exfalso; exact (Hevs ok Hin) | discriminate].
      * intros (_ & H & _). discriminate.
    + destruct (PRMonitor.needs_refactoring analysis).
      * destruct Hr as (ok & Hr). rewrite Ht, <- app_assoc in Hr.
        rewrite (new_events_app _ _ _ Hr). split; [intros _; repeat split|].
        intros _. exists ok. apply in_or_app. right. right. left. reflexivity.
      * rewrite Ht, <- app_assoc in Hr. rewrite (new_events_app _ _ _ Hr).
        split.
        -- intros (ok & Hin). apply in_app_or in Hin as [Hin|[Hin|[]]];
             [exfalso; exact (Hevs ok Hin) | discriminate].
        -- intros (_ & _ & H). discriminate.
  - destruct Hr as (ok' & Hr). rewrite Ht, <- app_assoc in Hr.
    rewrite (new_events_app _ _ _ Hr). split.
    + intros (ok & Hin). apply in_app_or in Hin as [Hin|[Hin|[]]];
        [exfalso; exact (Hevs ok Hin) | discriminate].
    + intros (H & _). discriminate.
Qed.

(** ** Errors caught and logged inside processPullRequest *)

Section Logged.
Import PRMonitor.
Variable env : Env.

Lemma analyzePRChanges_logs_error n w e :
  pulls_listFiles env (ticks w) n = Throw e ->
  exists w',
    analyzePRChanges env n w = (Return None, w') /\
    new_logs w w' = ["Error analyzing PR changes: " +:+ e].
Proof.
  intros H. unfold analyzePRChanges, try_catch, bind, octokit_pulls_listFiles, log, append_log, ret.
  rewrite H. eexists. split; [reflexivity|].
  apply new_logs_app. reflexivity.
Qed.

Lemma runTests_logs_error n b w :
  exists r w',
    runTests env n b w = (Return r, w') /\
    (success r = false ->
     exists e, errors r = [e] /\ In ("Tests failed: " +:+ e) (new_logs w w')).
Proof.
  unfold runTests, try_finally, try_catch, bind, log, append_log, execSync, ret.
  cbn [ticks step].
  repeat match goal with
         | |- context [exec_error env ?t ?c] => destruct (exec_error env t c) as [?e|]; cbn
         | |- context [checkout_target ?c] => destruct (checkout_target c); cbn
         end;
    eexists _, _; (split; [reflexivity|]); cbn; intros Hs; try discriminate Hs;
    eexists; (split; [reflexivity|]);
    unfold new_logs, set_branch, step; cbn [logs];
    rewrite <- ?app_assoc; rewrite drop_app_length; cbn [app In]; tauto.
Qed.

Lemma triggerRefactoring_logs_error pr w e :
  exec_error env (ticks w) (refactor_command (scriptsDir env) (number pr)) = Some e ->
  exists w',
    triggerRefactoring env pr w = (Return tt, w') /\
    In ("Refactoring analysis failed: " +:+ e) (new_logs w w').
Proof.
  intros H. unfold triggerRefactoring, try_catch, bind, log, append_log, execSync, ret.
  cbn [ticks]. rewrite H. eexists. split; [reflexivity|].
  unfold new_logs. cbn [logs step snd]. rewrite <- app_assoc, drop_app_length.
  right. left. reflexivity.
Qed.

End Logged.

(** ** Per-unit isolation in a cycle (start) *)

Section Cycle.
Import PRMonitor.
Variable env : Env.
Hypothesis comments_post : forall t n body, issues_createComment_error env t n body = None.

Lemma report_results_posts pr analysis testResults w :
  exists w' body rest,
    report_results env pr analysis testResults w = (Return tt, w') /\
    trace w' = trace w ++ IssuesCreateComment (number pr) body true :: rest.
Proof.
  unfold report_results, triggerRefactoring, log.
  unfold bind, try_catch, append_log, octokit_issues_createComment, execSync.
  destruct (success testResults); cbn [ticks]; rewrite comments_post.
  - destruct (needs_refactoring analysis); cbn [ticks step].
    + destruct (exec_error env (S (ticks w)) (refactor_command (scriptsDir env) (number pr))).
      * eexists _, _, _. split; [reflexivity|]. cbn. rewrite <- app_assoc. reflexivity.
      * destruct (checkout_target (refactor_command (scriptsDir env) (number pr)));
          eexists _, _, _; (split; [reflexivity|]); cbn; rewrite <- app_assoc; reflexivity.
    + eexists _, _, []. split; reflexivity.
  - eexists _, _, []. split; reflexivity.
Qed.

Lemma processed_later pr w w1 w2 :
  processed pr w w1 -> grows (fun _ => True) w w1 -> grows (fun _ => True) w1 w2 ->
  processed pr w w2.
Proof.
  intros [Hl (body & He)] ((e1 & T1 & _) & (l1 & L1) & _) ((e2 & T2 & _) & (l2 & L2) & _).
  rewrite (new_logs_app _ _ _ L1) in Hl. rewrite (new_events_app _ _ _ T1) in He.
  rewrite L1, <- app_assoc in L2. rewrite T1, <- app_assoc in T2.
  split.
  - rewrite (new_logs_app _ _ _ L2). apply in_or_app. left. exact Hl.
  - exists body. rewrite (new_events_app _ _ _ T2). apply in_or_app. left. exact He.
Qed.

Lemma processed_earlier pr w w1 w2 :
  grows (fun _ => True) w w1 -> grows (fun _ => True) w1 w2 -> processed pr w1 w2 ->
  processed pr w w2.
Proof.
  intros ((e1 & T1 & _) & (l1 & L1) & _) ((e2 & T2 & _) & (l2 & L2) & _) [Hl (body & He)].
  rewrite (new_logs_app _ _ _ L2) in Hl. rewrite (new_events_app _ _ _ T2) in He.
  rewrite L1, <- app_assoc in L2. rewrite T1, <- app_assoc in T2.
  split.
  - rewrite (new_logs_app _ _ _ L2). apply in_or_app. right. exact Hl.
  - exists body. rewrite (new_events_app _ _ _ T2). apply in_or_app. right. exact He.
Qed.

(** One unit: whatever the analysis, the tools of the test run and the
    remediation trigger answer, the unit is processed to the end. *)
Lemma processPullRequest_completes pr w :
  exists w',
    processPullRequest env pr w = (Return tt, w') /\
    grows (fun _ => True) w w' /\
    processed pr w w'.
Proof.
  destruct (processPullRequest_steps env pr w)
    as (analysis & testResults & w2 & w4 & _ & _ & Ep & Hg).
  destruct (report_results_posts pr analysis testResults w4) as (w' & body & rest & Er & Ht).
  exists w'. rewrite Ep. split; [exact Er|].
  assert (grows (fun _ => True) w (snd (log (processing_line pr) w))) as G0
    by apply grows_log.
  assert (grows (fun _ => True) (snd (log (processing_line pr) w)) w4) as G1.
  { eapply grows_weaken; [|exact (Hg 0)]. intros; exact I. }
  assert (grows (fun _ => True) w4 w') as G2.
  { pose proof (report_results_grows env pr analysis testResults w4) as G.
    rewrite Er in G. exact G. }
  split; [eapply grows_trans; [exact G0 | eapply grows_trans; eassumption]|].
  destruct G1 as ((e1 & T1 & _) & (l1 & L1) & _).
  cbn [log append_log snd logs trace] in T1, L1.
  split.
  - destruct G2 as (_ & (l2 & L2) & _).
    rewrite L1, <- !app_assoc in L2. rewrite (new_logs_app _ _ _ L2).
    left. reflexivity.
  - exists body. rewrite T1, <- app_assoc in Ht. rewrite (new_events_app _ _ _ Ht).
    apply in_or_app. right. left. reflexivity.
Qed.

Lemma process_all_completes prs : forall w,
  exists w',
    process_all env prs w = (Return tt, w') /\
    grows (fun _ => True) w w' /\
    forall pr, In pr prs -> processed pr w w'.
Proof.
  induction prs as [|pr prs IH]; intros w.
  - exists w. split; [reflexivity|]. split; [apply grows_refl|]. intros pr [].
  - destruct (processPullRequest_completes pr w) as (w1 & E1 & G1 & P1).
    destruct (IH w1) as (w' & E2 & G2 & P2).
    exists w'. cbn [process_all].
    rewrite (bind_eq (processPullRequest env pr) _ w tt w1 E1).
    split; [exact E2|]. split; [eapply grows_trans; eassumption|].
    intros p [<-|Hp].
    + eapply processed_later; eassumption.
    + eapply processed_earlier; [exact G1 | exact G2 | exact (P2 p Hp)].
Qed.

End Cycle.

Lemma grows_same P {A} (m : M A) :
  (forall w, snd (m w) = w) -> preserves (grows P) m.
Proof. intros H w. rewrite H. apply grows_refl. Qed.

Lemma getLastCheckedTime_grows P env : preserves (grows P) (PRMonitor.getLastCheckedTime env).
Proof.
  unfold PRMonitor.getLastCheckedTime, PRMonitor.log. along_script.
  - apply grows_same. reflexivity.
  - destruct a; along_script.
    apply grows_same. intros w. unfold fs_readFileSync_lastChecked.
    destruct (fs_read_error env (ticks w)), (lastCheckedFile w); reflexivity.
  - destruct a; along_script. apply grows_same. reflexivity.
Qed.

Lemma getNewPullRequests_grows env :
  preserves (grows (fun _ => True)) (PRMonitor.getNewPullRequests env).
Proof.
  unfold PRMonitor.getNewPullRequests, PRMonitor.log.
  apply grows_try_catch; [|intros; along_script].
  apply grows_bind; [apply getLastCheckedTime_grows|]. intros lastChecked.
  apply grows_bind; [|intros; apply grows_ret].
  apply grows_pulls_list. intros; exact I.
Qed.

Lemma updateLastCheckedTime_writes env w :
  fs_write_error env (ticks w) = None ->
  PRMonitor.updateLastCheckedTime env w =
  (Return tt,
   {| branch := branch w; ticks := ticks w; trace := trace w; logs := logs w;
      lastCheckedFile := Some (Some (clock env (ticks w))) |}).
Proof.
  intros H. unfold PRMonitor.updateLastCheckedTime, bind, date_now, fs_writeFileSync_lastChecked.
  rewrite H. reflexivity.
Qed.

(** The guarded calls.  An error raised by the analysis, by a step of the
    test run or by the remediation trigger is caught and logged inside
    [processPullRequest]: these three always return normally.  When the
    report comments are posted without error, every unit the detector
    returned is processed in the cycle (its processing is announced and its
    report comment posted), whatever the other external calls answer; with
    the checkpoint file writable the cycle then completes and stores a
    checkpoint. *)
Lemma cycle_processes_every_unit env w :
  (forall t n body, issues_createComment_error env t n body = None) ->
  (forall t, fs_write_error env t = None) ->
  (forall n, returns (PRMonitor.analyzePRChanges env n)) /\
  (forall n w0 e,
     pulls_listFiles env (ticks w0) n = Throw e ->
     exists w',
       PRMonitor.analyzePRChanges env n w0 = (Return None, w') /\
       PRMonitor.new_logs w0 w' = ["Error analyzing PR changes: " +:+ e]) /\
  (forall n b w0,
     exists r w',
       PRMonitor.runTests env n b w0 = (Return r, w') /\
       (PRMonitor.success r = false ->
        exists e, PRMonitor.errors r = [e] /\
                  In ("Tests failed: " +:+ e) (PRMonitor.new_logs w0 w'))) /\
  (forall pr, returns (PRMonitor.triggerRefactoring env pr)) /\
  (forall pr w0 e,
     exec_error env (ticks w0)
       (PRMonitor.refactor_command (scriptsDir env) (number pr)) = Some e ->
     exists w',
       PRMonitor.triggerRefactoring env pr w0 = (Return tt, w') /\
       In ("Refactoring analysis failed: " +:+ e) (PRMonitor.new_logs w0 w')) /\
  exists news w1 w',
    PRMonitor.getNewPullRequests env (snd (PRMonitor.log "Starting PR monitor..." w))
      = (Return news, w1) /\
    PRMonitor.start env w = (Return tt, w') /\
    (forall pr, In pr news -> PRMonitor.processed pr w w') /\
    exists now, lastCheckedFile w' = Some (Some now).
Proof.
  intros Hc Hw.
  split; [apply analyzePRChanges_returns|].
  split; [apply analyzePRChanges_logs_error|].
  split; [apply runTests_logs_error|].
  split; [apply triggerRefactoring_returns|].
  split; [apply triggerRefactoring_logs_error|].
  set (w0 := snd (PRMonitor.log "Starting PR monitor..." w)).
  destruct (returns_eq _ (getNewPullRequests_returns env) w0) as [news En].
  set (w1 := snd (PRMonitor.getNewPullRequests env w0)) in *.
  assert (grows (fun _ => True) w w1) as G01.
  { eapply grows_trans; [apply (grows_log _ "Starting PR monitor..." w)|].
    apply (getNewPullRequests_grows env w0). }
  set (body := if length news =? 0
               then PRMonitor.log "No new pull requests found."
               else bind (PRMonitor.log ("Found " +:+ string_of_nat (length news) +:+
                                         " new pull request(s)"))
                         (fun _ => PRMonitor.process_all env news)).
  assert (exists w2, body w1 = (Return tt, w2) /\ grows (fun _ => True) w1 w2 /\
                     forall pr, In pr news -> PRMonitor.processed pr w1 w2)
    as (w2 & Eb & G12 & Hp).
  { unfold body. destruct news as [|pr news'].
    - eexists. split; [reflexivity|]. split; [apply grows_log|]. intros pr [].
    - cbn [length Nat.eqb].
      set (wl := snd (PRMonitor.log ("Found " +:+ string_of_nat (S (length news')) +:+
                                     " new pull request(s)") w1)).
      destruct (process_all_completes env Hc (pr :: news') wl) as (w2 & E2 & G2 & P2).
      exists w2.
      assert (grows (fun _ => True) w1 wl) as Gl by apply grows_log.
      split; [|split].
      + rewrite (bind_eq _ _ w1 tt wl eq_refl). exact E2.
      + eapply grows_trans; eassumption.
      + intros p Hin. eapply processed_earlier; [exact Gl | exact G2 | exact (P2 p Hin)]. }
  pose proof (updateLastCheckedTime_writes env w2 (Hw _)) as Eu.
  set (w3 := {| branch := branch w2; ticks := ticks w2; trace := trace w2; logs := logs w2;
                lastCheckedFile := Some (Some (clock env (ticks w2))) |}) in Eu.
  set (w' := snd (PRMonitor.log "PR monitor cycle complete." w3)).
  exists news, w1, w'.
  split; [exact En|]. split; [|split].
  - unfold PRMonitor.start.
    rewrite (bind_eq (PRMonitor.log "Starting PR monitor...") _ w tt w0 eq_refl).
    rewrite (bind_eq (PRMonitor.getNewPullRequests env) _ w0 news w1 En).
    fold body. rewrite (bind_eq body _ w1 tt w2 Eb).
    rewrite (bind_eq (PRMonitor.updateLastCheckedTime env) _ w2 tt w3 Eu).
    reflexivity.
  - intros pr Hin.
    assert (grows (fun _ => True) w2 w') as G2'.
    { repeat split; cbn.
      - exists []. rewrite app_nil_r. split; [reflexivity | constructor].
      - eexists. reflexivity.
      - lia. }
    eapply processed_earlier; [exact G01 | eapply grows_trans; eassumption |].
    eapply processed_later; [exact (Hp pr Hin) | exact G12 | exact G2'].
  - exists (clock env (ticks w2)). reflexivity.
Qed.

Lemma cycle_processes_every_unit_witness :
  (forall n, returns (PRMonitor.analyzePRChanges Examples.env_build_fails n)) /\
  (forall n w0 e,
     pulls_listFiles Examples.env_build_fails (ticks w0) n = Throw e ->
     exists w',
       PRMonitor.analyzePRChanges Examples.env_build_fails n w0 = (Return None, w') /\
       PRMonitor.new_logs w0 w' = ["Error analyzing PR changes: " +:+ e]) /\
  (forall n b w0,
     exists r w',
       PRMonitor.runTests Examples.env_build_fails n b w0 = (Return r, w') /\
       (PRMonitor.success r = false ->
        exists e, PRMonitor.errors r = [e] /\
                  In ("Tests failed: " +:+ e) (PRMonitor.new_logs w0 w'))) /\
  (forall pr, returns (PRMonitor.triggerRefactoring Examples.env_build_fails pr)) /\
  (forall pr w0 e,
     exec_error Examples.env_build_fails (ticks w0)
       (PRMonitor.refactor_command (scriptsDir Examples.env_build_fails) (number pr)) = Some e ->
     exists w',
       PRMonitor.triggerRefactoring Examples.env_build_fails pr w0 = (Return tt, w') /\
       In ("Refactoring analysis failed: " +:+ e) (PRMonitor.new_logs w0 w')) /\
  exists news w1 w',
    PRMonitor.getNewPullRequests Examples.env_build_fails
      (snd (PRMonitor.log "Starting PR monitor..." Examples.world0))
      = (Return news, w1) /\
    PRMonitor.start Examples.env_build_fails Examples.world0 = (Return tt, w') /\
    (forall pr, In pr news -> PRMonitor.processed pr Examples.world0 w') /\
    exists now, lastCheckedFile w' = Some (Some now).
Proof.
  exact (cycle_processes_every_unit Examples.env_build_fails Examples.world0
           (fun _ _ _ => eq_refl) (fun _ => eq_refl)).
Defined.

(** In that cycle both units fail their test run, and both are processed. *)
Example failing_units_are_both_processed :
  let run := PRMonitor.start Examples.env_build_fails Examples.world0 in
  fst run = Return tt /\
  List.filter (String.prefix "Processing PR #") (logs (snd run)) =
    ["Processing PR #8: Fix typo"; "Processing PR #7: Add login"] /\
  List.filter (String.prefix "Tests failed") (logs (snd run)) =
    ["Tests failed: Command failed: npm run build"; "Tests failed for PR #8";
     "Tests failed: Command failed: npm run build"; "Tests failed for PR #7"].
Proof. vm_compute. repeat split. Qed.

(** C4 at the failing input: two detected units, and the call that posts
    the report comment of the first one (unit 8) throws.  The error is not
    caught: it leaves [processPullRequest] and [start], which throws it; the
    failed comment is the last external call of the cycle, the second unit
    (unit 7) is not processed, nothing is logged about the error, and the
    checkpoint is not written. *)
Theorem comment_failure_aborts_cycle :
  let run := PRMonitor.start Examples.env_comment_fails_8 Examples.world0 in
  fst (PRMonitor.getNewPullRequests Examples.env_comment_fails_8
         (snd (PRMonitor.log "Starting PR monitor..." Examples.world0)))
    = Return [Examples.pr8; Examples.pr7] /\
  fst run = Throw "HttpError: Resource not accessible by integration" /\
  PRMonitor.new_events Examples.world0 (snd run) =
    [ PullsList true;
      PullsListFiles 8 true;
      Exec "git fetch origin pull/8/head:pr-8" true;
      Exec "git checkout pr-8" true;
      Exec "npm install" true;
      Exec "npm run lint" true;
      Exec "npm run build" true;
      Exec "npx tsc --noEmit" true;
      Exec "git checkout main" true;
      IssuesCreateComment 8 (PRMonitor.success_body (Some Examples.analysis_200)) false ] /\
  List.filter (String.prefix "Processing PR #") (logs (snd run)) =
    ["Processing PR #8: Fix typo"] /\
  List.filter (includes "HttpError") (logs (snd run)) = [] /\
  ~ PRMonitor.processed Examples.pr7 Examples.world0 (snd run) /\
  lastCheckedFile (snd run) = None.
Proof.
  cbv zeta. do 5 (split; [vm_compute; reflexivity|]). split; [|vm_compute; reflexivity].
  intros [Hl _]. vm_compute in Hl.
  repeat (destruct Hl as [Hl|Hl]; [discriminate Hl|]). exact Hl.
Qed.

(** C6 at the failing input: the analysis of unit 7 finds 200 added lines,
    so the threshold predicate holds; the test run of the unit, started
    where the analysis and its log lines left the world, succeeds; the call
    that posts the success comment throws.  The error leaves
    [processPullRequest] before the threshold test, and the remediation
    workflow is not started. *)
Theorem comment_failure_blocks_refactoring :
  let env := Examples.with_comment_failing 7 Examples.env_ok in
  let run := PRMonitor.processPullRequest env Examples.pr7 Examples.world0 in
  let w1 := snd (PRMonitor.log (PRMonitor.processing_line Examples.pr7) Examples.world0) in
  let analysed := PRMonitor.analyzePRChanges env 7 w1 in
  let tested :=
    PRMonitor.runTests env 7 "feature/login"
      (snd (PRMonitor.log_analysis (Some Examples.analysis_200) (snd analysed))) in
  fst analysed = Return (Some Examples.analysis_200) /\
  PRMonitor.needs_refactoring (Some Examples.analysis_200) = true /\
  fst tested = Return {| PRMonitor.success := true; PRMonitor.errors := [] |} /\
  fst run = Throw "HttpError: Resource not accessible by integration" /\
  PRMonitor.new_events Examples.world0 (snd run) =
    [PullsListFiles 7 true;
     Exec "git fetch origin pull/7/head:pr-7" true;
     Exec "git checkout pr-7" true;
     Exec "npm install" true;
     Exec "npm run lint" true;
     Exec "npm run build" true;
     Exec "npx tsc --noEmit" true;
     Exec "git checkout main" true;
     IssuesCreateComment 7 (PRMonitor.success_body (Some Examples.analysis_200)) false] /\
  ~ PRMonitor.refactoring_triggered env Examples.pr7 Examples.world0 (snd run).
Proof.
  cbv zeta. repeat (split; [vm_compute; reflexivity|]).
  intros [ok Hin]. vm_compute in Hin.
  repeat (destruct Hin as [Hin|Hin]; [discriminate Hin|]). exact Hin.
Qed.

(** With the comment posted, the same unit starts the workflow. *)
Example posted_comment_starts_refactoring :
  PRMonitor.refactoring_triggered Examples.env_ok Examples.pr7 Examples.world0
    (snd (PRMonitor.processPullRequest Examples.env_ok Examples.pr7 Examples.world0)).
Proof.
  exists true. vm_compute. do 9 right. left. reflexivity.
Qed.

(** ** The checkpoint over cycles *)

Section Checkpoint.
Import PRMonitor.
Variable env : Env.

Lemma kept_refl w : checkpoint_kept env w w.
Proof. split; [lia | left; reflexivity]. Qed.

Lemma kept_trans w1 w2 w3 :
  checkpoint_kept env w1 w2 -> checkpoint_kept env w2 w3 -> checkpoint_kept env w1 w3.
Proof.
  intros [T1 F1] [T2 F2]. split; [lia|].
  destruct F2 as [F2|(t & Ha & Hb & F2)].
  - rewrite F2. destruct F1 as [F1|(t & Ha & Hb & F1)].
    + left. exact F1.
    + right. exists t. repeat split; [lia | lia | exact F1].
  - right. exists t. repeat split; [lia | lia | exact F2].
Qed.

Lemma kept_ret {A} (a : A) : preserves (checkpoint_kept env) (ret a).
Proof. apply preserves_ret, kept_refl. Qed.

Lemma kept_bind {A B} (m : M A) (k : A -> M B) :
  preserves (checkpoint_kept env) m -> (forall a, preserves (checkpoint_kept env) (k a)) ->
  preserves (checkpoint_kept env) (bind m k).
Proof. apply preserves_bind, kept_trans. Qed.

Lemma kept_try_catch {A} (body : M A) (h : string -> M A) :
  preserves (checkpoint_kept env) body -> (forall e, preserves (checkpoint_kept env) (h e)) ->
  preserves (checkpoint_kept env) (try_catch body h).
Proof. apply preserves_try_catch, kept_trans. Qed.

Lemma kept_try_finally {A} (body : M A) (fin : M unit) :
  preserves (checkpoint_kept env) body -> preserves (checkpoint_kept env) fin ->
  preserves (checkpoint_kept env) (try_finally body fin).
Proof. apply preserves_try_finally, kept_trans. Qed.

Lemma kept_step ev w : checkpoint_kept env w (step ev w).
Proof. split; [simpl; lia | left; reflexivity]. Qed.

Lemma kept_log msg : preserves (checkpoint_kept env) (append_log msg).
Proof. intros w. split; [simpl; lia | left; reflexivity]. Qed.

Lemma kept_execSync cmd : preserves (checkpoint_kept env) (execSync env cmd).
Proof.
  intros w. unfold execSync. destruct (exec_error env (ticks w) cmd).
  - apply kept_step.
  - simpl. destruct (checkout_target cmd); apply (kept_step (Exec cmd true) w).
Qed.

Lemma kept_listFiles n : preserves (checkpoint_kept env) (octokit_pulls_listFiles env n).
Proof.
  intros w. unfold octokit_pulls_listFiles.
  destruct (pulls_listFiles env (ticks w) n); apply kept_step.
Qed.

Lemma kept_pulls_list : preserves (checkpoint_kept env) (octokit_pulls_list env).
Proof.
  intros w. unfold octokit_pulls_list. destruct (pulls_list env (ticks w)); apply kept_step.
Qed.

Lemma kept_createComment n body :
  preserves (checkpoint_kept env) (octokit_issues_createComment env n body).
Proof.
  intros w. unfold octokit_issues_createComment.
  destruct (issues_createComment_error env (ticks w) n body); apply kept_step.
Qed.

Lemma kept_same {A} (m : M A) :
  (forall w, snd (m w) = w) -> preserves (checkpoint_kept env) m.
Proof. intros H w. rewrite H. apply kept_refl. Qed.

(** The only write to the checkpoint file stores the current clock reading. *)
Lemma kept_updateLastCheckedTime : preserves (checkpoint_kept env) (updateLastCheckedTime env).
Proof.
  intros w. unfold updateLastCheckedTime, bind, date_now, fs_writeFileSync_lastChecked.
  destruct (fs_write_error env (ticks w)); simpl.
  - apply kept_refl.
  - split; [simpl; lia|]. right. exists (ticks w). simpl. repeat split; lia.
Qed.

Ltac keep_checkpoint :=
  repeat first
    [ apply kept_updateLastCheckedTime
    | apply kept_log
    | apply kept_execSync
    | apply kept_listFiles
    | apply kept_pulls_list
    | apply kept_createComment
    | apply kept_ret
    | apply kept_bind; [ | intros ]
    | apply kept_try_catch; [ | intros ]
    | apply kept_try_finally ].

Lemma kept_getLastCheckedTime : preserves (checkpoint_kept env) (getLastCheckedTime env).
Proof.
  unfold getLastCheckedTime, log. keep_checkpoint.
  - apply kept_same. reflexivity.
  - destruct a; keep_checkpoint.
    apply kept_same. intros w. unfold fs_readFileSync_lastChecked.
    destruct (fs_read_error env (ticks w)), (lastCheckedFile w); reflexivity.
  - destruct a; keep_checkpoint. apply kept_same. reflexivity.
Qed.

Lemma kept_analyzePRChanges n : preserves (checkpoint_kept env) (analyzePRChanges env n).
Proof. unfold analyzePRChanges, log. keep_checkpoint. Qed.

Lemma kept_runTests n b : preserves (checkpoint_kept env) (runTests env n b).
Proof. unfold runTests, log. keep_checkpoint. Qed.

Lemma kept_triggerRefactoring pr : preserves (checkpoint_kept env) (triggerRefactoring env pr).
Proof. unfold triggerRefactoring, log. keep_checkpoint. Qed.

Lemma kept_report_results pr analysis testResults :
  preserves (checkpoint_kept env) (report_results env pr analysis testResults).
Proof.
  unfold report_results, log. destruct (success testResults).
  - apply kept_bind; [apply kept_log | intros _].
    apply kept_bind; [apply kept_createComment | intros _].
    destruct (needs_refactoring analysis); [apply kept_triggerRefactoring | apply kept_ret].
  - apply kept_bind; [apply kept_log | intros _]. apply kept_createComment.
Qed.

Lemma kept_processPullRequest pr : preserves (checkpoint_kept env) (processPullRequest env pr).
Proof.
  unfold processPullRequest, log_analysis, log.
  apply kept_bind; [apply kept_log | intros _].
  apply kept_bind; [apply kept_analyzePRChanges | intros analysis].
  apply kept_bind.
  { destruct analysis as [a|]; [|apply kept_ret].
    apply kept_bind; [apply kept_log | intros _].
    destruct (0 <? length (criticalFiles a)); [apply kept_log | apply kept_ret]. }
  intros _. apply kept_bind; [apply kept_runTests | intros testResults].
  apply kept_report_results.
Qed.

Lemma kept_process_all prs : preserves (checkpoint_kept env) (process_all env prs).
Proof.
  induction prs as [|pr prs IH]; cbn [process_all].
  - apply kept_ret.
  - apply kept_bind; [apply kept_processPullRequest | intros; exact IH].
Qed.

Lemma kept_start : preserves (checkpoint_kept env) (start env).
Proof.
  unfold start, getNewPullRequests, log.
  apply kept_bind; [apply kept_log | intros _].
  apply kept_bind.
  { apply kept_try_catch; [|intros; keep_checkpoint].
    apply kept_bind; [apply kept_getLastCheckedTime | intros].
    keep_checkpoint. }
  intros newPRs. apply kept_bind.
  { destruct (length newPRs =? 0); [apply kept_log|].
    apply kept_bind; [apply kept_log | intros; apply kept_process_all]. }
  intros _. keep_checkpoint.
Qed.

End Checkpoint.

Section FailedFetch.
Import PRMonitor.
Variable env : Env.

(** Reading the checkpoint makes no external call and always returns. *)
Lemma getLastCheckedTime_quiet w :
  exists T w',
    getLastCheckedTime env w = (Return T, w') /\
    ticks w' = ticks w /\ lastCheckedFile w' = lastCheckedFile w /\
    exists ls, logs w' = logs w ++ ls.
Proof.
  unfold getLastCheckedTime, bind, try_catch, fs_existsSync_lastChecked,
    fs_readFileSync_lastChecked, log, append_log, date_now, ret.
  destruct (lastCheckedFile w) as [T|] eqn:Ef; cbn.
  - rewrite Ef. destruct (fs_read_error env (ticks w)); cbn.
    + eexists _, _. split; [reflexivity|]. cbn.
      split; [reflexivity|]. split; [exact Ef|]. eexists. reflexivity.
    + eexists _, _. split; [reflexivity|].
      split; [reflexivity|]. split; [exact Ef|]. exists []. rewrite app_nil_r. reflexivity.
  - eexists _, _. split; [reflexivity|].
    split; [reflexivity|]. split; [exact Ef|]. exists []. rewrite app_nil_r. reflexivity.
Qed.

(** A list call that throws is caught and logged, and the detector returns
    the empty list. *)
Lemma getNewPullRequests_on_error w msg :
  pulls_list env (ticks w) = Throw msg ->
  exists w',
    getNewPullRequests env w = (Return [], w') /\
    ticks w' = S (ticks w) /\ lastCheckedFile w' = lastCheckedFile w /\
    In ("Error fetching pull requests: " +:+ msg) (new_logs w w').
Proof.
  intros Hl. destruct (getLastCheckedTime_quiet w) as (T & wq & Eq & Ht & Hf & (ls & Hlog)).
  unfold getNewPullRequests, try_catch.
  rewrite (bind_eq (getLastCheckedTime env) _ w T wq Eq).
  unfold bind at 1. unfold octokit_pulls_list. rewrite Ht, Hl.
  unfold bind, log, append_log, ret. cbn [step ticks trace logs lastCheckedFile branch].
  eexists. split; [reflexivity|]. cbn [ticks lastCheckedFile logs].
  split; [rewrite Ht; reflexivity|]. split; [exact Hf|].
  unfold new_logs. cbn [logs]. rewrite Hlog, <- app_assoc, drop_app_length.
  apply in_or_app. right. left. reflexivity.
Qed.

(** With the checkpoint [T] stored and readable, the detector returns
    normally and only units created after [T]. *)
Lemma getNewPullRequests_after_checkpoint w T :
  lastCheckedFile w = Some (Some T) ->
  fs_read_error env (ticks w) = None ->
  exists news w',
    getNewPullRequests env w = (Return news, w') /\
    forall pr t, In pr news -> created_at pr = Some t -> (T < t)%Z.
Proof.
  intros Hf Hr. unfold getNewPullRequests, try_catch.
  rewrite (bind_eq (getLastCheckedTime env) _ w (Some T) w
             (getLastCheckedTime_stored env w (Some T) Hf Hr)).
  unfold bind, octokit_pulls_list, ret, log, append_log.
  destruct (pulls_list env (ticks w)) as [prs|e].
  - eexists _, _. split; [reflexivity|].
    intros pr t Hin Ht. apply List.filter_In in Hin as [_ Hgt].
    unfold date_gt in Hgt. rewrite Ht in Hgt. apply Z.ltb_lt in Hgt. exact Hgt.
  - eexists _, _. split; [reflexivity|]. intros pr t [].
Qed.

Hypothesis clock_monotone : forall i j, i <= j -> (clock env i <= clock env j)%Z.

(** Every checkpoint a run can leave is at least the clock reading at the
    start of the run. *)
Lemma checkpoint_from_kept k w w' :
  checkpoint_from env k w -> checkpoint_kept env w w' -> checkpoint_from env k w'.
Proof.
  intros [Hk (T & Hf & HT)] [Ht [Hs|(t & Ha & Hb & Hs)]].
  - split; [lia|]. exists T. rewrite Hs. split; assumption.
  - split; [lia|]. exists (clock env t). split; [exact Hs|]. apply clock_monotone. lia.
Qed.

Lemma checkpoint_from_cycles k gaps : forall w,
  checkpoint_from env k w -> checkpoint_from env k (run_cycles env gaps w).
Proof.
  induction gaps as [|gap gaps IH]; intros w Hw; [exact Hw|].
  cbn [run_cycles]. apply IH.
  apply (checkpoint_from_kept k (idle gap w)); [|apply kept_start].
  destruct Hw as [Hk HT]. split; [simpl; lia | exact HT].
Qed.

End FailedFetch.

(** C10.  When the list call of a cycle throws, the detector catches and
    logs the error and returns the empty list, and the cycle completes and
    overwrites the checkpoint with the clock reading [now] of that moment.
    With a clock that does not go back and a checkpoint file that reads
    back, the detector of no later cycle returns a unit created at or
    before [now]: the units opened before the failed fetch are skipped for
    good. *)
Theorem failed_fetch_advances_checkpoint env w msg :
  pulls_list env (ticks w) = Throw msg ->
  fs_write_error env (S (ticks w)) = None ->
  (forall t, fs_read_error env t = None) ->
  (forall i j, i <= j -> (clock env i <= clock env j)%Z) ->
  let now := clock env (S (ticks w)) in
  (exists wd,
     PRMonitor.getNewPullRequests env (snd (PRMonitor.log "Starting PR monitor..." w))
       = (Return [], wd) /\
     In ("Error fetching pull requests: " +:+ msg) (PRMonitor.new_logs w wd)) /\
  exists w1,
    PRMonitor.start env w = (Return tt, w1) /\
    lastCheckedFile w1 = Some (Some now) /\
    forall gaps gap,
      let wk := snd (PRMonitor.log "Starting PR monitor..."
                       (PRMonitor.idle gap (PRMonitor.run_cycles env gaps w1))) in
      exists news w',
        PRMonitor.getNewPullRequests env wk = (Return news, w') /\
        forall pr t, In pr news -> created_at pr = Some t -> (now < t)%Z.
Proof.
  intros Hl Hw Hr Hclock now.
  set (w0 := snd (PRMonitor.log "Starting PR monitor..." w)).
  destruct (getNewPullRequests_on_error env w0 msg Hl) as (wd & Ed & Htd & Hfd & Hlog).
  split.
  { exists wd. split; [exact Ed|].
    unfold PRMonitor.new_logs in *. cbn [w0 PRMonitor.log append_log snd logs] in Hlog.
    rewrite length_app in Hlog. cbn [length] in Hlog.
    rewrite <- (drop_drop (logs wd) _ _) in Hlog.
    destruct (drop (length (logs w)) (logs wd)) as [|l ls]; [destruct Hlog|].
    right. exact Hlog. }
  set (wl := snd (PRMonitor.log "No new pull requests found." wd)).
  assert (ticks wl = S (ticks w)) as Htl by exact Htd.
  pose proof (updateLastCheckedTime_writes env wl) as Eu. rewrite Htl in Eu.
  specialize (Eu Hw).
  set (wu := {| branch := branch wl; ticks := S (ticks w); trace := trace wl; logs := logs wl;
                lastCheckedFile := Some (Some (clock env (S (ticks w)))) |}) in Eu.
  set (w1 := snd (PRMonitor.log "PR monitor cycle complete." wu)).
  exists w1. split; [|split].
  - unfold PRMonitor.start.
    rewrite (bind_eq (PRMonitor.log "Starting PR monitor...") _ w tt w0 eq_refl).
    rewrite (bind_eq (PRMonitor.getNewPullRequests env) _ w0 [] wd Ed).
    cbn [length Nat.eqb].
    rewrite (bind_eq (PRMonitor.log "No new pull requests found.") _ wd tt wl eq_refl).
    rewrite (bind_eq (PRMonitor.updateLastCheckedTime env) _ wl tt wu Eu).
    reflexivity.
  - reflexivity.
  - intros gaps gap wk.
    assert (checkpoint_from env (S (ticks w)) w1) as H1.
    { split; [cbn; lia|]. exists now. split; [reflexivity | unfold now; lia]. }
    pose proof (checkpoint_from_cycles env Hclock (S (ticks w)) gaps w1 H1) as [Hk (T & Hf & HT)].
    destruct (getNewPullRequests_after_checkpoint env wk T Hf (Hr _)) as (news & w' & En & Hnew).
    exists news, w'. split; [exact En|].
    intros pr t Hin Ht. specialize (Hnew pr t Hin Ht). unfold now. lia.
Qed.

Lemma failed_fetch_advances_checkpoint_witness :
  let env := Examples.env_outage in
  let w := Examples.world0 in
  let now := clock env (S (ticks w)) in
  (exists wd,
     PRMonitor.getNewPullRequests env (snd (PRMonitor.log "Starting PR monitor..." w))
       = (Return [], wd) /\
     In ("Error fetching pull requests: " +:+ "HttpError: connect ETIMEDOUT")
        (PRMonitor.new_logs w wd)) /\
  exists w1,
    PRMonitor.start env w = (Return tt, w1) /\
    lastCheckedFile w1 = Some (Some now) /\
    forall gaps gap,
      let wk := snd (PRMonitor.log "Starting PR monitor..."
                       (PRMonitor.idle gap (PRMonitor.run_cycles env gaps w1))) in
      exists news w',
        PRMonitor.getNewPullRequests env wk = (Return news, w') /\
        forall pr t, In pr news -> created_at pr = Some t -> (now < t)%Z.
Proof.
  refine (failed_fetch_advances_checkpoint Examples.env_outage Examples.world0
            "HttpError: connect ETIMEDOUT" eq_refl eq_refl (fun _ => eq_refl) _).
  intros i j Hij. cbn [clock Examples.env_outage Examples.with_pulls Examples.env_ok]. lia.
Defined.

(** In that scenario the next cycle sees both units and returns only the
    one created after the failed one. *)
Example unit_opened_before_failed_fetch_is_skipped :
  let w1 := snd (PRMonitor.start Examples.env_outage Examples.world0) in
  lastCheckedFile w1 = Some (Some 1000%Z) /\
  fst (PRMonitor.getNewPullRequests Examples.env_outage w1)
    = Return [Examples.pr_after_outage].
Proof. vm_compute. split; reflexivity. Qed.

(** ** The long-function scanner (checkForLongFunctions) *)

Section LongFunctions.
Import RefactorAnalyzer.

Lemma anchored_in_wider f lo hi lo' hi' s :
  lo' <= lo -> hi <= hi' -> anchored_in f lo hi s -> anchored_in f lo' hi' s.
Proof.
  intros Hlo Hhi [Hf (k & Ha & Hb & Hl)]. split; [exact Hf|].
  exists k. repeat split; [lia | lia | exact Hl].
Qed.

(** One line: the brace count is the running sum; a new suggestion, if
    any, is anchored at the start of the function that closes. *)
Lemma long_step_spec f i raw st :
  let st' := long_step f i raw st in
  braceCount st' = (braceCount st + line_delta raw)%Z /\
  (suggestions st' = suggestions st \/
   exists k, suggestions st' = suggestions st ++ [long_function_suggestion f k (i - k)] /\
             k < i /\ truthy (currentFunction st) = true /\ k = functionStart st) /\
  (truthy (currentFunction st') = true ->
   (functionStart st' = i \/
    (truthy (currentFunction st) = true /\ functionStart st' = functionStart st))).
Proof.
  unfold long_step, line_delta.
  destruct (is_function_start (trim raw) && (braceCount st =? 0)%Z) eqn:Estart;
    cbn [currentFunction functionStart braceCount suggestions].
  - (* the line starts a function at depth 0 *)
    rewrite Nat.ltb_irrefl, andb_false_r.
    cbn [currentFunction functionStart braceCount suggestions].
    split; [reflexivity|]. split; [left; reflexivity|]. intros _. left. reflexivity.
  - destruct (truthy (currentFunction st) && (braceCount st + brace_delta (trim raw) =? 0)%Z
              && (functionStart st <? i)) eqn:Eend;
      cbn [currentFunction functionStart braceCount suggestions truthy].
    + split; [reflexivity|]. split; [|discriminate].
      apply andb_prop in Eend as [Eend Hlt]. apply andb_prop in Eend as [Htr _].
      apply Nat.ltb_lt in Hlt.
      destruct (50 <? i - functionStart st); [|left; reflexivity].
      right. exists (functionStart st). repeat split; assumption.
    + split; [reflexivity|]. split; [left; reflexivity|].
      intros Htr. right. split; [exact Htr | reflexivity].
Qed.

(** A scan of lines [i, i + length lines): the brace count is the running
    sum, and the new suggestions are anchored at starts found in the scan
    or at the start of the function open on entry. *)
Lemma long_loop_spec f lines : forall i st lo,
  lo <= i ->
  (truthy (currentFunction st) = true -> lo <= functionStart st) ->
  let st' := long_loop f i lines st in
  braceCount st' = depth_after (braceCount st) lines /\
  exists new,
    suggestions st' = suggestions st ++ new /\
    Forall (anchored_in f lo (i + length lines)) new.
Proof.
  induction lines as [|raw lines IH]; intros i st lo Hlo Hfs.
  - cbn. split; [reflexivity|]. exists []. rewrite app_nil_r. split; [reflexivity | constructor].
  - cbn [long_loop depth_after length].
    destruct (long_step_spec f i raw st) as (Hbc & Hsug & Hcf).
    destruct (IH (S i) (long_step f i raw st) lo) as (Hbc' & new & Hnew & Hall).
    + lia.
    + intros Htr. destruct (Hcf Htr) as [->|[Htr0 ->]]; [lia | exact (Hfs Htr0)].
    + split; [rewrite Hbc', Hbc; reflexivity|].
      assert (Forall (anchored_in f lo (i + S (length lines))) new) as Hall'.
      { eapply Forall_impl; [exact Hall|]. intros s. apply anchored_in_wider; lia. }
      destruct Hsug as [Hsame|(k & Hk & Hlt & Htr & ->)].
      * exists new. rewrite Hnew, Hsame. split; [reflexivity | exact Hall'].
      * exists (long_function_suggestion f (functionStart st) (i - functionStart st) :: new).
        rewrite Hnew, Hk, <- app_assoc. split; [reflexivity|].
        constructor; [|exact Hall'].
        split; [reflexivity|]. exists (functionStart st).
        repeat split; [exact (Hfs Htr) | lia].
Qed.

Lemma long_loop_app f l1 : forall l2 i st,
  long_loop f i (l1 ++ l2) st = long_loop f (i + length l1) l2 (long_loop f i l1 st).
Proof.
  induction l1 as [|raw l1 IH]; intros l2 i st.
  - cbn [app long_loop length]. rewrite Nat.add_0_r. reflexivity.
  - cbn [app long_loop length]. rewrite IH.
    replace (i + S (length l1)) with (S i + length l1) by lia. reflexivity.
Qed.

(** Inside a block: no line starts the detection anew and none closes the
    function while the depth stays off 0. *)
Lemma long_loop_inside f body : forall i st,
  no_restart (braceCount st) body = true ->
  stays_open (braceCount st) body = true ->
  long_loop f i body st =
  {| currentFunction := currentFunction st; functionStart := functionStart st;
     braceCount := depth_after (braceCount st) body; suggestions := suggestions st |} /\
  (body <> [] -> depth_after (braceCount st) body <> 0%Z).
Proof.
  induction body as [|raw body IH]; intros i st Hre Hopen.
  - cbn. split; [destruct st; reflexivity | congruence].
  - cbn [stays_open] in Hopen. apply andb_prop in Hopen as [Hraw Hrest].
    apply negb_true_iff in Hraw.
    cbn [long_loop depth_after].
    assert (long_step f i raw st =
            {| currentFunction := currentFunction st; functionStart := functionStart st;
               braceCount := (braceCount st + line_delta raw)%Z;
               suggestions := suggestions st |}) as Estep.
    { unfold long_step, line_delta in *. cbn [no_restart] in Hre.
      assert (is_function_start (trim raw) && (braceCount st =? 0)%Z = false) as ->.
      { destruct (is_function_start (trim raw)), (braceCount st =? 0)%Z;
          try reflexivity; discriminate Hre. }
      rewrite Hraw, andb_false_r. reflexivity. }
    rewrite Estep.
    apply Z.eqb_neq in Hraw.
    destruct (IH (S i) {| currentFunction := currentFunction st;
                          functionStart := functionStart st;
                          braceCount := (braceCount st + line_delta raw)%Z;
                          suggestions := suggestions st |}) as [E Hd].
    + cbn [braceCount]. destruct body as [|raw' body']; [reflexivity|].
      cbn [no_restart]. apply Z.eqb_neq in Hraw. rewrite Hraw. reflexivity.
    + exact Hrest.
    + split; [exact E|]. intros _. cbn [braceCount] in Hd.
      destruct body as [|raw' body']; [exact Hraw | apply Hd; discriminate].
Qed.

Lemma function_start_not_empty l : is_function_start l = true -> truthy (Some l) = true.
Proof. destruct l; [vm_compute; discriminate | reflexivity]. Qed.

Lemma depth_after_app d l1 l2 : depth_after d (l1 ++ l2) = depth_after (depth_after d l1) l2.
Proof. revert d. induction l1 as [|raw l1 IH]; intros d; [reflexivity | apply IH]. Qed.

(** A detected block: a declaration line at depth 0, lines after which the
    depth is off 0, and the line that brings the depth back to 0, the line
    after the declaration not starting the detection anew.  The scan of
    these lines adds a suggestion exactly when the closing line is more than
    50 lines below the declaration line. *)
Lemma long_loop_block f decl body close s st :
  braceCount st = 0%Z ->
  is_function_start (trim decl) = true ->
  no_restart (line_delta decl) (body ++ [close]) = true ->
  stays_open (line_delta decl) body = true ->
  depth_after 0 (decl :: body ++ [close]) = 0%Z ->
  long_loop f s (decl :: body ++ [close]) st =
  {| currentFunction := None; functionStart := s; braceCount := 0%Z;
     suggestions :=
       if 50 <? S (length body)
       then suggestions st ++ [long_function_suggestion f s (S (length body))]
       else suggestions st |}.
Proof.
  intros Hz Hstart Hre Hopen Hclose.
  cbn [depth_after] in Hclose. rewrite Z.add_0_l, depth_after_app in Hclose.
  cbn [depth_after] in Hclose.
  cbn [long_loop].
  assert (long_step f s decl st =
          {| currentFunction := Some (trim decl); functionStart := s;
             braceCount := line_delta decl; suggestions := suggestions st |}) as Edecl.
  { unfold long_step, line_delta in *. rewrite Hstart, Hz. cbn [Z.eqb andb].
    cbn [currentFunction functionStart braceCount suggestions].
    rewrite Nat.ltb_irrefl, andb_false_r. rewrite Z.add_0_l. reflexivity. }
  rewrite Edecl, long_loop_app.
  destruct (long_loop_inside f body (S s)
              {| currentFunction := Some (trim decl); functionStart := s;
                 braceCount := line_delta decl; suggestions := suggestions st |})
    as [Ebody Hnz].
  { cbn [braceCount]. destruct body; [reflexivity | exact Hre]. }
  { exact Hopen. }
  rewrite Ebody. cbn [currentFunction functionStart braceCount suggestions] in *.
  cbn [long_loop]. unfold long_step.
  cbn [currentFunction functionStart braceCount suggestions].
  assert (is_function_start (trim close) &&
          (depth_after (line_delta decl) body =? 0)%Z = false) as ->.
  { destruct body as [|raw body'].
    - cbn [app no_restart depth_after] in *.
      destruct (is_function_start (trim close)), (line_delta decl =? 0)%Z;
        try reflexivity; discriminate Hre.
    - assert (depth_after (line_delta decl) (raw :: body') <> 0%Z) as Hd
        by (apply Hnz; discriminate).
      apply Z.eqb_neq in Hd. rewrite Hd. apply andb_false_r. }
  cbn [currentFunction functionStart braceCount suggestions].
  fold (line_delta close). rewrite Hclose.
  rewrite (function_start_not_empty _ Hstart). cbn [Z.eqb andb].
  assert ((s <? S s + length body) = true) as -> by (apply Nat.ltb_lt; lia).
  replace (S s + length body - s) with (S (length body)) by lia.
  reflexivity.
Qed.

(** The scan of one file adds suggestions anchored in that file. *)
Lemma long_file_spec sugg f content :
  exists new,
    long_file sugg (f, content) = sugg ++ new /\
    Forall (anchored_in f 0 (length (split_lines content))) new.
Proof.
  unfold long_file.
  destruct (long_loop_spec f (split_lines content) 0
              {| currentFunction := None; functionStart := 0; braceCount := 0%Z;
                 suggestions := sugg |} 0) as (_ & new & Hnew & Hall);
    [lia | discriminate |].
  exists new. split; [exact Hnew | exact Hall].
Qed.

Lemma checkForLongFunctions_spec tree : forall sugg,
  exists new,
    checkForLongFunctions tree sugg = sugg ++ new /\
    Forall (fun s => exists f, In f (map fst tree) /\ file s = Some f) new.
Proof.
  unfold checkForLongFunctions.
  induction tree as [|[f content] tree IH]; intros sugg.
  - exists []. rewrite app_nil_r. split; [reflexivity | constructor].
  - cbn [fold_left map fst].
    destruct (long_file_spec sugg f content) as (n1 & E1 & H1).
    destruct (IH (long_file sugg (f, content))) as (n2 & E2 & H2).
    exists (n1 ++ n2). rewrite E2, E1, app_assoc. split; [reflexivity|].
    apply Forall_app. split.
    + eapply Forall_impl; [exact H1|]. intros s [Hf _]. exists f. split; [left; reflexivity | exact Hf].
    + eapply Forall_impl; [exact H2|]. intros s (f' & Hin & Hf). exists f'.
      split; [right; exact Hin | exact Hf].
Qed.

Lemma filter_none {A} (p : A -> bool) (l : list A) :
  Forall (fun x => p x = false) l -> List.filter p l = [].
Proof.
  induction 1 as [|x l Hx _ IH]; [reflexivity|]. cbn. rewrite Hx. exact IH.
Qed.

Lemma not_anchored_other_file f ln l (files : list string) :
  ~ In f files ->
  Forall (fun s => exists f', In f' files /\ file s = Some f') l ->
  List.filter (anchored_at f ln) l = [].
Proof.
  intros Hnot Hall. apply filter_none. eapply Forall_impl; [exact Hall|].
  intros s (f' & Hin & Hf). unfold anchored_at. rewrite Hf.
  destruct (line s); [|reflexivity].
  destruct (String.eqb_spec f' f) as [->|]; [contradiction | reflexivity].
Qed.

Lemma not_anchored_outside f ln lo hi l :
  (ln < lo + 1 \/ hi + 1 <= ln) ->
  Forall (anchored_in f lo hi) l ->
  List.filter (anchored_at f ln) l = [].
Proof.
  intros Hout Hall. apply filter_none. eapply Forall_impl; [exact Hall|].
  intros s [Hf (k & Ha & Hb & Hl)]. unfold anchored_at. rewrite Hf, Hl.
  destruct (Nat.eqb_spec (k + 1) ln); [lia|]. apply andb_false_r.
Qed.

End LongFunctions.

(** The threshold of the scanner.  For every block the scanner detects (a
    declaration line met at brace depth 0, the line after it not starting
    the detection anew, the depth off 0 after every line until the closing
    line brings it back to 0), the scanner measures the closing index minus
    the declaration index, [span] here, which is one less than the number
    of lines from the declaration line to the closing line: the suggestions
    anchored at the declaration line are exactly one, of medium severity,
    when [span] exceeds 50, and none otherwise.  So a block of 52 lines
    ([span] 51) is flagged and a block of 51 lines ([span] 50) is not. *)
Lemma long_function_boundary tree1 f content tree2 pre decl body close post :
  ~ In f (map fst tree1) ->
  ~ In f (map fst tree2) ->
  split_lines content = pre ++ decl :: body ++ close :: post ->
  RefactorAnalyzer.depth_after 0 pre = 0%Z ->
  RefactorAnalyzer.is_function_start (trim decl) = true ->
  RefactorAnalyzer.no_restart (RefactorAnalyzer.line_delta decl) (body ++ [close]) = true ->
  RefactorAnalyzer.stays_open (RefactorAnalyzer.line_delta decl) body = true ->
  RefactorAnalyzer.depth_after 0 (decl :: body ++ [close]) = 0%Z ->
  let span := S (length body) in
  let flagged :=
    List.filter (RefactorAnalyzer.anchored_at f (length pre + 1))
      (RefactorAnalyzer.checkForLongFunctions (tree1 ++ (f, content) :: tree2) []) in
  flagged =
    (if 50 <? span then [RefactorAnalyzer.long_function_suggestion f (length pre) span] else []) /\
  (span = 51 ->
   flagged = [RefactorAnalyzer.long_function_suggestion f (length pre) 51] /\
   map RefactorAnalyzer.severity flagged = [RefactorAnalyzer.medium] /\
   map RefactorAnalyzer.line flagged = [Some (length pre + 1)]) /\
  (span = 50 -> flagged = []).
Proof.
  intros Hn1 Hn2 Hlines Hpre Hstart Hre Hopen Hclose span flagged.
  assert (flagged =
          (if 50 <? span
           then [RefactorAnalyzer.long_function_suggestion f (length pre) span] else []))
    as Hflag.
  { unfold flagged, RefactorAnalyzer.checkForLongFunctions.
    rewrite fold_left_app. cbn [fold_left].
    destruct (checkForLongFunctions_spec tree1 []) as (n1 & E1 & H1).
    unfold RefactorAnalyzer.checkForLongFunctions in E1. rewrite E1. cbn [app].
    destruct (checkForLongFunctions_spec tree2
                (RefactorAnalyzer.long_file n1 (f, content))) as (n2 & E2 & H2).
    unfold RefactorAnalyzer.checkForLongFunctions in E2. rewrite E2.
    (* the scan of the file itself *)
    unfold RefactorAnalyzer.long_file. rewrite Hlines.
    change (decl :: body ++ close :: post) with ((decl :: body) ++ close :: post).
    replace (pre ++ (decl :: body) ++ close :: post)
      with (pre ++ ((decl :: body ++ [close]) ++ post))
      by (cbn [app]; rewrite <- (app_assoc body [close] post); reflexivity).
    rewrite long_loop_app, long_loop_app. cbn [Nat.add].
    set (st0 := {| RefactorAnalyzer.currentFunction := None;
                   RefactorAnalyzer.functionStart := 0;
                   RefactorAnalyzer.braceCount := 0%Z;
                   RefactorAnalyzer.suggestions := n1 |}).
    destruct (long_loop_spec f pre 0 st0 0) as (Hbc & npre & Epre & Hallpre);
      [lia | discriminate |].
    cbn [RefactorAnalyzer.braceCount st0] in Hbc. rewrite Hpre in Hbc.
    cbn [RefactorAnalyzer.suggestions st0] in Epre.
    rewrite (long_loop_block f decl body close (length pre) _ Hbc Hstart Hre Hopen Hclose).
    rewrite Epre.
    set (opt := if 50 <? S (length body)
                then (n1 ++ npre) ++
                     [RefactorAnalyzer.long_function_suggestion f (length pre) (S (length body))]
                else n1 ++ npre).
    destruct (long_loop_spec f post (length pre + length (decl :: body ++ [close]))
                {| RefactorAnalyzer.currentFunction := None;
                   RefactorAnalyzer.functionStart := length pre;
                   RefactorAnalyzer.braceCount := 0%Z;
                   RefactorAnalyzer.suggestions := opt |}
                (length pre + length (decl :: body ++ [close])))
      as (_ & npost & Epost & Hallpost); [lia | discriminate |].
    cbn [RefactorAnalyzer.suggestions] in Epost. rewrite Epost.
    rewrite !List.filter_app.
    rewrite (not_anchored_other_file f _ n2 (map fst tree2) Hn2 H2).
    assert (length pre + 1 < length pre + length (decl :: body ++ [close]) + 1) as Hout
      by (cbn [length]; lia).
    rewrite (not_anchored_outside f _ _ _ npost (or_introl Hout) Hallpost).
    rewrite !app_nil_r.
    assert (List.filter (RefactorAnalyzer.anchored_at f (length pre + 1)) (n1 ++ npre) = [])
      as Hbefore.
    { rewrite List.filter_app.
      rewrite (not_anchored_other_file f _ n1 (map fst tree1) Hn1 H1).
      rewrite (not_anchored_outside f _ 0 (length pre) npre); [reflexivity | right; lia |].
      exact Hallpre. }
    unfold opt, span. destruct (50 <? S (length body)).
    - rewrite List.filter_app, Hbefore. cbn [app List.filter].
      unfold RefactorAnalyzer.anchored_at. cbn [RefactorAnalyzer.file RefactorAnalyzer.line
        RefactorAnalyzer.long_function_suggestion].
      rewrite String.eqb_refl, Nat.eqb_refl. reflexivity.
    - exact Hbefore. }
  split; [exact Hflag|]. split.
  - intros H51. rewrite Hflag, H51. cbn. repeat split.
  - intros H50. rewrite Hflag, H50. reflexivity.
Qed.

Lemma long_function_boundary_witness :
  let pre := ["import { work } from './work';"; ""] in
  let body := repeat "  work();" 50 in
  let flagged :=
    List.filter (RefactorAnalyzer.anchored_at "src/render.ts" (length pre + 1))
      (RefactorAnalyzer.checkForLongFunctions (Examples.tree_with_function 50) []) in
  flagged =
    (if 50 <? S (length body)
     then [RefactorAnalyzer.long_function_suggestion "src/render.ts" (length pre) (S (length body))]
     else []) /\
  (S (length body) = 51 ->
   flagged = [RefactorAnalyzer.long_function_suggestion "src/render.ts" (length pre) 51] /\
   map RefactorAnalyzer.severity flagged = [RefactorAnalyzer.medium] /\
   map RefactorAnalyzer.line flagged = [Some (length pre + 1)]) /\
  (S (length body) = 50 -> flagged = []).
Proof.
  refine (long_function_boundary
            [("src/util.ts", "export const one = 1;")] "src/render.ts"
            (Examples.file_with_function 50) []
            ["import { work } from './work';"; ""] "function render() {"
            (repeat "  work();" 50) "}" [""] _ _ _ _ _ _ _ _).
  - vm_compute. intros [H|[]]. discriminate H.
  - intros [].
  - vm_compute. reflexivity.
  - vm_compute. reflexivity.
  - vm_compute. reflexivity.
  - vm_compute. reflexivity.
  - vm_compute. reflexivity.
  - vm_compute. reflexivity.
Defined.

(** C8 at the failing input: a function of exactly 51 lines, from its
    declaration line to the line of its closing brace.  It is not flagged:
    the scanner compares the closing index minus the declaration index, 50
    here, with the threshold.  The first function flagged has 52 lines, and
    its message calls it 51 lines long. *)
Theorem function_of_51_lines_is_not_flagged :
  length (Examples.function_lines 49) = 51 /\
  split_lines (Examples.file_with_function 49) =
    ["import { work } from './work';"; EmptyString] ++ Examples.function_lines 49 ++
    [EmptyString] /\
  RefactorAnalyzer.checkForLongFunctions (Examples.tree_with_function 49) [] = [] /\
  length (Examples.function_lines 50) = 52 /\
  RefactorAnalyzer.checkForLongFunctions (Examples.tree_with_function 50) [] =
  [ {| RefactorAnalyzer.type := RefactorAnalyzer.refactor;
       RefactorAnalyzer.file := Some "src/render.ts";
       RefactorAnalyzer.line := Some 3;
       RefactorAnalyzer.message :=
         "Function is 51 lines long. Consider breaking it into smaller functions.";
       RefactorAnalyzer.severity := RefactorAnalyzer.medium;
       RefactorAnalyzer.suggestion :=
         "Break this function into smaller, more focused functions." |} ].
Proof. repeat split; vm_compute; reflexivity. Qed.

(** ** The duplicate-block scanner (checkForDuplicateCode) *)

Section DuplicateCode.
Import RefactorAnalyzer.

Lemma fold_left_map {A B C} (g : C -> B -> C) (h : A -> B) (l : list A) : forall c,
  fold_left g (map h l) c = fold_left (fun c x => g c (h x)) l c.
Proof. induction l as [|x l IH]; intros c; [reflexivity | apply IH]. Qed.

(** The scan of the tree is the scan of its windows, in order. *)
Lemma scan_as_windows tree : forall st,
  fold_left dup_file tree st = fold_left dup_window (windows tree) st.
Proof.
  induction tree as [|[f content] tree IH]; intros st; [reflexivity|].
  cbn [fold_left windows flat_map]. rewrite fold_left_app, IH. f_equal.
  unfold dup_file, file_windows. cbn [fst snd]. rewrite fold_left_map. reflexivity.
Qed.

(** One window: a suggestion is added exactly for a long block already in
    the map, reported at the window and naming the stored place; a long
    block not yet in the map is stored with the place of the window. *)
Lemma dup_window_spec cb out w :
  dup_window (cb, out) w =
  if 50 <? String.length (window_block w) then
    match cb !! window_block w with
    | Some first =>
        (cb, out ++ [duplicate_suggestion (fst (window_place w)) (snd (window_place w)) first])
    | None => (<[window_block w := window_place w]> cb, out)
    end
  else (cb, out).
Proof. destruct w as [[f i] b]. reflexivity. Qed.

(** Windows none of which holds the block [K]: the entry of [K] in the map
    is untouched, and every new suggestion is reported at one of the
    windows. *)
Lemma scan_other_blocks K ws : forall cb out,
  Forall (fun w => window_block w <> K) ws ->
  exists cb' new,
    fold_left dup_window ws (cb, out) = (cb', out ++ new) /\
    cb' !! K = cb !! K /\
    Forall (fun s => exists w, In w ws /\ reported_at (window_place w) s = true) new.
Proof.
  induction ws as [|w ws IH]; intros cb out Hall.
  - exists cb, []. rewrite app_nil_r. repeat split. constructor.
  - apply Forall_cons in Hall as [Hw Hall]. cbn [fold_left].
    rewrite dup_window_spec.
    assert (forall cb1 out1 n1,
              cb1 !! K = cb !! K ->
              out1 = out ++ n1 ->
              Forall (fun s => exists w', In w' (w :: ws) /\
                                          reported_at (window_place w') s = true) n1 ->
              exists cb' new,
                fold_left dup_window ws (cb1, out1) = (cb', out ++ new) /\
                cb' !! K = cb !! K /\
                Forall (fun s => exists w', In w' (w :: ws) /\
                                            reported_at (window_place w') s = true) new)
      as Hnext.
    { intros cb1 out1 n1 Hcb -> Hn1.
      destruct (IH cb1 (out ++ n1) Hall) as (cb' & new & E & Hk & Hnew).
      exists cb', (n1 ++ new). rewrite E, app_assoc. split; [reflexivity|].
      split; [rewrite Hk; exact Hcb|].
      apply Forall_app. split; [exact Hn1|].
      eapply Forall_impl; [exact Hnew|]. intros s (w' & Hin & Hr).
      exists w'. split; [right; exact Hin | exact Hr]. }
    destruct (50 <? String.length (window_block w)).
    + destruct (cb !! window_block w) as [first|] eqn:El.
      * apply (Hnext cb _ [duplicate_suggestion (fst (window_place w))
                             (snd (window_place w)) first]); [reflexivity | reflexivity |].
        constructor; [|constructor]. exists w. split; [left; reflexivity|].
        unfold reported_at, anchored_at. cbn [file line duplicate_suggestion].
        rewrite String.eqb_refl, Nat.eqb_refl. reflexivity.
      * apply (Hnext _ out []); [|rewrite app_nil_r; reflexivity | constructor].
        apply lookup_insert_ne. exact Hw.
    + apply (Hnext cb out []); [reflexivity | rewrite app_nil_r; reflexivity | constructor].
Qed.


Lemma filter_cons_split {A} (p : A -> bool) (l : list A) x r :
  List.filter p l = x :: r ->
  exists l1 l2,
    l = l1 ++ x :: l2 /\ Forall (fun z => p z = false) l1 /\ p x = true /\
    List.filter p l2 = r.
Proof.
  induction l as [|z l IH]; cbn; [discriminate|].
  destruct (p z) eqn:E.
  - intros H. injection H as -> <-. exists [], l. repeat split; [constructor | exact E].
  - intros H. destruct (IH H) as (l1 & l2 & -> & H1 & Hx & Hr).
    exists (z :: l1), l2. repeat split; [constructor; assumption | exact Hx | exact Hr].
Qed.


Lemma in_windows_file w tree : In w (windows tree) -> In (fst (fst w)) (map fst tree).
Proof.
  unfold windows. intros H. apply in_flat_map in H as ([f content] & Hin & Hw).
  unfold file_windows in Hw. apply in_map_iff in Hw as (i & <- & _).
  cbn [fst]. apply in_map_iff. exists (f, content). split; [reflexivity | exact Hin].
Qed.

Lemma NoDup_map_inj {A B} (g : A -> B) (l : list A) :
  (forall x y, g x = g y -> x = y) -> NoDup l -> NoDup (map g l).
Proof.
  intros Hinj. induction l as [|x l IH]; intros Hnd; [constructor|].
  apply NoDup_cons in Hnd as [Hx Hl]. cbn [map]. apply NoDup_cons. split; [|exact (IH Hl)].
  intros Hin. apply Hx. apply list_elem_of_In in Hin. apply in_map_iff in Hin as (y & E & Hy).
  apply Hinj in E. subst y. apply list_elem_of_In. exact Hy.
Qed.

(** No two windows are reported at the same place. *)
Lemma window_places_nodup tree :
  NoDup (map fst tree) -> NoDup (map window_place (windows tree)).
Proof.
  induction tree as [|[f content] tree IH]; intros Hnd; [constructor|].
  cbn [map fst] in Hnd. apply NoDup_cons in Hnd as [Hf Hnd].
  cbn [windows flat_map]. rewrite map_app. apply NoDup_app. split; [|split].
  - unfold file_windows. cbn [fst snd]. rewrite map_map. unfold window_place. cbn [fst snd].
    apply NoDup_map_inj; [|apply NoDup_seq].
    intros i j H. injection H as H. lia.
  - intros p Hp1 Hp2. apply list_elem_of_In in Hp1, Hp2.
    apply in_map_iff in Hp1 as (w1 & <- & Hw1). apply in_map_iff in Hp2 as (w2 & E & Hw2).
    apply in_windows_file in Hw2.
    unfold file_windows in Hw1. apply in_map_iff in Hw1 as (i & <- & _).
    unfold window_place in E. cbn [fst snd] in E. injection E as E _.
    apply Hf. apply list_elem_of_In. rewrite <- E. exact Hw2.
  - apply IH. exact Hnd.
Qed.

Lemma reported_at_unique p q s :
  reported_at p s = true -> reported_at q s = true -> p = q.
Proof.
  destruct p as [f i], q as [g j]. unfold reported_at, anchored_at. cbn [fst snd].
  destruct (file s); [|discriminate]. destruct (line s); [|discriminate].
  intros H1 H2. apply andb_prop in H1 as [H1 H1']. apply andb_prop in H2 as [H2 H2'].
  apply String.eqb_eq in H1, H2. apply Nat.eqb_eq in H1', H2'. congruence.
Qed.



End DuplicateCode.



(** On that tree the scanner emits one suggestion in all. *)
Example duplicate_block_one_suggestion :
  RefactorAnalyzer.checkForDuplicateCode Examples.tree_with_duplicate [] =
  [ {| RefactorAnalyzer.type := RefactorAnalyzer.refactor;
       RefactorAnalyzer.file := Some "src/invoice.ts";
       RefactorAnalyzer.line := Some 4;
       RefactorAnalyzer.message := "Duplicate code block found (also in src/cart.ts:2)";
       RefactorAnalyzer.severity := RefactorAnalyzer.medium;
       RefactorAnalyzer.suggestion :=
         "Extract this code into a reusable function or component." |} ].
Proof. vm_compute. reflexivity. Qed.

(** In general: a block longer than 50 characters that occurs at the places
    [p1 :: later] gets, among the suggestions reported at these places, one
    suggestion for each occurrence after the first, each naming the first. *)
Section LaterOccurrences.
Import RefactorAnalyzer.

Lemma map_injective_on {A B} (g : A -> B) (l : list A) :
  NoDup (map g l) -> forall w v, In w l -> In v l -> g w = g v -> w = v.
Proof.
  induction l as [|x l IH]; intros Hnd w v Hw Hv E; [destruct Hw|].
  cbn [map] in Hnd. apply NoDup_cons in Hnd as [Hx Hl].
  destruct Hw as [<-|Hw], Hv as [<-|Hv].
  - reflexivity.
  - exfalso. apply Hx. rewrite E. apply list_elem_of_In, in_map. exact Hv.
  - exfalso. apply Hx. rewrite <- E. apply list_elem_of_In, in_map. exact Hw.
  - exact (IH Hl w v Hw Hv E).
Qed.

Lemma reported_among_at ps s :
  reported_among ps s = true <-> exists p, In p ps /\ reported_at p s = true.
Proof. unfold reported_among. apply existsb_exists. Qed.

Lemma duplicate_reported_at p first :
  reported_at p (duplicate_suggestion (fst p) (snd p) first) = true.
Proof.
  unfold reported_at, anchored_at. cbn [file line duplicate_suggestion].
  rewrite String.eqb_refl, Nat.eqb_refl. reflexivity.
Qed.

Lemma scan_after_first K p1 P R : forall cb out,
  50 < String.length K ->
  cb !! K = Some p1 ->
  (forall w, In w R -> window_block w <> K -> ~ In (window_place w) P) ->
  (forall w, In w R -> window_block w = K -> In (window_place w) P) ->
  exists cb' new,
    fold_left dup_window R (cb, out) = (cb', out ++ new) /\
    List.filter (reported_among P) new =
    map (fun p => duplicate_suggestion (fst p) (snd p) p1)
        (map window_place (List.filter (fun w => String.eqb (window_block w) K) R)).
Proof.
  induction R as [|w R IH]; intros cb out Hlen Hk Hother Hsame.
  - exists cb, []. rewrite app_nil_r. split; reflexivity.
  - cbn [fold_left]. rewrite dup_window_spec.
    assert (forall cb1 out1 n1 kept,
              cb1 !! K = Some p1 ->
              out1 = out ++ n1 ->
              List.filter (reported_among P) n1 = kept ->
              exists cb' new,
                fold_left dup_window R (cb1, out1) = (cb', out ++ new) /\
                List.filter (reported_among P) new =
                kept ++ map (fun p => duplicate_suggestion (fst p) (snd p) p1)
                          (map window_place
                             (List.filter (fun w => String.eqb (window_block w) K) R)))
      as Hnext.
    { intros cb1 out1 n1 kept Hk1 -> Hn1.
      destruct (IH cb1 (out ++ n1) Hlen Hk1) as (cb' & new & E & Hf).
      - intros v Hv. apply Hother. right. exact Hv.
      - intros v Hv. apply Hsame. right. exact Hv.
      - exists cb', (n1 ++ new). rewrite E, app_assoc. split; [reflexivity|].
        rewrite List.filter_app, Hn1, Hf. reflexivity. }
    cbn [List.filter]. destruct (String.eqb_spec (window_block w) K) as [Ew|Ew].
    + (* an occurrence of the block *)
      rewrite Ew. apply Nat.ltb_lt in Hlen. rewrite Hlen, Hk.
      cbn [map].
      apply (Hnext cb _ [duplicate_suggestion (fst (window_place w)) (snd (window_place w)) p1]
               [duplicate_suggestion (fst (window_place w)) (snd (window_place w)) p1]);
        [exact Hk | reflexivity |].
      cbn [List.filter].
      assert (reported_among P
                (duplicate_suggestion (fst (window_place w)) (snd (window_place w)) p1) = true)
        as ->; [|reflexivity].
      apply reported_among_at. exists (window_place w).
      split; [apply Hsame; [left; reflexivity | exact Ew]|].
      apply duplicate_reported_at.
    + (* another block *)
      assert (forall first,
                reported_among P
                  (duplicate_suggestion (fst (window_place w)) (snd (window_place w)) first)
                = false) as Hout.
      { intros first.
        destruct (reported_among P _) eqn:Er; [|reflexivity]. exfalso.
        apply reported_among_at in Er as (p & Hp & Hr).
        apply (Hother w (or_introl eq_refl) Ew).
        assert (window_place w = p) as ->; [|exact Hp].
        exact (reported_at_unique _ _ _ (duplicate_reported_at (window_place w) first) Hr). }
      destruct (50 <? String.length (window_block w)).
      * destruct (cb !! window_block w) as [first|] eqn:El.
        -- apply (Hnext cb _ [duplicate_suggestion (fst (window_place w))
                                   (snd (window_place w)) first] []);
             [exact Hk | reflexivity |].
           cbn [List.filter]. rewrite Hout. reflexivity.
        -- apply (Hnext _ out [] []); [|rewrite app_nil_r; reflexivity | reflexivity].
           rewrite lookup_insert_ne; [exact Hk | exact Ew].
      * apply (Hnext cb out [] []); [exact Hk | rewrite app_nil_r; reflexivity | reflexivity].
Qed.

Lemma duplicate_block_later_occurrences tree K p1 later :
  NoDup (map fst tree) ->
  50 < String.length K ->
  occurrences K tree = p1 :: later ->
  List.filter (reported_among (p1 :: later)) (checkForDuplicateCode tree []) =
  map (fun p => duplicate_suggestion (fst p) (snd p) p1) later.
Proof.
  intros Hnd Hlen Hocc. unfold occurrences in Hocc.
  pose proof (window_places_nodup tree Hnd) as Hplaces.
  (* a window with another block is placed at none of the occurrences *)
  assert (forall w, In w (windows tree) -> window_block w <> K ->
                    ~ In (window_place w) (p1 :: later)) as Hother.
  { intros w Hw Hb Hin. rewrite <- Hocc in Hin.
    apply in_map_iff in Hin as (v & Ev & Hv). apply List.filter_In in Hv as [Hv Hbv].
    apply String.eqb_eq in Hbv.
    pose proof (map_injective_on window_place _ Hplaces w v Hw Hv (eq_sym Ev)) as ->.
    exact (Hb Hbv). }
  assert (forall w, In w (windows tree) -> window_block w = K ->
                    In (window_place w) (p1 :: later)) as Hsame.
  { intros w Hw Hb. rewrite <- Hocc. apply in_map. apply List.filter_In.
    split; [exact Hw | apply String.eqb_eq; exact Hb]. }
  destruct (List.filter (fun w => String.eqb (window_block w) K) (windows tree))
    as [|x occ] eqn:Ef; [discriminate Hocc|].
  cbn [map] in Hocc. injection Hocc as Hp1 Hlater.
  destruct (filter_cons_split _ _ _ _ Ef) as (A & R & Ew & HA & Hx & HR).
  apply String.eqb_eq in Hx.
  assert (Forall (fun w => window_block w <> K) A) as HA'.
  { eapply Forall_impl; [exact HA|]. intros w Hw. apply String.eqb_neq. exact Hw. }
  unfold checkForDuplicateCode. rewrite scan_as_windows, Ew, fold_left_app. cbn [fold_left].
  destruct (scan_other_blocks K A ∅ [] HA') as (cbA & nA & EA & HkA & HnA).
  rewrite EA, lookup_empty in *. cbn [app].
  rewrite dup_window_spec, Hx.
  assert ((50 <? String.length K) = true) as -> by (apply Nat.ltb_lt; exact Hlen).
  rewrite HkA, Hp1.
  destruct (scan_after_first K p1 (p1 :: later) R (<[K := p1]> cbA) nA Hlen
              (lookup_insert_eq _ _ _)) as (cb' & new & ER & Hf).
  - intros w Hw. apply Hother. rewrite Ew. apply in_or_app. right. right. exact Hw.
  - intros w Hw. apply Hsame. rewrite Ew. apply in_or_app. right. right. exact Hw.
  - rewrite ER. cbn [snd]. rewrite List.filter_app, Hf, HR, Hlater.
    rewrite (filter_none (reported_among (p1 :: later)) nA); [reflexivity|].
    eapply Forall_impl; [exact HnA|]. intros s (w & Hw & Hr).
    destruct (reported_among (p1 :: later) s) eqn:Er; [|reflexivity]. exfalso.
    apply reported_among_at in Er as (p & Hp & Hrp).
    rewrite List.Forall_forall in HA'.
    apply (Hother w); [rewrite Ew; apply in_or_app; left; exact Hw | exact (HA' w Hw) |].
    rewrite (reported_at_unique _ _ _ Hr Hrp). exact Hp.
Qed.

End LaterOccurrences.
Import Js Host.
Local Open Scope host_scope.

(** * Further properties of the scripts *)

(** ** pr-monitor.js: the test run *)

Section TestRun.
Import PRMonitor.
Variable env : Env.

(** Brings string literals appended to an unknown string to constructor
    form, so that commands can be told apart. *)
Ltac literal_heads :=
  unfold fetch_command, checkout_command in *; rewrite ?append_cons in *.

Lemma mandatory_not_lint n cmd : In cmd (mandatory_commands n) -> cmd <> "npm run lint".
Proof.
  unfold mandatory_commands. literal_heads.
  intros [<-|[<-|[<-|[<-|[<-|[]]]]]]; discriminate.
Qed.

Lemma mandatory_not_main n cmd : In cmd (mandatory_commands n) -> cmd <> "git checkout main".
Proof.
  unfold mandatory_commands. literal_heads.
  intros [<-|[<-|[<-|[<-|[<-|[]]]]]]; discriminate.
Qed.

(** Runs the script of [runTests] on every combination of answers of the
    external commands. *)
Ltac every_answer :=
  unfold runTests, try_finally, try_catch, bind, log, append_log, execSync, ret;
  cbn [ticks step];
  repeat match goal with
         | |- context [exec_error env ?t ?c] => destruct (exec_error env t c) as [?e|] eqn:?; cbn
         | |- context [checkout_target ?c] => destruct (checkout_target c); cbn
         end.

Ltac trace_added :=
  unfold new_events, set_branch, step; cbn [trace];
  rewrite <- ?app_assoc; rewrite drop_app_length; cbn [app].

Ltac pick_disjunct := repeat (first [left; reflexivity | right]).

(** What a test run returns, and what it ran: on success every command
    outside the inner [try] succeeded; on failure one of them failed, its
    message is the one error of the result, and nothing but the return to
    the baseline branch was run after it. *)
Lemma runTests_result n b w :
  exists r w',
    runTests env n b w = (Return r, w') /\
    (success r = true ->
       errors r = [] /\
       forall cmd, In cmd (mandatory_commands n) -> In (Exec cmd true) (new_events w w')) /\
    (success r = false ->
       exists cmd pre ok,
         new_events w w' = pre ++ [Exec cmd false; Exec "git checkout main" ok] /\
         In cmd (mandatory_commands n) /\
         exists e, exec_error env (length pre + ticks w) cmd = Some e /\ errors r = [e]).
Proof.
  every_answer.
  all: eexists _, _; (split; [reflexivity|]); cbn [success errors].
  all: trace_added.
  all: split; intros Hs; try discriminate Hs; clear Hs.
  all: try (split; [reflexivity|];
            intros cmd [<-|[<-|[<-|[<-|[<-|[]]]]]]; cbn [In]; pick_disjunct).
  all: first
    [ eexists _, [], _; split; [reflexivity|]
    | eexists _, [_], _; split; [reflexivity|]
    | eexists _, [_; _], _; split; [reflexivity|]
    | eexists _, [_; _; _], _; split; [reflexivity|]
    | eexists _, [_; _; _; _], _; split; [reflexivity|]
    | eexists _, [_; _; _; _; _], _; split; [reflexivity|] ].
  all: split; [cbn [In mandatory_commands]; pick_disjunct|].
  all: eexists; split; [cbn [length Nat.add]; eassumption | reflexivity].
Qed.

End TestRun.

(** ** Runs that touch the world only through calls, branch moves and the log *)

Section Frame.
Import PRMonitor.
Variable env : Env.
Variable R : World -> World -> Prop.
Hypothesis R_refl : forall w, R w w.
Hypothesis R_trans : forall w1 w2 w3, R w1 w2 -> R w2 w3 -> R w1 w3.
Hypothesis R_step : forall ev w, R w (step ev w).
Hypothesis R_branch : forall b w, R w (set_branch b w).
Hypothesis R_log : forall msg w, R w (snd (append_log msg w)).

Lemma frame_ret {A} (a : A) : preserves R (ret a).
Proof. apply preserves_ret, R_refl. Qed.

Lemma frame_bind {A B} (m : M A) (k : A -> M B) :
  preserves R m -> (forall a, preserves R (k a)) -> preserves R (bind m k).
Proof. apply preserves_bind, R_trans. Qed.

Lemma frame_try_catch {A} (body : M A) (h : string -> M A) :
  preserves R body -> (forall e, preserves R (h e)) -> preserves R (try_catch body h).
Proof. apply preserves_try_catch, R_trans. Qed.

Lemma frame_try_finally {A} (body : M A) (fin : M unit) :
  preserves R body -> preserves R fin -> preserves R (try_finally body fin).
Proof. apply preserves_try_finally, R_trans. Qed.

Lemma frame_log msg : preserves R (append_log msg).
Proof. intros w. apply R_log. Qed.

Lemma frame_execSync cmd : preserves R (execSync env cmd).
Proof.
  intros w. unfold execSync. destruct (exec_error env (ticks w) cmd); [apply R_step|].
  cbn [snd]. destruct (checkout_target cmd); [|apply R_step].
  eapply R_trans; [apply (R_step (Exec cmd true)) | apply R_branch].
Qed.

Lemma frame_listFiles n : preserves R (octokit_pulls_listFiles env n).
Proof.
  intros w. unfold octokit_pulls_listFiles.
  destruct (pulls_listFiles env (ticks w) n); apply R_step.
Qed.

Lemma frame_pulls_list : preserves R (octokit_pulls_list env).
Proof.
  intros w. unfold octokit_pulls_list. destruct (pulls_list env (ticks w)); apply R_step.
Qed.

Lemma frame_createComment n body : preserves R (octokit_issues_createComment env n body).
Proof.
  intros w. unfold octokit_issues_createComment.
  destruct (issues_createComment_error env (ticks w) n body); apply R_step.
Qed.

Lemma frame_pulls_create t h b body : preserves R (octokit_pulls_create env t h b body).
Proof.
  intros w. unfold octokit_pulls_create.
  destruct (pulls_create env (ticks w) t h b body); apply R_step.
Qed.

Lemma frame_same {A} (m : M A) : (forall w, snd (m w) = w) -> preserves R m.
Proof. intros H w. rewrite H. apply R_refl. Qed.

Ltac framed :=
  repeat first
    [ apply frame_log
    | apply frame_execSync
    | apply frame_listFiles
    | apply frame_pulls_list
    | apply frame_createComment
    | apply frame_pulls_create
    | apply frame_ret
    | apply frame_bind; [ | intros ]
    | apply frame_try_catch; [ | intros ]
    | apply frame_try_finally ].

Lemma frame_getLastCheckedTime : preserves R (getLastCheckedTime env).
Proof.
  unfold getLastCheckedTime, log. framed.
  - apply frame_same. reflexivity.
  - destruct a; framed.
    apply frame_same. intros w. unfold fs_readFileSync_lastChecked.
    destruct (fs_read_error env (ticks w)), (lastCheckedFile w); reflexivity.
  - destruct a; framed. apply frame_same. reflexivity.
Qed.

Lemma frame_getNewPullRequests : preserves R (getNewPullRequests env).
Proof.
  unfold getNewPullRequests, log.
  apply frame_try_catch; [|intros; framed].
  apply frame_bind; [apply frame_getLastCheckedTime | intros]. framed.
Qed.

Lemma frame_analyzePRChanges n : preserves R (analyzePRChanges env n).
Proof. unfold analyzePRChanges, log. framed. Qed.

Lemma frame_runTests n b : preserves R (runTests env n b).
Proof. unfold runTests, log. framed. Qed.

Lemma frame_triggerRefactoring pr : preserves R (triggerRefactoring env pr).
Proof. unfold triggerRefactoring, log. framed. Qed.

Lemma frame_createRefactoringBranch n : preserves R (createRefactoringBranch env n).
Proof. unfold createRefactoringBranch, log. framed. Qed.

Lemma frame_report_results pr analysis testResults :
  preserves R (report_results env pr analysis testResults).
Proof.
  unfold report_results, log. destruct (success testResults).
  - apply frame_bind; [apply frame_log | intros _].
    apply frame_bind; [apply frame_createComment | intros _].
    destruct (needs_refactoring analysis); [apply frame_triggerRefactoring | apply frame_ret].
  - apply frame_bind; [apply frame_log | intros _]. apply frame_createComment.
Qed.

Lemma frame_processPullRequest pr : preserves R (processPullRequest env pr).
Proof.
  unfold processPullRequest, log_analysis, log.
  apply frame_bind; [apply frame_log | intros _].
  apply frame_bind; [apply frame_analyzePRChanges | intros analysis].
  apply frame_bind.
  { destruct analysis as [a|]; [|apply frame_ret].
    apply frame_bind; [apply frame_log | intros _].
    destruct (0 <? length (criticalFiles a)); [apply frame_log | apply frame_ret]. }
  intros _. apply frame_bind; [apply frame_runTests | intros testResults].
  apply frame_report_results.
Qed.

Lemma frame_process_all prs : preserves R (process_all env prs).
Proof.
  induction prs as [|pr prs IH]; cbn [process_all].
  - apply frame_ret.
  - apply frame_bind; [apply frame_processPullRequest | intros; exact IH].
Qed.

(** The cycle up to the write of the checkpoint. *)
Lemma frame_detect_and_process :
  preserves R
    (log "Starting PR monitor...";;
     newPRs <- getNewPullRequests env;;
     if length newPRs =? 0
     then log "No new pull requests found."
     else
       log ("Found " +:+ string_of_nat (length newPRs) +:+ " new pull request(s)");;
       process_all env newPRs).
Proof.
  unfold log.
  apply frame_bind; [apply frame_log | intros _].
  apply frame_bind; [apply frame_getNewPullRequests | intros newPRs].
  destruct (length newPRs =? 0); [apply frame_log|].
  apply frame_bind; [apply frame_log | intros _; apply frame_process_all].
Qed.

Lemma frame_applyAutomaticFixes : preserves R (RefactorAnalyzer.applyAutomaticFixes env).
Proof. unfold RefactorAnalyzer.applyAutomaticFixes, RefactorAnalyzer.log. framed. Qed.

Lemma frame_generateRefactoringPR n sugg :
  preserves R (RefactorAnalyzer.generateRefactoringPR env n sugg).
Proof.
  unfold RefactorAnalyzer.generateRefactoringPR, RefactorAnalyzer.has_changes,
    RefactorAnalyzer.log.
  destruct (length sugg =? 0); [apply frame_log|].
  apply frame_bind; [apply frame_log | intros _].
  apply frame_try_finally; [|framed].
  apply frame_try_catch; [|intros; framed].
  apply frame_bind; [apply frame_execSync | intros _].
  apply frame_bind; [apply frame_applyAutomaticFixes | intros _].
  apply frame_bind; [framed | intros changed].
  destruct changed; framed.
Qed.

End Frame.

(** ** pr-monitor.js: the checkpoint of a cycle *)

Section CycleCheckpoint.
Import PRMonitor.
Variable env : Env.

Lemma same_checkpoint_refl w : same_checkpoint w w.
Proof. reflexivity. Qed.

Lemma same_checkpoint_trans w1 w2 w3 :
  same_checkpoint w1 w2 -> same_checkpoint w2 w3 -> same_checkpoint w1 w3.
Proof. unfold same_checkpoint. congruence. Qed.

Lemma untouched_refl w : untouched w w.
Proof. split; [reflexivity | lia]. Qed.

Lemma untouched_trans w1 w2 w3 : untouched w1 w2 -> untouched w2 w3 -> untouched w1 w3.
Proof. unfold untouched, same_checkpoint. intros [] []. split; [congruence | lia]. Qed.

Lemma untouched_step ev w : untouched w (step ev w).
Proof. split; [reflexivity | cbn; lia]. Qed.

Lemma untouched_branch b w : untouched w (set_branch b w).
Proof. split; [reflexivity | cbn; lia]. Qed.

Lemma untouched_log msg w : untouched w (snd (append_log msg w)).
Proof. split; [reflexivity | cbn; lia]. Qed.

(** No step of a cycle before its last two writes the checkpoint file. *)
Lemma detect_and_process_untouched w :
  untouched w
    (snd ((log "Starting PR monitor...";;
           newPRs <- getNewPullRequests env;;
           if length newPRs =? 0
           then log "No new pull requests found."
           else
             log ("Found " +:+ string_of_nat (length newPRs) +:+ " new pull request(s)");;
             process_all env newPRs) w)).
Proof.
  apply (frame_detect_and_process env untouched untouched_refl untouched_trans
           untouched_step untouched_branch untouched_log).
Qed.

(** A cycle either completes, and then the checkpoint file holds the clock
    reading of the end of the cycle, or throws, and then the file is as it
    was before the cycle. *)
Lemma start_checkpoint_cases w :
  match start env w with
  | (Return _, w') =>
      lastCheckedFile w' = Some (Some (clock env (ticks w'))) /\ ticks w <= ticks w'
  | (Throw _, w') => lastCheckedFile w' = lastCheckedFile w
  end.
Proof.
  pose proof (detect_and_process_untouched w) as H. revert H.
  unfold start, bind, log, append_log.
  set (w0 := {| branch := branch w; ticks := ticks w; trace := trace w;
                logs := logs w ++ ["Starting PR monitor..."];
                lastCheckedFile := lastCheckedFile w |}).
  destruct (getNewPullRequests env w0) as [[newPRs|e] w1]; [|intros [H _]; exact H].
  destruct (length newPRs =? 0).
  - cbn [snd]. intros [H T].
    unfold updateLastCheckedTime, bind, date_now, fs_writeFileSync_lastChecked. cbn [ticks].
    destruct (fs_write_error env (ticks w1)); cbn.
    + exact H.
    + split; [reflexivity | exact T].
  - set (w1' := {| branch := branch w1; ticks := ticks w1; trace := trace w1;
                   logs := logs w1 ++ _; lastCheckedFile := lastCheckedFile w1 |}).
    destruct (process_all env newPRs w1') as [[u|e] w2]; cbn [snd]; intros [H T]; [|exact H].
    unfold updateLastCheckedTime, bind, date_now, fs_writeFileSync_lastChecked.
    destruct (fs_write_error env (ticks w2)); cbn.
    + exact H.
    + split; [reflexivity | exact T].
Qed.

End CycleCheckpoint.

(** ** pr-monitor.js: what the driver does for one unit *)

Section OneUnit.
Import PRMonitor.
Variable env : Env.

(** [processPullRequest] up to the report, for any property [P] that the
    commands and the file-list call have: the events added are the analysis
    and the test run, and all have [P]. *)
Lemma processPullRequest_before_report (P : Event -> Prop) pr w :
  (forall cmd ok, P (Exec cmd ok)) ->
  (forall n ok, P (PullsListFiles n ok)) ->
  let w1 := snd (log (processing_line pr) w) in
  exists analysis testResults w2 w4,
    analyzePRChanges env (number pr) w1 = (Return analysis, w2) /\
    runTests env (number pr) (head_ref pr) (snd (log_analysis analysis w2))
      = (Return testResults, w4) /\
    processPullRequest env pr w = report_results env pr analysis testResults w4 /\
    grows P w w4.
Proof.
  intros Pexec Pfiles w1.
  destruct (returns_eq _ (analyzePRChanges_returns env (number pr)) w1) as [analysis Ea].
  set (w2 := snd (analyzePRChanges env (number pr) w1)) in *.
  set (m3 := log_analysis analysis).
  assert (returns m3) as R3.
  { unfold m3, log_analysis, log. destruct analysis as [a|]; along_script.
    destruct (0 <? length (criticalFiles a)); along_script. }
  assert (preserves (grows P) m3) as G3.
  { unfold m3, log_analysis, log. destruct analysis as [a|]; along_script.
    destruct (0 <? length (criticalFiles a)); along_script. }
  destruct (returns_eq _ R3 w2) as [[] E3].
  set (w3 := snd (m3 w2)) in *.
  destruct (returns_eq _ (runTests_returns env (number pr) (head_ref pr)) w3)
    as [testResults Et].
  set (w4 := snd (runTests env (number pr) (head_ref pr) w3)) in *.
  exists analysis, testResults, w2, w4.
  split; [exact Ea|]. split; [exact Et|]. split.
  - unfold processPullRequest.
    fold (processing_line pr).
    rewrite (bind_eq (log (processing_line pr)) _ w tt w1 eq_refl).
    rewrite (bind_eq (analyzePRChanges env (number pr)) _ w1 analysis w2 Ea).
    fold m3. rewrite (bind_eq m3 _ w2 tt w3 E3).
    rewrite (bind_eq (runTests env (number pr) (head_ref pr)) _ w3 testResults w4 Et).
    reflexivity.
  - eapply grows_trans; [apply (grows_log P (processing_line pr) w)|]. fold w1.
    eapply grows_trans.
    { assert (preserves (grows P) (analyzePRChanges env (number pr))) as Ga.
      { unfold analyzePRChanges, log. along_script. apply grows_listFiles, Pfiles. }
      apply (Ga w1). }
    fold w2. eapply grows_trans; [apply (G3 w2)|]. fold w3.
    assert (preserves (grows P) (runTests env (number pr) (head_ref pr))) as Gt.
    { unfold runTests, log. along_script; apply grows_execSync, Pexec. }
    apply (Gt w3).
Qed.

Lemma filter_none_of {A} (p : A -> bool) (l : list A) :
  Forall (fun x => p x = false) l -> List.filter p l = [].
Proof.
  induction 1 as [|x l Hx _ IH]; [reflexivity|]. cbn. rewrite Hx. exact IH.
Qed.

End OneUnit.

(** X1.  Whatever the analysis, the commands of the test run and the
    remediation trigger answer, one run of [processPullRequest] calls
    [issues.createComment] exactly once, on the unit it processes.  With
    [analysis] what the analysis of the unit returned and [testResults] what
    the test run of the unit returned, started where the analysis and its
    log lines left the world, the body is the success comment for
    [analysis] when [testResults] is a success and the failure comment with
    the errors of [testResults] otherwise. *)
Theorem processPullRequest_posts_one_comment env pr w :
  let w1 := snd (PRMonitor.log (PRMonitor.processing_line pr) w) in
  exists analysis testResults w2 w4 ok,
    PRMonitor.analyzePRChanges env (number pr) w1 = (Return analysis, w2) /\
    PRMonitor.runTests env (number pr) (head_ref pr)
      (snd (PRMonitor.log_analysis analysis w2)) = (Return testResults, w4) /\
    List.filter PRMonitor.is_comment
      (PRMonitor.new_events w (snd (PRMonitor.processPullRequest env pr w))) =
    [ IssuesCreateComment (number pr)
        (if PRMonitor.success testResults
         then PRMonitor.success_body analysis
         else PRMonitor.failure_body (PRMonitor.errors testResults))
        ok ].
Proof.
  intros w1.
  destruct (processPullRequest_before_report env
              (fun ev => PRMonitor.is_comment ev = false) pr w)
    as (analysis & testResults & w2 & w4 & Ea & Et & Ep & (evs & Ht & HF) & _ & _);
    [reflexivity | reflexivity |].
  pose proof (report_results_trace env pr analysis testResults w4) as Hr. cbv zeta in Hr.
  rewrite Ep.
  assert (forall rest w',
            trace w' = trace w4 ++ rest ->
            List.filter PRMonitor.is_comment (PRMonitor.new_events w w') =
            List.filter PRMonitor.is_comment rest) as Hnew.
  { intros rest w' Hw'. rewrite Ht, <- app_assoc in Hw'.
    rewrite (new_events_app _ _ _ Hw'), List.filter_app, (filter_none_of _ _ HF).
    reflexivity. }
  destruct (PRMonitor.success testResults) eqn:Es.
  - destruct (issues_createComment_error env (ticks w4) (number pr)
                (PRMonitor.success_body analysis)) as [e|].
    + exists analysis, testResults, w2, w4, false.
      split; [exact Ea|]. split; [exact Et|]. rewrite Es, (Hnew _ _ Hr). reflexivity.
    + destruct (PRMonitor.needs_refactoring analysis).
      * destruct Hr as (ok & Hr).
        exists analysis, testResults, w2, w4, true.
        split; [exact Ea|]. split; [exact Et|]. rewrite Es, (Hnew _ _ Hr). reflexivity.
      * exists analysis, testResults, w2, w4, true.
        split; [exact Ea|]. split; [exact Et|]. rewrite Es, (Hnew _ _ Hr). reflexivity.
  - destruct Hr as (ok & Hr).
    exists analysis, testResults, w2, w4, ok.
    split; [exact Ea|]. split; [exact Et|]. rewrite Es, (Hnew _ _ Hr). reflexivity.
Qed.

(** X2.  The outcome of a test run.  [runTests] always returns a result.  A
    successful result has no error, and the fetch, the checkout of the unit,
    the install, the build and the type check all ran and succeeded.  A
    failed result has exactly one error, the message of one of these five
    commands, which failed and after which nothing was run but the return to
    the baseline branch.  A failure of the linter alone does not fail the
    run: when none of the five can fail, the result is a success. *)
Theorem runTests_stops_at_first_failure env n b w :
  exists r w',
    PRMonitor.runTests env n b w = (Return r, w') /\
    (PRMonitor.success r = true ->
       PRMonitor.errors r = [] /\
       forall cmd, In cmd (PRMonitor.mandatory_commands n) ->
                   In (Exec cmd true) (PRMonitor.new_events w w')) /\
    (PRMonitor.success r = false ->
       exists cmd pre ok,
         PRMonitor.new_events w w' = pre ++ [Exec cmd false; Exec "git checkout main" ok] /\
         In cmd (PRMonitor.mandatory_commands n) /\
         exists e, exec_error env (length pre + ticks w) cmd = Some e /\
                   PRMonitor.errors r = [e]) /\
    ((forall t cmd, In cmd (PRMonitor.mandatory_commands n) -> exec_error env t cmd = None) ->
       PRMonitor.success r = true).
Proof.
  destruct (runTests_result env n b w) as (r & w' & E & Hok & Hko).
  exists r, w'. split; [exact E|]. split; [exact Hok|]. split; [exact Hko|].
  intros Hnone. destruct (PRMonitor.success r); [reflexivity|].
  destruct (Hko eq_refl) as (cmd & pre & ok & _ & Hin & e & He & _).
  rewrite (Hnone _ _ Hin) in He. discriminate He.
Qed.

(** A project whose linter fails and whose other commands succeed passes. *)
Example runTests_lint_failure_is_tolerated :
  let run := PRMonitor.runTests (Examples.env_failing ["npm run lint"]) 7 "feature/login"
               Examples.world0 in
  fst run = Return {| PRMonitor.success := true; PRMonitor.errors := [] |} /\
  In (Exec "npm run lint" false) (trace (snd run)).
Proof. vm_compute. split; [reflexivity | tauto]. Qed.

(** ** pr-monitor.js: the detector without a usable checkpoint *)

Lemma getLastCheckedTime_fallback env w :
  lastCheckedFile w = None \/ (exists e, fs_read_error env (ticks w) = Some e) ->
  exists w',
    PRMonitor.getLastCheckedTime env w =
      (Return (Some (clock env (ticks w) - 24 * 60 * 60 * 1000)%Z), w') /\
    ticks w' = ticks w /\ lastCheckedFile w' = lastCheckedFile w /\
    trace w' = trace w /\ branch w' = branch w.
Proof.
  intros H.
  unfold PRMonitor.getLastCheckedTime, bind, try_catch, fs_existsSync_lastChecked,
    fs_readFileSync_lastChecked, PRMonitor.log, append_log, date_now, ret.
  destruct (lastCheckedFile w) as [T|] eqn:Ef; cbn.
  - destruct H as [H|(e & He)]; [discriminate H|]. rewrite He, ?Ef. cbn.
    eexists. split; [reflexivity|]. cbn. repeat split; try exact Ef.
  - eexists. split; [reflexivity|]. repeat split; try exact Ef.
Qed.

(** X3.  Without a checkpoint file, or with one that cannot be read, the detector
    looks back 24 hours from the clock reading [now]: of the units the list
    call answers it returns, in the order of the answer, exactly those
    created after [now - 86400000] ms; the checkpoint file is left as it
    was. *)
Theorem getNewPullRequests_looks_back_one_day env w prs :
  lastCheckedFile w = None \/ (exists e, fs_read_error env (ticks w) = Some e) ->
  pulls_list env (ticks w) = Return prs ->
  let since := (clock env (ticks w) - 86400000)%Z in
  exists w',
    PRMonitor.getNewPullRequests env w =
      (Return (List.filter (fun pr => date_gt (created_at pr) (Some since)) prs), w') /\
    (forall pr t, In pr prs -> created_at pr = Some t ->
       (In pr (List.filter (fun pr => date_gt (created_at pr) (Some since)) prs)
        <-> (since < t)%Z)) /\
    lastCheckedFile w' = lastCheckedFile w.
Proof.
  intros H Hl since.
  destruct (getLastCheckedTime_fallback env w H) as (wq & Eq & Ht & Hf & _).
  unfold PRMonitor.getNewPullRequests, try_catch.
  rewrite (bind_eq (PRMonitor.getLastCheckedTime env) _ w _ wq Eq).
  unfold bind, octokit_pulls_list, ret. rewrite Ht, Hl.
  eexists. split; [reflexivity|]. split; [|exact Hf].
  intros pr t Hin Hc. rewrite List.filter_In. unfold date_gt. rewrite Hc.
  split.
  - intros [_ Hlt]. apply Z.ltb_lt in Hlt. exact Hlt.
  - intros Hlt. split; [exact Hin|]. apply Z.ltb_lt. exact Hlt.
Qed.

Lemma getNewPullRequests_looks_back_one_day_witness :
  let env := Examples.with_pulls
               (fun _ => Return [Examples.pr_new; Examples.pr_old]) Examples.env_ok in
  let w := Examples.world0 in
  let since := (clock env (ticks w) - 86400000)%Z in
  exists w',
    PRMonitor.getNewPullRequests env w =
      (Return (List.filter (fun pr => date_gt (created_at pr) (Some since))
                 [Examples.pr_new; Examples.pr_old]), w') /\
    (forall pr t, In pr [Examples.pr_new; Examples.pr_old] -> created_at pr = Some t ->
       (In pr (List.filter (fun pr => date_gt (created_at pr) (Some since))
                 [Examples.pr_new; Examples.pr_old])
        <-> (since < t)%Z)) /\
    lastCheckedFile w' = lastCheckedFile w.
Proof.
  exact (getNewPullRequests_looks_back_one_day
           (Examples.with_pulls (fun _ => Return [Examples.pr_new; Examples.pr_old])
              Examples.env_ok)
           Examples.world0 [Examples.pr_new; Examples.pr_old]
           (or_introl eq_refl) eq_refl).
Defined.

Lemma filter_invalid_date (prs : list PullRequest) :
  List.filter (fun pr => date_gt (created_at pr) None) prs = [].
Proof.
  induction prs as [|pr prs IH]; [reflexivity|].
  cbn. destruct (created_at pr); exact IH.
Qed.

(** X4.  A checkpoint file whose text is not a date hides every unit: the
    comparison with an invalid date is false, so the detector returns the
    empty list whatever the list call answers. *)
Theorem invalid_checkpoint_hides_every_unit env w :
  lastCheckedFile w = Some None ->
  fs_read_error env (ticks w) = None ->
  exists w', PRMonitor.getNewPullRequests env w = (Return [], w').
Proof.
  intros Hf Hr.
  unfold PRMonitor.getNewPullRequests, try_catch.
  rewrite (bind_eq (PRMonitor.getLastCheckedTime env) _ w None w
             (getLastCheckedTime_stored env w None Hf Hr)).
  unfold bind, octokit_pulls_list, ret, PRMonitor.log, append_log.
  destruct (pulls_list env (ticks w)) as [prs|e].
  - rewrite filter_invalid_date. eexists. reflexivity.
  - eexists. reflexivity.
Qed.

Lemma invalid_checkpoint_hides_every_unit_witness :
  exists w',
    PRMonitor.getNewPullRequests Examples.env_two_units
      (Examples.with_checkpoint None Examples.world0) = (Return [], w').
Proof.
  exact (invalid_checkpoint_hides_every_unit Examples.env_two_units
           (Examples.with_checkpoint None Examples.world0) eq_refl eq_refl).
Defined.

(** ** pr-monitor.js: when the checkpoint moves *)

(** X5.  The checkpoint is written at the very end of a cycle and nowhere else.
    A cycle that completes leaves in the checkpoint file the clock reading
    of its end; a cycle that throws, while processing a unit or while
    writing the file, leaves the file as it was, so that its units are
    found again by the next cycle. *)
Theorem cycle_moves_checkpoint_only_on_completion env w :
  let run := PRMonitor.start env w in
  (forall u, fst run = Return u ->
     lastCheckedFile (snd run) = Some (Some (clock env (ticks (snd run))))) /\
  (forall e, fst run = Throw e ->
     lastCheckedFile (snd run) = lastCheckedFile w).
Proof.
  pose proof (start_checkpoint_cases env w) as H.
  destruct (PRMonitor.start env w) as [[u|e] w']; cbn [fst snd]; split.
  - intros _ _. exact (proj1 H).
  - intros e He. discriminate He.
  - intros u Hu. discriminate Hu.
  - intros _ _. exact H.
Qed.

(** In the scenario where the comment on unit 8 cannot be posted, the cycle
    throws and the checkpoint file still does not exist. *)
Example failed_cycle_leaves_no_checkpoint :
  let run := PRMonitor.start Examples.env_comment_fails_8 Examples.world0 in
  fst run = Throw "HttpError: Resource not accessible by integration" /\
  lastCheckedFile (snd run) = None.
Proof. vm_compute. split; reflexivity. Qed.

(** X6.  The checkpoint of a completed cycle is the time of its end, not the time
    of its list call.  With a clock that does not go back and a checkpoint
    file that reads back, no later cycle returns a unit created at or before
    the end of a completed cycle: a unit opened while the cycle was
    processing, after its list call, is in no answer the detector keeps. *)
Theorem units_opened_during_a_cycle_are_skipped env w w1 :
  PRMonitor.start env w = (Return tt, w1) ->
  (forall t, fs_read_error env t = None) ->
  (forall i j, i <= j -> (clock env i <= clock env j)%Z) ->
  let finished := clock env (ticks w1) in
  lastCheckedFile w1 = Some (Some finished) /\
  forall gaps gap,
    let wk := snd (PRMonitor.log "Starting PR monitor..."
                     (PRMonitor.idle gap (PRMonitor.run_cycles env gaps w1))) in
    exists news w',
      PRMonitor.getNewPullRequests env wk = (Return news, w') /\
      forall pr t, In pr news -> created_at pr = Some t -> (finished < t)%Z.
Proof.
  intros Es Hr Hclock finished.
  pose proof (start_checkpoint_cases env w) as H. rewrite Es in H. destruct H as [Hf _].
  split; [exact Hf|].
  intros gaps gap wk.
  assert (checkpoint_from env (ticks w1) w1) as H1.
  { split; [lia|]. exists finished. split; [exact Hf | unfold finished; lia]. }
  pose proof (checkpoint_from_cycles env Hclock (ticks w1) gaps w1 H1) as [Hk (T & HT & Hle)].
  destruct (getNewPullRequests_after_checkpoint env wk T HT (Hr _)) as (news & w' & En & Hnew).
  exists news, w'. split; [exact En|].
  intros pr t Hin Ht. specialize (Hnew pr t Hin Ht). unfold finished. lia.
Qed.

Lemma units_opened_during_a_cycle_are_skipped_witness :
  let env := Examples.env_build_fails in
  let w1 := snd (PRMonitor.start env Examples.world0) in
  let finished := clock env (ticks w1) in
  lastCheckedFile w1 = Some (Some finished) /\
  forall gaps gap,
    let wk := snd (PRMonitor.log "Starting PR monitor..."
                     (PRMonitor.idle gap (PRMonitor.run_cycles env gaps w1))) in
    exists news w',
      PRMonitor.getNewPullRequests env wk = (Return news, w') /\
      forall pr t, In pr news -> created_at pr = Some t -> (finished < t)%Z.
Proof.
  refine (units_opened_during_a_cycle_are_skipped Examples.env_build_fails Examples.world0
            (snd (PRMonitor.start Examples.env_build_fails Examples.world0))
            _ (fun _ => eq_refl) _).
  - vm_compute. reflexivity.
  - intros i j Hij.
    cbn [clock Examples.env_build_fails Examples.with_exec_failing Examples.env_two_units
         Examples.with_pulls Examples.env_ok]. lia.
Defined.

(** ** pr-monitor.js: a cycle with nothing to do *)

Lemma getNewPullRequests_one_call env w :
  exists news w' ok,
    PRMonitor.getNewPullRequests env w = (Return news, w') /\
    trace w' = trace w ++ [PullsList ok] /\
    branch w' = branch w /\
    exists ls, logs w' = logs w ++ ls.
Proof.
  destruct (getLastCheckedTime_quiet env w) as (T & wq & Eq & Ht & Hf & (ls & Hlog)).
  assert (trace wq = trace w /\ branch wq = branch w) as [Htr Hbr].
  { pose proof (frame_getLastCheckedTime env
                  (fun a b => trace b = trace a /\ branch b = branch a)) as F.
    specialize (F (fun _ => conj eq_refl eq_refl)).
    assert (forall w1 w2 w3 : World,
              trace w2 = trace w1 /\ branch w2 = branch w1 ->
              trace w3 = trace w2 /\ branch w3 = branch w2 ->
              trace w3 = trace w1 /\ branch w3 = branch w1) as Tr
      by (intros ? ? ? [] []; split; congruence).
    specialize (F Tr (fun _ _ => conj eq_refl eq_refl) w). rewrite Eq in F. exact F. }
  unfold PRMonitor.getNewPullRequests, try_catch.
  rewrite (bind_eq (PRMonitor.getLastCheckedTime env) _ w T wq Eq).
  unfold bind, octokit_pulls_list, ret, PRMonitor.log, append_log.
  destruct (pulls_list env (ticks wq)) as [prs|e]; cbn [step trace branch logs].
  - eexists _, _, true. split; [reflexivity|]. cbn [trace branch logs step].
    rewrite Htr, Hbr. repeat split. exists ls. exact Hlog.
  - eexists _, _, false. split; [reflexivity|]. cbn [trace branch logs step].
    rewrite Htr, Hbr. repeat split. exists (ls ++ ["Error fetching pull requests: " +:+ e]).
    rewrite Hlog, app_assoc. reflexivity.
Qed.

(** X7.  When the detector returns no unit, because nothing is new or because
    the list call failed, the list call is the only external call of the
    cycle: no command is run, no comment is posted, the working tree stays
    on its branch, and the cycle says so in its log. *)
Theorem idle_cycle_makes_one_call env w wd :
  PRMonitor.getNewPullRequests env (snd (PRMonitor.log "Starting PR monitor..." w))
    = (Return [], wd) ->
  let run := PRMonitor.start env w in
  (exists ok, PRMonitor.new_events w (snd run) = [PullsList ok]) /\
  In "No new pull requests found." (PRMonitor.new_logs w (snd run)) /\
  branch (snd run) = branch w.
Proof.
  intros Ed run.
  destruct (getNewPullRequests_one_call env (snd (PRMonitor.log "Starting PR monitor..." w)))
    as (news & wd' & ok & Ed' & Htr & Hbr & (ls & Hlog)).
  rewrite Ed in Ed'. injection Ed' as <- <-.
  cbn [PRMonitor.log append_log snd trace branch logs] in Htr, Hbr, Hlog.
  unfold run, PRMonitor.start.
  rewrite (bind_eq (PRMonitor.log "Starting PR monitor...") _ w tt _ eq_refl).
  rewrite (bind_eq (PRMonitor.getNewPullRequests env) _ _ [] wd Ed).
  cbn [length Nat.eqb].
  unfold bind, PRMonitor.log, append_log, PRMonitor.updateLastCheckedTime, bind, date_now,
    fs_writeFileSync_lastChecked.
  cbn [ticks].
  destruct (fs_write_error env (ticks wd)); cbn [snd].
  all: split; [exists ok; apply new_events_app; cbn [trace]; exact Htr|].
  all: split; [|cbn [branch]; exact Hbr].
  all: unfold PRMonitor.new_logs; cbn [logs]; rewrite Hlog, <- !app_assoc, drop_app_length.
  all: cbn [app]; right; apply in_or_app; right; left; reflexivity.
Qed.

Lemma idle_cycle_makes_one_call_witness :
  let run := PRMonitor.start Examples.env_ok Examples.world0 in
  (exists ok, PRMonitor.new_events Examples.world0 (snd run) = [PullsList ok]) /\
  In "No new pull requests found." (PRMonitor.new_logs Examples.world0 (snd run)) /\
  branch (snd run) = branch Examples.world0.
Proof.
  exact (idle_cycle_makes_one_call Examples.env_ok Examples.world0
           (snd (PRMonitor.getNewPullRequests Examples.env_ok
                   (snd (PRMonitor.log "Starting PR monitor..." Examples.world0))))
           eq_refl).
Defined.

(** ** pr-monitor.js: createRefactoringBranch *)

Lemma strip_prefix_append (p s : string) : strip_prefix p (p +:+ s) = Some s.
Proof.
  induction p as [|c p IH]; [reflexivity|].
  rewrite append_cons. cbn [strip_prefix]. rewrite Ascii.eqb_refl. exact IH.
Qed.

Lemma checkout_new_branch (name : string) :
  checkout_target ("git checkout -b " +:+ name) = Some name.
Proof. unfold checkout_target. rewrite strip_prefix_append. reflexivity. Qed.

(** X8.  [createRefactoringBranch] never throws.  When [git checkout -b] of the
    branch [refactor/pr-<n>-improvements] succeeds, it returns that name and
    the working tree is on that branch; when the command fails (the branch
    exists already, say), it returns [null], logs the error and leaves the
    working tree where it was.  In both cases that command is its only
    external call. *)
Theorem createRefactoringBranch_outcome env n w :
  let name := "refactor/pr-" +:+ string_of_nat n +:+ "-improvements" in
  let cmd := "git checkout -b " +:+ name in
  let run := PRMonitor.createRefactoringBranch env n w in
  match exec_error env (ticks w) cmd with
  | None =>
      fst run = Return (Some name) /\
      branch (snd run) = name /\
      PRMonitor.new_events w (snd run) = [Exec cmd true] /\
      PRMonitor.new_logs w (snd run) = []
  | Some e =>
      fst run = Return None /\
      branch (snd run) = branch w /\
      PRMonitor.new_events w (snd run) = [Exec cmd false] /\
      PRMonitor.new_logs w (snd run) = ["Error creating refactoring branch: " +:+ e]
  end.
Proof.
  intros name cmd run. subst run cmd.
  unfold PRMonitor.createRefactoringBranch, try_catch, bind, execSync, PRMonitor.log,
    append_log, ret.
  fold name. rewrite checkout_new_branch.
  destruct (exec_error env (ticks w) ("git checkout -b " +:+ name)) as [e|]; cbn [fst snd].
  - repeat split.
    + apply new_events_app. reflexivity.
    + apply new_logs_app. reflexivity.
  - repeat split.
    + apply new_events_app. reflexivity.
    + apply new_logs_app. cbn. rewrite app_nil_r. reflexivity.
Qed.

(** ** test-runner.js: the outcome of a run on any list of tests *)

Section AnyRun.
Import TestRunner.

(** A list of tests either has no failing critical test, or splits at the
    first one. *)
Lemma first_abort (ts : list Test) :
  forallb (fun t => negb (aborts t)) ts = true \/
  exists pre c post,
    ts = pre ++ c :: post /\
    forallb (fun t => negb (aborts t)) pre = true /\
    aborts c = true.
Proof.
  induction ts as [|t ts IH]; [left; reflexivity|].
  destruct (aborts t) eqn:Et.
  - right. exists [], t, ts. repeat split. exact Et.
  - destruct IH as [IH|(pre & c & post & -> & Hpre & Hc)].
    + left. cbn. rewrite Et. exact IH.
    + right. exists (t :: pre), c, post. repeat split; [|exact Hc].
      cbn. rewrite Et. exact Hpre.
Qed.

Lemma aborts_rejects t : aborts t = true -> rejects t = true.
Proof. unfold aborts. intros H. apply andb_prop in H as [_ H]. exact H. Qed.

End AnyRun.

Lemma run_outcome prNumber ts :
  let '(r, (report, ok)) := TestRunner.run_and_report prNumber ts in
  (TestRunner.exit_code r = 0 <-> forall t, In t ts -> TestRunner.rejects t = false) /\
  (ok = true <-> TestRunner.exit_code r = 0) /\
  (TestRunner.exit_code r = 0 \/ TestRunner.exit_code r = 1).
Proof.
  destruct (first_abort ts) as [Hall|(pre & c & post & -> & Hpre & Hc)].
  - pose proof (run_without_critical_failure prNumber ts Hall) as H.
    destruct (TestRunner.run_and_report prNumber ts) as [r [report ok]].
    destruct H as (_ & _ & Hok & Hex).
    split; [rewrite Hex; exact Hok|]. split; [symmetry; exact Hex|].
    unfold TestRunner.exit_code. destruct (_ =? 0); [left | right]; reflexivity.
  - pose proof (critical_failure_stops_run prNumber pre c post Hpre Hc) as H.
    destruct (TestRunner.run_and_report prNumber (pre ++ c :: post)) as [r [report ok]].
    destruct H as (_ & -> & Hex & _).
    split; [|split; [|right; exact Hex]].
    + rewrite Hex. split; [discriminate|].
      intros Hno. specialize (Hno c). rewrite (aborts_rejects c Hc) in Hno.
      assert (true = false) as F by (apply Hno, in_or_app; right; left; reflexivity).
      discriminate F.
    + rewrite Hex. split; discriminate.
Qed.

(** X9.  For every list of tests, the script exits with code 0 exactly when
    every test of the list resolves, and [generateReport] returns [true]
    in exactly that case: one rejected test, critical or not, fails the
    run. *)
Theorem exit_code_zero_iff_every_test_resolves prNumber ts :
  let '(r, (report, ok)) := TestRunner.run_and_report prNumber ts in
  (TestRunner.exit_code r = 0 <-> forall t, In t ts -> TestRunner.rejects t = false) /\
  (ok = true <-> TestRunner.exit_code r = 0) /\
  (TestRunner.exit_code r = 0 \/ TestRunner.exit_code r = 1).
Proof. exact (run_outcome prNumber ts). Qed.

Section Counters.
Import TestRunner.

Lemma existsb_aborts_none ts :
  forallb (fun t => negb (aborts t)) ts = true -> existsb aborts ts = false.
Proof.
  induction ts as [|t ts IH]; [reflexivity|]. cbn. intros H.
  apply andb_prop in H as [Ht Hts]. destruct (aborts t); [discriminate Ht|]. exact (IH Hts).
Qed.

Lemma existsb_aborts_some pre c post : aborts c = true -> existsb aborts (pre ++ c :: post) = true.
Proof.
  intros Hc. rewrite existsb_app. cbn. rewrite Hc. apply orb_true_r.
Qed.

Lemma failed_results ts :
  List.filter (fun t => String.eqb (status t) "failed") (map result_of ts) =
  map result_of (List.filter rejects ts).
Proof.
  induction ts as [|t ts IH]; [reflexivity|].
  cbn [map List.filter]. cbn [status result_of].
  destruct (rejects t); cbn; rewrite IH; reflexivity.
Qed.

Lemma take_app_exact {A} (l1 l2 : list A) : take (length l1) (l1 ++ l2) = l1.
Proof. induction l1 as [|x l1 IH]; [destruct l2; reflexivity|]. cbn. rewrite IH. reflexivity. Qed.

End Counters.

(** The counters of the summary, for every list of tests. *)
Lemma summary_counters prNumber ts :
  let '(r, (report, ok)) := TestRunner.run_and_report prNumber ts in
  let stopped := if existsb TestRunner.aborts ts then 1 else 0 in
  TestRunner.summary_total report = length (TestRunner.called r) /\
  TestRunner.summary_passed report + TestRunner.summary_failed report =
    TestRunner.summary_total report /\
  TestRunner.summary_skipped report = 0 /\
  TestRunner.called r =
    map TestRunner.test_name (take (TestRunner.summary_total report) ts) /\
  TestRunner.report_tests report =
    map TestRunner.result_of (take (TestRunner.summary_total report - stopped) ts) /\
  length (TestRunner.failed_tests r) + stopped = TestRunner.summary_failed report.
Proof.
  unfold TestRunner.run_and_report, TestRunner.failed_tests.
  destruct (first_abort ts) as [Hall|(pre & c & post & -> & Hpre & Hc)].
  - rewrite (run_tests_complete ts TestRunner.new_runner Hall), (existsb_aborts_none ts Hall).
    unfold TestRunner.generateReport.
    cbn [TestRunner.results TestRunner.called TestRunner.tests TestRunner.failed
         TestRunner.passed TestRunner.skipped TestRunner.new_runner
         TestRunner.report_tests TestRunner.summary_total TestRunner.summary_failed
         TestRunner.summary_passed TestRunner.summary_skipped app Nat.add].
    pose proof (passed_plus_failed ts) as Hpf.
    rewrite !Nat.add_0_r, Nat.sub_0_r, Hpf, length_map, firstn_all, failed_results, length_map.
    repeat split; lia.
  - rewrite (run_tests_aborted pre c post TestRunner.new_runner Hpre Hc),
      (existsb_aborts_some pre c post Hc).
    unfold TestRunner.generateReport.
    cbn [TestRunner.results TestRunner.called TestRunner.tests TestRunner.failed
         TestRunner.passed TestRunner.skipped TestRunner.new_runner
         TestRunner.report_tests TestRunner.summary_total TestRunner.summary_failed
         TestRunner.summary_passed TestRunner.summary_skipped app Nat.add].
    pose proof (passed_plus_failed pre) as Hpf.
    rewrite failed_results, !length_app, !length_map. cbn [length].
    replace (length (List.filter (fun t => negb (TestRunner.rejects t)) pre) +
             S (length (List.filter TestRunner.rejects pre)) + 0) with (S (length pre)) by lia.
    replace (S (length pre) - 1) with (length pre) by lia.
    rewrite take_app_exact.
    replace (pre ++ c :: post) with ((pre ++ [c]) ++ post) by (rewrite <- app_assoc; reflexivity).
    replace (S (length pre)) with (length (pre ++ [c])) by (rewrite length_app; cbn; lia).
    rewrite take_app_exact, map_app. cbn [map].
    repeat split; rewrite ?length_app; cbn [length]; lia.
Qed.

(** X10.  For every list of tests, the summary of the report counts every test
    that was called: the total is the number of calls, each call is counted
    as passed or as failed, none as skipped, and the calls are the tests of
    the list in order, up to the first failing critical test: when no
    critical test fails the total is the length of the list, and when the
    first failing critical test comes after the tests [pre] the total is
    one more than the length of [pre].  The recorded results, and the
    failed tests the report lists, are one fewer than the summary counts
    when a critical test failed, and as many otherwise. *)
Theorem summary_counts_every_called_test prNumber ts :
  let '(r, (report, ok)) := TestRunner.run_and_report prNumber ts in
  let stopped := if existsb TestRunner.aborts ts then 1 else 0 in
  TestRunner.summary_total report = length (TestRunner.called r) /\
  TestRunner.summary_passed report + TestRunner.summary_failed report =
    TestRunner.summary_total report /\
  TestRunner.summary_skipped report = 0 /\
  TestRunner.called r =
    map TestRunner.test_name (take (TestRunner.summary_total report) ts) /\
  TestRunner.report_tests report =
    map TestRunner.result_of (take (TestRunner.summary_total report - stopped) ts) /\
  length (TestRunner.failed_tests r) + stopped = TestRunner.summary_failed report /\
  (forallb (fun t => negb (TestRunner.aborts t)) ts = true ->
   TestRunner.summary_total report = length ts) /\
  (forall pre c post,
     ts = pre ++ c :: post ->
     forallb (fun t => negb (TestRunner.aborts t)) pre = true ->
     TestRunner.aborts c = true ->
     TestRunner.summary_total report = S (length pre) /\
     TestRunner.called r = map TestRunner.test_name pre ++ [TestRunner.test_name c]).
Proof.
  assert (forallb (fun t => negb (TestRunner.aborts t)) ts = true ->
          TestRunner.summary_total (fst (snd (TestRunner.run_and_report prNumber ts))) =
          length ts) as Hall.
  { intros Hall.
    pose proof (run_without_critical_failure prNumber ts Hall) as H.
    pose proof (summary_counters prNumber ts) as Hc.
    destruct (TestRunner.run_and_report prNumber ts) as [r [report ok]].
    destruct H as (H & _). destruct Hc as (Hc & _). cbn [fst snd].
    rewrite Hc, H, length_map. reflexivity. }
  assert (forall pre c post,
            ts = pre ++ c :: post ->
            forallb (fun t => negb (TestRunner.aborts t)) pre = true ->
            TestRunner.aborts c = true ->
            TestRunner.summary_total (fst (snd (TestRunner.run_and_report prNumber ts))) =
              S (length pre) /\
            TestRunner.called (fst (TestRunner.run_and_report prNumber ts)) =
              map TestRunner.test_name pre ++ [TestRunner.test_name c]) as Hstop.
  { intros pre c post -> Hpre Hc.
    pose proof (critical_failure_stops_run prNumber pre c post Hpre Hc) as H.
    destruct (TestRunner.run_and_report prNumber (pre ++ c :: post)) as [r [report ok]].
    cbn [fst snd]. split; [apply H | apply H]. }
  pose proof (summary_counters prNumber ts) as H.
  destruct (TestRunner.run_and_report prNumber ts) as [r [report ok]].
  cbn [fst snd] in Hall, Hstop.
  destruct H as (H1 & H2 & H3 & H4 & H5 & H6).
  repeat (split; [assumption|]). exact Hstop.
Qed.

(** ** Strings: suffixes, prefixes and the pieces of a split *)

Lemma prefix_append (p s : string) : String.prefix p (p +:+ s) = true.
Proof.
  induction p as [|c p IH]; [destruct s; reflexivity|].
  rewrite append_cons. cbn. rewrite IH.
  destruct (ascii_dec c c); [reflexivity | congruence].
Qed.


Lemma endsWith_refl (s : string) : endsWith s s = true.
Proof. destruct s; cbn [endsWith]; rewrite String.eqb_refl; reflexivity. Qed.

Lemma endsWith_append (suffix a s : string) :
  endsWith suffix s = true -> endsWith suffix (a +:+ s) = true.
Proof.
  intros H. induction a as [|c a IH]; [exact H|].
  rewrite append_cons. cbn [endsWith]. rewrite IH. apply orb_true_r.
Qed.

Lemma endsWith_suffix (suffix a : string) : endsWith suffix (a +:+ suffix) = true.
Proof. apply endsWith_append, endsWith_refl. Qed.

(** A tail of [s] that is [suffix] splits [s]. *)
Lemma endsWith_split (suffix s : string) :
  endsWith suffix s = true -> exists a, s = a +:+ suffix.
Proof.
  induction s as [|c s IH]; cbn [endsWith].
  - rewrite orb_false_r. intros H. apply String.eqb_eq in H. subst suffix.
    exists EmptyString. reflexivity.
  - intros H. apply orb_prop in H as [H|H].
    + apply String.eqb_eq in H. subst suffix. exists EmptyString. reflexivity.
    + destruct (IH H) as [a ->]. exists (String c a). rewrite append_cons. reflexivity.
Qed.

Lemma length_split_on (sep : ascii) (s : string) :
  length (split_on sep s) = S (count_char sep s).
Proof.
  induction s as [|c s IH]; [reflexivity|].
  cbn [split_on count_char]. rewrite (Ascii.eqb_sym sep c).
  destruct (Ascii.eqb c sep).
  - cbn [length]. rewrite IH. reflexivity.
  - destruct (split_on sep s) as [|l ls]; [discriminate IH|]. cbn [length] in *. lia.
Qed.

Lemma split_lines_on (s : string) : split_lines s = split_on (ascii_of_nat 10) s.
Proof.
  induction s as [|c s IH]; [reflexivity|].
  cbn [split_lines split_on]. rewrite IH. reflexivity.
Qed.

(** The number of lines of a text is the number of its line feeds plus
    one: a last line feed opens one more, empty, line. *)
Lemma length_split_lines (s : string) :
  length (split_lines s) = S (count_char (ascii_of_nat 10) s).
Proof. rewrite split_lines_on. apply length_split_on. Qed.

Lemma includes_here (sub s : string) : includes sub (sub +:+ s) = true.
Proof.
  destruct sub as [|c sub].
  - destruct s; reflexivity.
  - rewrite append_cons. cbn [includes]. rewrite <- append_cons, prefix_append. reflexivity.
Qed.

Lemma includes_append (sub a s : string) :
  includes sub s = true -> includes sub (a +:+ s) = true.
Proof.
  intros H. induction a as [|c a IH]; [exact H|].
  rewrite append_cons. cbn [includes]. rewrite IH. apply orb_true_r.
Qed.

(** ** refactor-analyzer.js: the source files (getSourceFiles) *)

Section SourceFiles.
Import RefactorAnalyzer.







End SourceFiles.


(** ** refactor-analyzer.js: the checks that add at most two suggestions a file *)

Section PerFileChecks.
Import RefactorAnalyzer.

(** A loop whose body appends to the suggestions what it finds in one file
    appends, file after file, what it finds in each. *)
Lemma fold_left_appends {X} (body : list Suggestion -> X -> list Suggestion)
    (found : X -> list Suggestion) :
  (forall sugg x, body sugg x = sugg ++ found x) ->
  forall xs sugg, fold_left body xs sugg = sugg ++ flat_map found xs.
Proof.
  intros Hbody. induction xs as [|x xs IH]; intros sugg; cbn [fold_left flat_map].
  - rewrite app_nil_r. reflexivity.
  - rewrite IH, Hbody, app_assoc. reflexivity.
Qed.

Lemma complex_file_appends sugg fc : complex_file sugg fc = sugg ++ complex_file [] fc.
Proof.
  destruct fc as [f content]. unfold complex_file.
  destruct (8 <? count_hooks content), (300 <? length (split_lines content));
    cbn [app]; rewrite <- ?app_assoc, ?app_nil_r; reflexivity.
Qed.

Lemma types_file_appends sugg fc : types_file sugg fc = sugg ++ types_file [] fc.
Proof.
  destruct fc as [f content]. unfold types_file.
  destruct (0 <? count_any content), (has_bare_param content);
    cbn [app]; rewrite <- ?app_assoc, ?app_nil_r; reflexivity.
Qed.

Lemma unused_file_appends sugg fr : unused_file sugg fr = sugg ++ unused_file [] fr.
Proof.
  unfold unused_file.
  destruct (0 <? length (List.filter is_unused_import (messages fr)));
    cbn [app]; rewrite ?app_nil_r; reflexivity.
Qed.

Lemma in_complex_file f content s :
  In s (complex_file [] (f, content)) <->
  (8 < count_hooks content /\ s = hooks_suggestion f (count_hooks content)) \/
  (300 <= count_char (ascii_of_nat 10) content /\
   s = long_component_suggestion f (S (count_char (ascii_of_nat 10) content))).
Proof.
  unfold complex_file. rewrite length_split_lines.
  destruct (Nat.ltb_spec 8 (count_hooks content)) as [Hh|Hh];
    destruct (Nat.ltb_spec 300 (S (count_char (ascii_of_nat 10) content))) as [Hl|Hl];
    cbn [app In]; split.
  - intros [<-|[<-|[]]]; [left | right]; (split; [lia | reflexivity]).
  - intros [[_ ->]|[_ ->]]; auto.
  - intros [<-|[]]. left. split; [lia | reflexivity].
  - intros [[_ ->]|[Hc _]]; [auto | lia].
  - intros [<-|[]]. right. split; [lia | reflexivity].
  - intros [[Hc _]|[_ ->]]; [lia | auto].
  - intros [].
  - intros [[Hc _]|[Hc _]]; lia.
Qed.

Lemma in_types_file f content s :
  In s (types_file [] (f, content)) <->
  (0 < count_any content /\ s = any_suggestion f (count_any content)) \/
  (has_bare_param content = true /\ s = untyped_suggestion f).
Proof.
  unfold types_file.
  destruct (Nat.ltb_spec 0 (count_any content)) as [Hh|Hh];
    destruct (has_bare_param content) eqn:Hb;
    cbn [app In]; split.
  - intros [<-|[<-|[]]]; [left | right]; (split; [assumption || reflexivity | reflexivity]).
  - intros [[_ ->]|[_ ->]]; auto.
  - intros [<-|[]]. left. split; [assumption | reflexivity].
  - intros [[_ ->]|[Hc _]]; [auto | discriminate Hc].
  - intros [<-|[]]. right. split; reflexivity.
  - intros [[Hc _]|[_ ->]]; [lia | auto].
  - intros [].
  - intros [[Hc _]|[Hc _]]; [lia | discriminate Hc].
Qed.

End PerFileChecks.

(** X12.  [checkForComplexComponents] keeps the suggestions it is given and adds,
    after them, exactly these: for every source file whose path contains
    [/components/] and ends in [.tsx], one of medium severity when the
    content has more than 8 matches of [use[A-Z]\w*], and one of high
    severity when it has 300 line feeds or more, that is, more than 300
    lines, a last empty line counted.  No other file is reported. *)
Theorem checkForComplexComponents_reports tree sugg :
  exists added,
    RefactorAnalyzer.checkForComplexComponents tree sugg = sugg ++ added /\
    forall s,
      In s added <->
      exists f content,
        In (f, content) tree /\
        RefactorAnalyzer.is_component_file f = true /\
        ((8 < RefactorAnalyzer.count_hooks content /\
          s = RefactorAnalyzer.hooks_suggestion f (RefactorAnalyzer.count_hooks content)) \/
         (300 <= count_char (ascii_of_nat 10) content /\
          s = RefactorAnalyzer.long_component_suggestion f
                (S (count_char (ascii_of_nat 10) content)))).
Proof.
  unfold RefactorAnalyzer.checkForComplexComponents.
  rewrite (fold_left_appends _ _ complex_file_appends).
  eexists. split; [reflexivity|].
  intros s. rewrite in_flat_map. split.
  - intros ([f content] & Hin & Hs). apply List.filter_In in Hin as [Hin Hc].
    exists f, content. split; [exact Hin|]. split; [exact Hc|].
    apply in_complex_file. exact Hs.
  - intros (f & content & Hin & Hc & Hs). exists (f, content). split.
    + apply List.filter_In. split; [exact Hin | exact Hc].
    + apply in_complex_file. exact Hs.
Qed.

(** X13.  [checkForMissingTypes] keeps the suggestions it is given and adds,
    after them, exactly these: for every source file whose path ends in
    [.ts] or [.tsx], one that counts the matches of [:\s*any\b] when there
    is one, and one when the content has a match of [\(\s*\w+\s*\)].  A
    [.js] or [.jsx] file is never reported. *)
Theorem checkForMissingTypes_reports tree sugg :
  exists added,
    RefactorAnalyzer.checkForMissingTypes tree sugg = sugg ++ added /\
    forall s,
      In s added <->
      exists f content,
        In (f, content) tree /\
        RefactorAnalyzer.is_ts_file f = true /\
        ((0 < RefactorAnalyzer.count_any content /\
          s = RefactorAnalyzer.any_suggestion f (RefactorAnalyzer.count_any content)) \/
         (RefactorAnalyzer.has_bare_param content = true /\
          s = RefactorAnalyzer.untyped_suggestion f)).
Proof.
  unfold RefactorAnalyzer.checkForMissingTypes.
  rewrite (fold_left_appends _ _ types_file_appends).
  eexists. split; [reflexivity|].
  intros s. rewrite in_flat_map. split.
  - intros ([f content] & Hin & Hs). apply List.filter_In in Hin as [Hin Hc].
    exists f, content. split; [exact Hin|]. split; [exact Hc|].
    apply in_types_file. exact Hs.
  - intros (f & content & Hin & Hc & Hs). exists (f, content). split.
    + apply List.filter_In. split; [exact Hin | exact Hc].
    + apply in_types_file. exact Hs.
Qed.

Section BareParameter.
Import RefactorAnalyzer.

Lemma word_not_space c : is_word c = true -> is_space c = false.
Proof.
  destruct c as [[] [] [] [] [] [] [] []]; cbv; intros H; first [reflexivity | discriminate H].
Qed.

Lemma trimStart_word name rest :
  name <> EmptyString -> skip_word name = EmptyString ->
  trimStart (name +:+ rest) = name +:+ rest.
Proof.
  destruct name as [|c name]; [congruence|]. intros _ Hw.
  rewrite append_cons. cbn [trimStart]. cbn [skip_word] in Hw.
  destruct (is_word c) eqn:Ec; [|discriminate Hw].
  rewrite (word_not_space c Ec). reflexivity.
Qed.

Lemma skip_word_closing name rest :
  skip_word name = EmptyString -> skip_word (name +:+ ")" +:+ rest) = ")" +:+ rest.
Proof.
  induction name as [|c name IH]; [reflexivity|].
  cbn [skip_word]. rewrite append_cons. cbn [skip_word].
  destruct (is_word c); [exact IH | discriminate].
Qed.

Lemma bare_param_here name post :
  name <> EmptyString -> skip_word name = EmptyString ->
  bare_param_head ("(" +:+ name +:+ ")" +:+ post) = true.
Proof.
  intros Hne Hw. rewrite append_cons. cbn [bare_param_head].
  change (EmptyString +:+ name +:+ ")" +:+ post) with (name +:+ ")" +:+ post).
  rewrite (trimStart_word name _ Hne Hw), (skip_word_closing name post Hw).
  rewrite (append_cons ")" EmptyString post). cbn [trimStart].
  change (is_space ")") with false. cbv iota.
  apply andb_true_intro. split.
  - rewrite length_append. cbn [String.length].
    destruct name as [|c name]; [congruence|]. cbn [String.length].
    apply Nat.ltb_lt. lia.
  - rewrite <- (append_cons ")" EmptyString post). apply prefix_append.
Qed.

Lemma has_bare_param_append a s :
  has_bare_param s = true -> has_bare_param (a +:+ s) = true.
Proof.
  intros H. induction a as [|c a IH]; [exact H|].
  rewrite append_cons. cbn [has_bare_param]. rewrite IH. apply orb_true_r.
Qed.

Lemma has_bare_param_identifier pre name post :
  name <> EmptyString -> skip_word name = EmptyString ->
  has_bare_param (pre +:+ "(" +:+ name +:+ ")" +:+ post) = true.
Proof.
  intros Hne Hw. apply has_bare_param_append.
  pose proof (bare_param_here name post Hne Hw) as H.
  rewrite append_cons in *. cbn [has_bare_param]. rewrite H. reflexivity.
Qed.

End BareParameter.



(** X14.  A call with one identifier as its argument, as in [load(id)], matches
    the pattern of an untyped parameter: a [.ts] or [.tsx] file that holds
    an identifier (word characters only) between parentheses is reported
    for parameters without types. *)
Theorem identifier_in_parentheses_is_reported tree sugg f pre name post :
  In (f, pre +:+ "(" +:+ name +:+ ")" +:+ post) tree ->
  RefactorAnalyzer.is_ts_file f = true ->
  name <> EmptyString ->
  skip_word name = EmptyString ->
  In (RefactorAnalyzer.untyped_suggestion f) (RefactorAnalyzer.checkForMissingTypes tree sugg).
Proof.
  intros Hin Hts Hne Hw. unfold RefactorAnalyzer.checkForMissingTypes.
  rewrite (fold_left_appends _ _ types_file_appends).
  apply in_or_app. right. apply in_flat_map.
  exists (f, pre +:+ "(" +:+ name +:+ ")" +:+ post). split.
  - apply List.filter_In. split; [exact Hin | exact Hts].
  - apply in_types_file. right. split; [|reflexivity].
    apply has_bare_param_identifier; assumption.
Qed.

Lemma identifier_in_parentheses_is_reported_witness :
  In (RefactorAnalyzer.untyped_suggestion "src/api.ts")
     (RefactorAnalyzer.checkForMissingTypes
        [("src/api.ts", "const user = " +:+ "(" +:+ "load" +:+ ")" +:+ ";")] []).
Proof.
  apply (identifier_in_parentheses_is_reported
           [("src/api.ts", "const user = " +:+ "(" +:+ "load" +:+ ")" +:+ ";")] []
           "src/api.ts" "const user = " "load" ";").
  - left. reflexivity.
  - reflexivity.
  - discriminate.
  - reflexivity.
Defined.

(** The recognisers on small texts: matches of [use[A-Z]\w*] do not
    overlap and need no word boundary before them; [:\s*any\b] needs one
    after it; [\(\s*\w+\s*\)] takes one identifier between parentheses. *)
Example count_hooks_samples :
  RefactorAnalyzer.count_hooks "const [a, b] = useState(0); useEffect(() => {}, []);" = 2 /\
  RefactorAnalyzer.count_hooks "reuseCache(); useAuseB(); use_me(); user" = 2.
Proof. vm_compute. split; reflexivity. Qed.

Example count_any_samples :
  RefactorAnalyzer.count_any "function f(a: any, b:any[], c :  any) {}" = 3 /\
  RefactorAnalyzer.count_any "const company: anything = many" = 0.
Proof. vm_compute. split; reflexivity. Qed.

Example has_bare_param_samples :
  RefactorAnalyzer.has_bare_param "items.map(item => item.id)" = false /\
  RefactorAnalyzer.has_bare_param "return load( id );" = true /\
  RefactorAnalyzer.has_bare_param "function f(a: string, b) {}" = false /\
  RefactorAnalyzer.has_bare_param "call()" = false.
Proof. vm_compute. repeat split. Qed.

(** ** refactor-analyzer.js: checkForConsistencyIssues *)

Section Consistency.
Import RefactorAnalyzer.

Lemma consistency_quotes tree : forall patterns,
  quotes_single (fold_left consistency_file tree patterns) =
    quotes_single patterns + single_quotes tree /\
  quotes_double (fold_left consistency_file tree patterns) =
    quotes_double patterns + double_quotes tree.
Proof.
  unfold single_quotes, double_quotes.
  induction tree as [|fc tree IH]; intros patterns; cbn [fold_left map].
  - cbn. split; lia.
  - destruct (IH (consistency_file patterns fc)) as [-> ->].
    unfold consistency_file. cbn [quotes_single quotes_double].
    change (list_sum (?x :: ?l)) with (x + list_sum l). split; lia.
Qed.

End Consistency.

(** X15.  [checkForConsistencyIssues] adds at most one suggestion, and only the
    quotes decide: with at least one single and one double quote somewhere
    in the source files, be it in different files, it adds the suggestion
    to use the quotes that are more frequent, the double ones on a tie;
    otherwise it adds nothing.  The counts of semicolons and of indentation
    have no effect.  The suggestion has no file and no line. *)
Theorem checkForConsistencyIssues_reports tree sugg :
  let single := RefactorAnalyzer.single_quotes tree in
  let double := RefactorAnalyzer.double_quotes tree in
  RefactorAnalyzer.checkForConsistencyIssues tree sugg =
    (if (0 <? single) && (0 <? double)
     then sugg ++ [RefactorAnalyzer.quotes_suggestion
                     (if double <? single then "single" else "double")]
     else sugg) /\
  (forall dominant,
     RefactorAnalyzer.file (RefactorAnalyzer.quotes_suggestion dominant) = None /\
     RefactorAnalyzer.line (RefactorAnalyzer.quotes_suggestion dominant) = None /\
     RefactorAnalyzer.severity (RefactorAnalyzer.quotes_suggestion dominant) =
       RefactorAnalyzer.low).
Proof.
  intros single double. split; [|intros; repeat split].
  unfold RefactorAnalyzer.checkForConsistencyIssues.
  destruct (consistency_quotes tree RefactorAnalyzer.no_patterns) as [-> ->].
  reflexivity.
Qed.

(** Two files, one with single quotes only and one with a double-quoted
    string: the suggestion is added; without the second file it is not. *)
Example mixed_quotes_across_files :
  RefactorAnalyzer.checkForConsistencyIssues
    [ ("src/a.ts", "const a = 'x'; const b = 'y';");
      ("src/b.ts", "const c = " +:+ dq +:+ "z" +:+ dq +:+ ";") ] []
  = [RefactorAnalyzer.quotes_suggestion "single"] /\
  RefactorAnalyzer.checkForConsistencyIssues
    [ ("src/a.ts", "const a = 'x'; const b = 'y';") ] [] = [].
Proof. vm_compute. split; reflexivity. Qed.

(** ** refactor-analyzer.js: every suggestion is listed in the description *)

Section Listed.
Import RefactorAnalyzer.

Lemma includes_concat piece : forall pieces,
  In piece pieces -> includes piece (String.concat EmptyString pieces) = true.
Proof.
  induction pieces as [|p pieces IH]; intros Hin; [destruct Hin|].
  change (p :: pieces) with ([p] ++ pieces). rewrite concat_empty_app.
  cbn [String.concat]. destruct Hin as [<-|Hin].
  - apply includes_here.
  - apply includes_append. exact (IH Hin).
Qed.

Lemma item_in_section sev l s :
  In s l -> In (item_line s) (section_pieces sev l).
Proof.
  intros Hin. unfold section_pieces. destruct l as [|x l]; [destruct Hin|].
  cbn [length Nat.ltb Nat.leb]. right. apply in_or_app. left. apply in_map. exact Hin.
Qed.

Lemma item_in_description prNumber sugg s :
  In s sugg -> In (item_line s) (description_pieces prNumber sugg).
Proof.
  intros Hin. unfold description_pieces.
  assert (In s (List.filter (fun x => severity_eqb (severity x) (severity s)) sugg)) as Hf.
  { apply List.filter_In. split; [exact Hin | apply severity_eqb_eq; reflexivity]. }
  apply in_or_app. right.
  destruct (severity s) eqn:Es.
  - do 2 (apply in_or_app; right). apply in_or_app. left. apply item_in_section. exact Hf.
  - apply in_or_app. right. apply in_or_app. left. apply item_in_section. exact Hf.
  - apply in_or_app. left. apply item_in_section. exact Hf.
Qed.

End Listed.

(** X16.  Every suggestion is listed in the description of the pull request, by
    the line [- **<file>**: <message>].  A suggestion without a file, as
    the one about mixed quotes, is listed under the name [undefined]. *)
Theorem description_lists_every_suggestion prNumber sugg s :
  In s sugg ->
  let name := match RefactorAnalyzer.file s with Some f => f | None => "undefined" end in
  includes ("- **" +:+ name +:+ "**: " +:+ RefactorAnalyzer.message s +:+ nl)
           (RefactorAnalyzer.generatePRDescription prNumber sugg) = true.
Proof.
  intros Hin name. unfold RefactorAnalyzer.generatePRDescription.
  apply includes_concat. exact (item_in_description prNumber sugg s Hin).
Qed.

Lemma description_lists_every_suggestion_witness :
  includes ("- **" +:+ "undefined" +:+ "**: " +:+
            "Mixed quote styles found. Consider using single quotes consistently." +:+ nl)
           (RefactorAnalyzer.generatePRDescription 7 Examples.one_high_two_low) = true.
Proof.
  exact (description_lists_every_suggestion 7 Examples.one_high_two_low
           Examples.suggestion_low_quotes (or_intror (or_intror (or_introl eq_refl)))).
Defined.

(** ** refactor-analyzer.js: applyAutomaticFixes and generateRefactoringPR *)

Section RefactoringPR.
Import RefactorAnalyzer.
Variable env : Env.

(** One command: it fails and throws, or succeeds; one event is added, and
    only a checkout moves the branch. *)
Lemma execSync_cases cmd w :
  (exists e,
     exec_error env (ticks w) cmd = Some e /\
     execSync env cmd w = (Throw e, step (Exec cmd false) w)) \/
  (exists w',
     exec_error env (ticks w) cmd = None /\
     execSync env cmd w = (Return tt, w') /\
     trace w' = trace w ++ [Exec cmd true] /\
     ticks w' = S (ticks w) /\
     logs w' = logs w /\
     (checkout_target cmd = None -> branch w' = branch w)).
Proof.
  unfold execSync. destruct (exec_error env (ticks w) cmd) as [e|].
  - left. exists e. split; reflexivity.
  - right. eexists. split; [reflexivity|]. split; [reflexivity|].
    destruct (checkout_target cmd); cbn; repeat split. discriminate.
Qed.

Lemma applyAutomaticFixes_steps w :
  exists ok1 ok2 w',
    applyAutomaticFixes env w = (Return tt, w') /\
    trace w' = trace w ++ [Exec eslint_fix_command ok1; Exec prettier_command ok2] /\
    logs w' = logs w ++
      [ "Applying automatic fixes...";
        if ok1 then "Applied ESLint automatic fixes." else "ESLint fix failed, continuing...";
        if ok2 then "Applied Prettier formatting."
        else "Prettier formatting failed, continuing..." ] /\
    branch w' = branch w /\
    ticks w' = S (S (ticks w)).
Proof.
  unfold applyAutomaticFixes, RefactorAnalyzer.log, bind, try_catch, append_log, execSync.
  cbn [ticks step].
  change (checkout_target "npx eslint src/ --fix") with (@None string).
  change (checkout_target
            ("npx prettier --write " +:+ dq +:+ "src/**/*.{ts,tsx,js,jsx}" +:+ dq))
    with (@None string).
  fold eslint_fix_command. fold prettier_command.
  destruct (exec_error env (ticks w) eslint_fix_command) as [e1|]; cbn [ticks step fst snd];
    destruct (exec_error env (S (ticks w)) prettier_command) as [e2|]; cbn [ticks step fst snd].
  1: exists false, false. 2: exists false, true. 3: exists true, false. 4: exists true, true.
  all: eexists; split; [reflexivity|]; cbn [trace logs branch ticks step].
  all: rewrite <- ?app_assoc; repeat split.
Qed.

End RefactoringPR.

(** X17.  [applyAutomaticFixes] never throws and always runs both tools, ESLint
    then Prettier: a failure of the first is logged and does not keep the
    second from running.  Neither moves the working tree to another
    branch. *)
Theorem applyAutomaticFixes_runs_both_tools env w :
  let run := RefactorAnalyzer.applyAutomaticFixes env w in
  exists ok1 ok2,
    fst run = Return tt /\
    PRMonitor.new_events w (snd run) =
      [ Exec RefactorAnalyzer.eslint_fix_command ok1;
        Exec RefactorAnalyzer.prettier_command ok2 ] /\
    PRMonitor.new_logs w (snd run) =
      [ "Applying automatic fixes...";
        if ok1 then "Applied ESLint automatic fixes." else "ESLint fix failed, continuing...";
        if ok2 then "Applied Prettier formatting."
        else "Prettier formatting failed, continuing..." ] /\
    branch (snd run) = branch w.
Proof.
  intros run. subst run.
  destruct (applyAutomaticFixes_steps env w) as (ok1 & ok2 & w' & E & Ht & Hl & Hb & _).
  exists ok1, ok2. rewrite E. cbn [fst snd].
  split; [reflexivity|]. split; [exact (new_events_app _ _ _ Ht)|].
  split; [exact (new_logs_app _ _ _ Hl) | exact Hb].
Qed.

Section RefactoringPRCalls.
Import RefactorAnalyzer.
Variable env : Env.

Lemma bind_throw {A B} (m : M A) (k : A -> M B) w e w1 :
  m w = (Throw e, w1) -> bind m k w = (Throw e, w1).
Proof. intros H. unfold bind. rewrite H. reflexivity. Qed.

Lemma has_changes_cases w :
  exists changed w',
    has_changes env w = (Return changed, w') /\
    trace w' = trace w ++ [Exec "git diff --exit-code" (negb changed)].
Proof.
  unfold has_changes, try_catch, bind, RefactorAnalyzer.log, append_log, ret, execSync.
  change (checkout_target "git diff --exit-code") with (@None string).
  destruct (exec_error env (ticks w) "git diff --exit-code").
  - exists true. eexists. split; reflexivity.
  - exists false. eexists. split; reflexivity.
Qed.

Lemma pulls_create_cases t h b body w :
  exists r ok,
    octokit_pulls_create env t h b body w = (r, step (PullsCreate t h b body ok) w).
Proof.
  unfold octokit_pulls_create. destruct (pulls_create env (ticks w) t h b body).
  - eexists _, true. reflexivity.
  - eexists _, false. reflexivity.
Qed.

(** The guarded return to the baseline branch: one event, no throw. *)
Lemma checkout_main_guarded (h : string -> M unit) w :
  (forall e w1, exists w2, h e w1 = (Return tt, w2) /\ trace w2 = trace w1) ->
  exists ok w',
    try_catch (execSync env "git checkout main") h w = (Return tt, w') /\
    trace w' = trace w ++ [Exec "git checkout main" ok].
Proof.
  intros Hh. unfold try_catch.
  destruct (execSync_cases env "git checkout main" w)
    as [(e & _ & E)|(w1 & _ & E & T & _)]; rewrite E.
  - destruct (Hh e (step (Exec "git checkout main" false) w)) as (w2 & E2 & T2).
    exists false, w2. split; [exact E2|]. rewrite T2. reflexivity.
  - exists true, w1. split; [reflexivity | exact T].
Qed.

(** The events of the [try] block of [generateRefactoringPR]. *)
Lemma refactoring_try_block n sugg w :
  let title := refactor_title n in
  let body :=
    (execSync env (create_branch_command n);;
     applyAutomaticFixes env;;
     changed <- has_changes env;;
     if changed : bool then
       execSync env "git add .";;
       execSync env (commit_command n);;
       execSync env (push_command n);;
       html_url <- octokit_pulls_create env title (refactor_branch n) "main"
                     (generatePRDescription n sugg);;
       RefactorAnalyzer.log ("Created refactoring PR: " +:+ html_url)
     else ret tt) in
  exists ok1 ok2 calls,
    trace (snd (body w)) = trace w ++ calls /\
    let fixes := [Exec eslint_fix_command ok1; Exec prettier_command ok2] in
    (calls = [Exec (create_branch_command n) false] \/
     calls = Exec (create_branch_command n) true :: fixes ++
             [Exec "git diff --exit-code" true] \/
     calls = Exec (create_branch_command n) true :: fixes ++
             [Exec "git diff --exit-code" false; Exec "git add ." false] \/
     calls = Exec (create_branch_command n) true :: fixes ++
             [Exec "git diff --exit-code" false; Exec "git add ." true;
              Exec (commit_command n) false] \/
     calls = Exec (create_branch_command n) true :: fixes ++
             [Exec "git diff --exit-code" false; Exec "git add ." true;
              Exec (commit_command n) true; Exec (push_command n) false] \/
     exists created,
       calls = Exec (create_branch_command n) true :: fixes ++
               [Exec "git diff --exit-code" false; Exec "git add ." true;
                Exec (commit_command n) true; Exec (push_command n) true;
                PullsCreate title (refactor_branch n) "main" (generatePRDescription n sugg)
                  created]).
Proof.
  intros title body. subst body.
  destruct (execSync_cases env (create_branch_command n) w)
    as [(e & _ & E)|(w1 & _ & E & T1 & _)].
  { rewrite (bind_throw _ _ _ _ _ E). exists false, false. eexists.
    split; [reflexivity|]. left. reflexivity. }
  rewrite (bind_eq _ _ _ _ _ E).
  destruct (applyAutomaticFixes_steps env w1) as (ok1 & ok2 & w2 & E2 & T2 & _).
  rewrite (bind_eq _ _ _ _ _ E2).
  destruct (has_changes_cases w2) as (changed & w3 & E3 & T3).
  rewrite (bind_eq _ _ _ _ _ E3).
  exists ok1, ok2.
  destruct changed; cbn [negb] in T3.
  2:{ eexists. cbn [ret snd]. rewrite T3, T2, T1, <- !app_assoc. split; [reflexivity|].
      right. left. reflexivity. }
  destruct (execSync_cases env "git add ." w3) as [(e & _ & E4)|(w4 & _ & E4 & T4 & _)].
  { rewrite (bind_throw _ _ _ _ _ E4). eexists. cbn [snd step trace].
    rewrite T3, T2, T1, <- !app_assoc. split; [reflexivity|].
    right. right. left. reflexivity. }
  rewrite (bind_eq _ _ _ _ _ E4).
  destruct (execSync_cases env (commit_command n) w4) as [(e & _ & E5)|(w5 & _ & E5 & T5 & _)].
  { rewrite (bind_throw _ _ _ _ _ E5). eexists. cbn [snd step trace].
    rewrite T4, T3, T2, T1, <- !app_assoc. split; [reflexivity|].
    do 3 right. left. reflexivity. }
  rewrite (bind_eq _ _ _ _ _ E5).
  destruct (execSync_cases env (push_command n) w5) as [(e & _ & E6)|(w6 & _ & E6 & T6 & _)].
  { rewrite (bind_throw _ _ _ _ _ E6). eexists. cbn [snd step trace].
    rewrite T5, T4, T3, T2, T1, <- !app_assoc. split; [reflexivity|].
    do 4 right. left. reflexivity. }
  rewrite (bind_eq _ _ _ _ _ E6).
  destruct (pulls_create_cases title (refactor_branch n) "main" (generatePRDescription n sugg) w6)
    as (r & created & E7).
  unfold bind. rewrite E7.
  eexists. split.
  - destruct r as [url|e]; cbn [snd step trace RefactorAnalyzer.log append_log];
      rewrite T6, T5, T4, T3, T2, T1, <- !app_assoc; reflexivity.
  - do 5 right. exists created. reflexivity.
Qed.

End RefactoringPRCalls.

(** X18.  The calls of [generateRefactoringPR] on a list with a suggestion.  It
    never throws.  Its calls are one of six sequences, each followed by the
    return to the baseline branch [git checkout main]: the creation of the
    branch failed; or the branch was created, both fixing tools ran and
    [git diff --exit-code] found nothing to commit; or the staging, the
    commit or the push failed, which ended the sequence; or all succeeded
    and the pull request was requested, from the new branch to [main], with
    the generated description.  So a pull request is requested only after
    a successful push, and nothing is staged, committed or pushed when the
    fixes changed nothing. *)
Theorem generateRefactoringPR_call_sequences env n sugg w :
  sugg <> [] ->
  let run := RefactorAnalyzer.generateRefactoringPR env n sugg w in
  let branch_created := Exec (RefactorAnalyzer.create_branch_command n) true in
  exists ok1 ok2 back calls,
    fst run = Return tt /\
    PRMonitor.new_events w (snd run) = calls ++ [Exec "git checkout main" back] /\
    let fixes := [ Exec RefactorAnalyzer.eslint_fix_command ok1;
                   Exec RefactorAnalyzer.prettier_command ok2 ] in
    (calls = [Exec (RefactorAnalyzer.create_branch_command n) false] \/
     calls = branch_created :: fixes ++ [Exec "git diff --exit-code" true] \/
     calls = branch_created :: fixes ++
             [Exec "git diff --exit-code" false; Exec "git add ." false] \/
     calls = branch_created :: fixes ++
             [Exec "git diff --exit-code" false; Exec "git add ." true;
              Exec (RefactorAnalyzer.commit_command n) false] \/
     calls = branch_created :: fixes ++
             [Exec "git diff --exit-code" false; Exec "git add ." true;
              Exec (RefactorAnalyzer.commit_command n) true;
              Exec (RefactorAnalyzer.push_command n) false] \/
     exists created,
       calls = branch_created :: fixes ++
               [Exec "git diff --exit-code" false; Exec "git add ." true;
                Exec (RefactorAnalyzer.commit_command n) true;
                Exec (RefactorAnalyzer.push_command n) true;
                PullsCreate (RefactorAnalyzer.refactor_title n)
                  (RefactorAnalyzer.refactor_branch n) "main"
                  (RefactorAnalyzer.generatePRDescription n sugg) created]).
Proof.
  intros Hne run branch_created. subst run branch_created.
  assert ((length sugg =? 0) = false) as El by (destruct sugg; [congruence | reflexivity]).
  unfold RefactorAnalyzer.generateRefactoringPR. rewrite El.
  set (w0 := snd (RefactorAnalyzer.log
                    ("Generating refactoring PR with " +:+ string_of_nat (length sugg) +:+
                     " suggestions...") w)).
  rewrite (bind_eq (RefactorAnalyzer.log _) _ w tt w0 eq_refl).
  destruct (refactoring_try_block env n sugg w0) as (ok1 & ok2 & calls & Ht & Hshape).
  cbv zeta in Ht, Hshape.
  match goal with
  | |- context [try_finally (try_catch ?b ?h) ?f] =>
      set (body := b) in *; set (handler := h); set (fin := f)
  end.
  change (trace (snd (body w0)) = trace w0 ++ calls) in Ht.
  assert (forall e w1, exists w2, (fun e => RefactorAnalyzer.log ("Error returning to main: " +:+ e)) e w1
                                  = (Return tt, w2) /\ trace w2 = trace w1) as Hh
    by (intros e w1; eexists; split; reflexivity).
  assert (exists w1, try_catch body handler w0 = (Return tt, w1) /\
                     trace w1 = trace w0 ++ calls) as (w1 & E1 & T1).
  { unfold try_catch. destruct (body w0) as [[[]|e] w1]; cbn [snd] in Ht.
    - exists w1. split; [reflexivity | exact Ht].
    - eexists. split; [reflexivity|]. exact Ht. }
  destruct (checkout_main_guarded env _ w1 Hh) as (back & w2 & E2 & T2).
  exists ok1, ok2, back, calls.
  unfold try_finally. rewrite E1. unfold fin. rewrite E2. cbn [fst snd].
  split; [reflexivity|]. split; [|exact Hshape].
  apply new_events_app. rewrite T2, T1. cbn [w0 RefactorAnalyzer.log append_log snd trace].
  rewrite <- app_assoc. reflexivity.
Qed.

Lemma generateRefactoringPR_call_sequences_witness :
  let run := RefactorAnalyzer.generateRefactoringPR Examples.env_ok 7
               Examples.one_high_two_low Examples.world0 in
  let branch_created := Exec (RefactorAnalyzer.create_branch_command 7) true in
  exists ok1 ok2 back calls,
    fst run = Return tt /\
    PRMonitor.new_events Examples.world0 (snd run) =
      calls ++ [Exec "git checkout main" back] /\
    let fixes := [ Exec RefactorAnalyzer.eslint_fix_command ok1;
                   Exec RefactorAnalyzer.prettier_command ok2 ] in
    (calls = [Exec (RefactorAnalyzer.create_branch_command 7) false] \/
     calls = branch_created :: fixes ++ [Exec "git diff --exit-code" true] \/
     calls = branch_created :: fixes ++
             [Exec "git diff --exit-code" false; Exec "git add ." false] \/
     calls = branch_created :: fixes ++
             [Exec "git diff --exit-code" false; Exec "git add ." true;
              Exec (RefactorAnalyzer.commit_command 7) false] \/
     calls = branch_created :: fixes ++
             [Exec "git diff --exit-code" false; Exec "git add ." true;
              Exec (RefactorAnalyzer.commit_command 7) true;
              Exec (RefactorAnalyzer.push_command 7) false] \/
     exists created,
       calls = branch_created :: fixes ++
               [Exec "git diff --exit-code" false; Exec "git add ." true;
                Exec (RefactorAnalyzer.commit_command 7) true;
                Exec (RefactorAnalyzer.push_command 7) true;
                PullsCreate (RefactorAnalyzer.refactor_title 7)
                  (RefactorAnalyzer.refactor_branch 7) "main"
                  (RefactorAnalyzer.generatePRDescription 7 Examples.one_high_two_low)
                  created]).
Proof.
  apply (generateRefactoringPR_call_sequences Examples.env_ok 7 Examples.one_high_two_low
           Examples.world0).
  discriminate.
Defined.

(** On the host where every command succeeds, [git diff --exit-code]
    included, nothing is committed and no pull request is requested. *)
Example no_changes_no_pull_request :
  let run := RefactorAnalyzer.generateRefactoringPR Examples.env_ok 7
               Examples.one_high_two_low Examples.world0 in
  map (fun ev => match ev with Exec cmd _ => cmd | _ => "other" end) (trace (snd run)) =
  [ RefactorAnalyzer.create_branch_command 7; RefactorAnalyzer.eslint_fix_command;
    RefactorAnalyzer.prettier_command; "git diff --exit-code"; "git checkout main" ] /\
  branch (snd run) = "main".
Proof. vm_compute. split; reflexivity. Qed.

(** ** refactor-analyzer.js: checkForUnusedImports, analyzeCodeQuality, run *)

Section Analysis.
Import RefactorAnalyzer.
Variable env : Env.
Variable eslint_report : nat -> Completion (list EslintFileResult).

Lemma eslint_no_checkout : checkout_target eslint_command = None.
Proof. reflexivity. Qed.

(** The ESLint check in its three cases: the command fails; its output is
    no JSON; its output is parsed. *)
Lemma checkForUnusedImports_steps sugg w :
  exists ok added w',
    checkForUnusedImports env eslint_report sugg w = (Return (sugg ++ added), w') /\
    trace w' = trace w ++ [Exec eslint_command ok] /\
    branch w' = branch w /\
    match exec_error env (ticks w) eslint_command, eslint_report (ticks w) with
    | Some e, _ =>
        ok = false /\ added = [] /\
        logs w' = logs w ++ ["Checking for unused imports..."; "ESLint check failed: " +:+ e]
    | None, Throw e =>
        ok = true /\ added = [] /\
        logs w' = logs w ++ ["Checking for unused imports..."; "ESLint check failed: " +:+ e]
    | None, Return results =>
        ok = true /\ added = flat_map (unused_file []) results /\
        logs w' = logs w ++ ["Checking for unused imports..."]
    end.
Proof.
  unfold checkForUnusedImports, eslint_results, RefactorAnalyzer.log, bind, try_catch,
    append_log, ret, execSync.
  cbn [ticks]. rewrite eslint_no_checkout.
  destruct (exec_error env (ticks w) eslint_command) as [e|]; cbn [ticks step].
  - exists false, []. eexists. rewrite app_nil_r. split; [reflexivity|].
    cbn [trace branch logs step]. rewrite <- app_assoc. repeat split.
  - destruct (eslint_report (ticks w)) as [results|e]; cbn [ticks step].
    + exists true, (flat_map (unused_file []) results). eexists.
      rewrite (fold_left_appends _ _ unused_file_appends). split; [reflexivity|].
      cbn [trace branch logs step]. repeat split.
    + exists true, []. eexists. rewrite app_nil_r. split; [reflexivity|].
      cbn [trace branch logs step]. rewrite <- app_assoc. repeat split.
Qed.

Lemma checkForDuplicateCode_appends tree sugg :
  exists added, checkForDuplicateCode tree sugg = sugg ++ added.
Proof.
  unfold checkForDuplicateCode. rewrite scan_as_windows.
  generalize (∅ : gmap string (string * nat)). revert sugg.
  induction (windows tree) as [|win ws IH]; intros sugg cb; cbn [fold_left].
  - exists []. rewrite app_nil_r. reflexivity.
  - rewrite dup_window_spec.
    destruct (50 <? String.length (window_block win)); [|apply IH].
    destruct (cb !! window_block win) as [first|]; [|apply IH].
    destruct (IH (sugg ++ [duplicate_suggestion (fst (window_place win))
                             (snd (window_place win)) first]) cb) as (added & E).
    eexists. rewrite E, <- app_assoc. reflexivity.
Qed.

Lemma checkForComplexComponents_appends tree sugg :
  exists added, checkForComplexComponents tree sugg = sugg ++ added.
Proof.
  unfold checkForComplexComponents. rewrite (fold_left_appends _ _ complex_file_appends).
  eexists. reflexivity.
Qed.

Lemma checkForMissingTypes_appends tree sugg :
  exists added, checkForMissingTypes tree sugg = sugg ++ added.
Proof.
  unfold checkForMissingTypes. rewrite (fold_left_appends _ _ types_file_appends).
  eexists. reflexivity.
Qed.

Lemma checkForConsistencyIssues_appends tree sugg :
  exists added, checkForConsistencyIssues tree sugg = sugg ++ added.
Proof.
  unfold checkForConsistencyIssues.
  destruct (_ && _); eexists; [reflexivity|]. rewrite app_nil_r. reflexivity.
Qed.

Variable source_files : nat -> Completion SourceTree.

Lemma read_sources_return k t w :
  source_files k = Return t -> read_sources source_files k w = (Return t, w).
Proof. intros H. unfold read_sources. rewrite H. reflexivity. Qed.

Lemma read_sources_throw k e w :
  source_files k = Throw e -> read_sources source_files k w = (Throw e, w).
Proof. intros H. unfold read_sources. rewrite H. reflexivity. Qed.

(** The analysis when the source files are read by every check. *)
Lemma analyzeCodeQuality_steps sugg w :
  (forall k, k < 5 -> exists tree, source_files k = Return tree) ->
  exists ok added w',
    analyzeCodeQuality env eslint_report source_files sugg w
      = (Return ([], sugg ++ added), w') /\
    trace w' = trace w ++ [Exec eslint_command ok] /\
    branch w' = branch w /\
    exists ls, logs w' = logs w ++ "Analyzing code quality..." :: ls.
Proof.
  intros Hread.
  destruct (Hread 0) as [t0 R0]; [lia|]. destruct (Hread 1) as [t1 R1]; [lia|].
  destruct (Hread 2) as [t2 R2]; [lia|]. destruct (Hread 3) as [t3 R3]; [lia|].
  destruct (Hread 4) as [t4 R4]; [lia|].
  unfold analyzeCodeQuality.
  rewrite (bind_eq (RefactorAnalyzer.log _) _ _ tt _ eq_refl).
  rewrite (bind_eq (RefactorAnalyzer.log _) _ _ tt _ eq_refl).
  rewrite (bind_eq (read_sources source_files 0) _ _ t0 _ (read_sources_return 0 t0 _ R0)).
  rewrite (bind_eq (RefactorAnalyzer.log _) _ _ tt _ eq_refl).
  rewrite (bind_eq (read_sources source_files 1) _ _ t1 _ (read_sources_return 1 t1 _ R1)).
  rewrite (bind_eq (RefactorAnalyzer.log _) _ _ tt _ eq_refl).
  rewrite (bind_eq (read_sources source_files 2) _ _ t2 _ (read_sources_return 2 t2 _ R2)).
  rewrite (bind_eq (RefactorAnalyzer.log _) _ _ tt _ eq_refl).
  rewrite (bind_eq (read_sources source_files 3) _ _ t3 _ (read_sources_return 3 t3 _ R3)).
  destruct (checkForLongFunctions_spec t0 sugg) as (a1 & E1 & _).
  destruct (checkForDuplicateCode_appends t1 (checkForLongFunctions t0 sugg)) as (a2 & E2).
  destruct (checkForComplexComponents_appends t2
              (checkForDuplicateCode t1 (checkForLongFunctions t0 sugg))) as (a3 & E3).
  destruct (checkForMissingTypes_appends t3
              (checkForComplexComponents t2
                 (checkForDuplicateCode t1 (checkForLongFunctions t0 sugg)))) as (a4 & E4).
  set (s4 := checkForMissingTypes t3 _) in *.
  assert (s4 = sugg ++ a1 ++ a2 ++ a3 ++ a4) as Es4
    by (rewrite E4, E3, E2, E1, <- !app_assoc; reflexivity).
  clearbody s4. clear E1 E2 E3 E4.
  match goal with
  | |- context [bind (checkForUnusedImports env eslint_report s4) ?k ?w0] =>
      destruct (checkForUnusedImports_steps s4 w0) as (ok & a5 & w5 & E5 & T5 & B5 & L5);
      rewrite (bind_eq _ k w0 _ w5 E5)
  end.
  rewrite (bind_eq (RefactorAnalyzer.log _) _ _ tt _ eq_refl).
  rewrite (bind_eq (read_sources source_files 4) _ _ t4 _ (read_sources_return 4 t4 _ R4)).
  destruct (checkForConsistencyIssues_appends t4 (s4 ++ a5)) as (a6 & E6).
  unfold RefactorAnalyzer.log, append_log, ret. cbn [snd]. rewrite E6, Es4, <- !app_assoc.
  exists ok, (a1 ++ a2 ++ a3 ++ a4 ++ a5 ++ a6). eexists. split; [reflexivity|].
  cbn [trace branch logs]. rewrite T5, B5. cbn [trace branch]. repeat split.
  destruct (exec_error env _ eslint_command) as [e|];
    [|destruct (eslint_report _) as [results|e]];
    destruct L5 as (_ & _ & ->); cbn [logs]; rewrite <- !app_assoc; eexists; reflexivity.
Qed.

(** The analysis when the check number [k] is the first that cannot read
    the source files: its error leaves the analysis; the ESLint command was
    run when the check comes after it. *)
Lemma analyzeCodeQuality_read_error sugg w k e :
  k < 5 ->
  source_files k = Throw e ->
  (forall j, j < k -> exists tree, source_files j = Return tree) ->
  exists w',
    analyzeCodeQuality env eslint_report source_files sugg w = (Throw e, w') /\
    branch w' = branch w /\
    if k <? 4 then trace w' = trace w
    else exists ok, trace w' = trace w ++ [Exec eslint_command ok].
Proof.
  intros Hk Hthrow Hread.
  assert (forall j, j < k -> exists tree, forall w0,
            read_sources source_files j w0 = (Return tree, w0)) as Hret.
  { intros j Hj. destruct (Hread j Hj) as [t Ht]. exists t. intros w0.
    apply read_sources_return, Ht. }
  assert (forall w0, read_sources source_files k w0 = (Throw e, w0)) as Hthr
    by (intros w0; apply read_sources_throw, Hthrow).
  clear Hthrow Hread.
  unfold analyzeCodeQuality.
  rewrite (bind_eq (RefactorAnalyzer.log _) _ _ tt _ eq_refl).
  rewrite (bind_eq (RefactorAnalyzer.log _) _ _ tt _ eq_refl).
  destruct k as [|k].
  { rewrite (bind_throw _ _ _ e _ (Hthr _)). eexists. repeat split. }
  destruct (Hret 0) as [t0 R0]; [lia|]. rewrite (bind_eq _ _ _ t0 _ (R0 _)).
  rewrite (bind_eq (RefactorAnalyzer.log _) _ _ tt _ eq_refl).
  destruct k as [|k].
  { rewrite (bind_throw _ _ _ e _ (Hthr _)). eexists. repeat split. }
  destruct (Hret 1) as [t1 R1]; [lia|]. rewrite (bind_eq _ _ _ t1 _ (R1 _)).
  rewrite (bind_eq (RefactorAnalyzer.log _) _ _ tt _ eq_refl).
  destruct k as [|k].
  { rewrite (bind_throw _ _ _ e _ (Hthr _)). eexists. repeat split. }
  destruct (Hret 2) as [t2 R2]; [lia|]. rewrite (bind_eq _ _ _ t2 _ (R2 _)).
  rewrite (bind_eq (RefactorAnalyzer.log _) _ _ tt _ eq_refl).
  destruct k as [|k].
  { rewrite (bind_throw _ _ _ e _ (Hthr _)). eexists. repeat split. }
  destruct (Hret 3) as [t3 R3]; [lia|]. rewrite (bind_eq _ _ _ t3 _ (R3 _)).
  destruct k as [|k]; [|lia].
  match goal with
  | |- context [bind (checkForUnusedImports env eslint_report ?s4) ?k ?w0] =>
      destruct (checkForUnusedImports_steps s4 w0) as (ok & a5 & w5 & E5 & T5 & B5 & L5);
      rewrite (bind_eq _ k w0 _ w5 E5)
  end.
  rewrite (bind_eq (RefactorAnalyzer.log _) _ _ tt _ eq_refl).
  rewrite (bind_throw _ _ _ e _ (Hthr _)). eexists. split; [reflexivity|].
  cbn [RefactorAnalyzer.log append_log snd branch trace]. rewrite B5, T5.
  split; [reflexivity|]. cbn [Nat.ltb Nat.leb]. exists ok. reflexivity.
Qed.

End Analysis.

Lemma generateRefactoringPR_returns env n sugg :
  returns (RefactorAnalyzer.generateRefactoringPR env n sugg).
Proof.
  unfold RefactorAnalyzer.generateRefactoringPR, RefactorAnalyzer.log.
  destruct (length sugg =? 0); along_script.
Qed.


(** X19.  [checkForUnusedImports] never throws, keeps the suggestions it is
    given and makes one external call, the ESLint command.  When the
    command exits with an error, or when its output is no JSON, the error
    is logged and nothing is added.  When the output is parsed, one
    suggestion is added for each file result that has a message of the
    rule [no-unused-vars] saying [is defined but never used], with the
    number of such messages, in the order of the report. *)
Theorem checkForUnusedImports_outcome env eslint_report sugg w :
  exists ok added w',
    RefactorAnalyzer.checkForUnusedImports env eslint_report sugg w
      = (Return (sugg ++ added), w') /\
    PRMonitor.new_events w w' = [Exec RefactorAnalyzer.eslint_command ok] /\
    branch w' = branch w /\
    match exec_error env (ticks w) RefactorAnalyzer.eslint_command, eslint_report (ticks w) with
    | Some e, _ | None, Throw e =>
        added = [] /\
        PRMonitor.new_logs w w' =
          ["Checking for unused imports..."; "ESLint check failed: " +:+ e]
    | None, Return results =>
        added = flat_map (RefactorAnalyzer.unused_file []) results /\
        forall s,
          In s added <->
          exists fileResult,
            In fileResult results /\
            let n := length (List.filter RefactorAnalyzer.is_unused_import
                               (RefactorAnalyzer.messages fileResult)) in
            0 < n /\
            s = RefactorAnalyzer.unused_suggestion (RefactorAnalyzer.filePath fileResult) n
    end.
Proof.
  destruct (checkForUnusedImports_steps env eslint_report sugg w)
    as (ok & added & w' & E & T & B & H).
  exists ok, added, w'. split; [exact E|]. split; [exact (new_events_app _ _ _ T)|].
  split; [exact B|].
  destruct (exec_error env (ticks w) RefactorAnalyzer.eslint_command) as [e|].
  - destruct H as (_ & -> & L). split; [reflexivity | exact (new_logs_app _ _ _ L)].
  - destruct (eslint_report (ticks w)) as [results|e].
    + destruct H as (_ & -> & _). split; [reflexivity|].
      intros s. rewrite in_flat_map. unfold RefactorAnalyzer.unused_file.
      split.
      * intros (fr & Hin & Hs). exists fr. split; [exact Hin|]. cbv zeta.
        destruct (Nat.ltb_spec 0 (length (List.filter RefactorAnalyzer.is_unused_import
                                            (RefactorAnalyzer.messages fr)))) as [Hn|Hn].
        -- destruct Hs as [<-|[]]. split; [exact Hn | reflexivity].
        -- destruct Hs.
      * intros (fr & Hin & Hn & ->). exists fr. split; [exact Hin|].
        apply Nat.ltb_lt in Hn. rewrite Hn. left. reflexivity.
    + destruct H as (_ & -> & L). split; [reflexivity | exact (new_logs_app _ _ _ L)].
Qed.


(** X21.  [run] when every textual check reads the source files: it returns;
    when the analysis finds nothing, the ESLint command of the analysis is
    the only external call of the run, no git command is run, the working
    tree stays on its branch and the run says that the code looks good;
    when it finds something, the run goes on with [generateRefactoringPR]
    on what was found.  When a check cannot read the source files, [run]
    throws the error of the first such check, runs no git command and
    leaves the branch alone. *)
Theorem run_without_findings_runs_no_git env eslint_report source_files n w :
  let w0 := snd (RefactorAnalyzer.log
                   ("Starting refactoring analysis for PR #" +:+ string_of_nat n) w) in
  let run := RefactorAnalyzer.run env eslint_report source_files n w in
  ((forall k, k < 5 -> exists tree, source_files k = Return tree) ->
   exists ok sugg wa,
     RefactorAnalyzer.analyzeCodeQuality env eslint_report source_files [] w0
       = (Return ([], sugg), wa) /\
     fst run = Return tt /\
     match sugg with
     | [] =>
         PRMonitor.new_events w (snd run) = [Exec RefactorAnalyzer.eslint_command ok] /\
         branch (snd run) = branch w /\
         List.last (logs (snd run)) EmptyString =
           "No refactoring suggestions found. Code quality looks good!"
     | _ :: _ =>
         snd run = snd (RefactorAnalyzer.generateRefactoringPR env n sugg
                          (snd (RefactorAnalyzer.log
                                  ("Found " +:+ string_of_nat (length sugg) +:+
                                   " suggestions for improvement.") wa)))
     end) /\
  (forall k e,
     k < 5 ->
     source_files k = Throw e ->
     (forall j, j < k -> exists tree, source_files j = Return tree) ->
     fst run = Throw e /\
     branch (snd run) = branch w /\
     if k <? 4 then PRMonitor.new_events w (snd run) = []
     else exists ok,
            PRMonitor.new_events w (snd run) = [Exec RefactorAnalyzer.eslint_command ok]).
Proof.
  intros w0 run. split.
  - intros Hread.
    destruct (analyzeCodeQuality_steps env eslint_report source_files [] w0 Hread)
      as (ok & added & wa & E & T & B & _).
    cbn [app] in E. exists ok, added, wa. split; [exact E|].
    unfold run, RefactorAnalyzer.run.
    rewrite (bind_eq (RefactorAnalyzer.log _) _ w tt w0 eq_refl).
    rewrite (bind_eq _ _ w0 _ wa E). cbn [snd].
    destruct added as [|s rest].
    + cbn [length Nat.ltb Nat.leb]. split; [reflexivity|].
      cbn [RefactorAnalyzer.log append_log snd trace branch logs].
      split; [apply new_events_app; exact T|]. split; [exact B|].
      apply last_last.
    + cbn [length Nat.ltb Nat.leb].
      set (wf := snd (RefactorAnalyzer.log
                        ("Found " +:+ string_of_nat (length (s :: rest)) +:+
                         " suggestions for improvement.") wa)).
      rewrite (bind_eq (RefactorAnalyzer.log _) _ wa tt wf eq_refl).
      destruct (returns_eq _ (generateRefactoringPR_returns env n (s :: rest)) wf) as ([] & Eg).
      rewrite Eg. split; reflexivity.
  - intros k e Hk Hthrow Hread.
    destruct (analyzeCodeQuality_read_error env eslint_report source_files [] w0 k e
                Hk Hthrow Hread) as (w' & E & B & T).
    unfold run, RefactorAnalyzer.run.
    rewrite (bind_eq (RefactorAnalyzer.log _) _ w tt w0 eq_refl).
    rewrite (bind_throw _ _ w0 e w' E).
    split; [reflexivity|]. split; [exact B|]. cbn [snd].
    destruct (k <? 4).
    + apply new_events_app. rewrite app_nil_r. exact T.
    + destruct T as (ok & T). exists ok. apply new_events_app. exact T.
Qed.

(** A tree without findings and a linter without report: the run makes one
    external call and returns. *)
Example run_on_a_clean_tree :
  let source_files := fun _ : nat => Return [("/repo/src/one.ts", "export const one = 1;")] in
  let run := RefactorAnalyzer.run Examples.env_ok (fun _ => Return []) source_files 7
               Examples.world0 in
  fst run = Return tt /\
  trace (snd run) = [Exec RefactorAnalyzer.eslint_command true] /\
  List.last (logs (snd run)) EmptyString =
    "No refactoring suggestions found. Code quality looks good!".
Proof. vm_compute. repeat split. Qed.

(** A file of the tree that cannot be read ends the run before any command. *)
Example unreadable_file_ends_the_run :
  let source_files := fun _ : nat =>
    Throw (A := RefactorAnalyzer.SourceTree)
      "EACCES: permission denied, open '/repo/src/secret.ts'" in
  let run := RefactorAnalyzer.run Examples.env_ok (fun _ => Return []) source_files 7
               Examples.world0 in
  fst run = Throw "EACCES: permission denied, open '/repo/src/secret.ts'" /\
  trace (snd run) = [] /\
  logs (snd run) =
    [ "Starting refactoring analysis for PR #7"; "Analyzing code quality...";
      "Checking for long functions..." ].
Proof. vm_compute. repeat split. Qed.

(** ** monitor-daemon.js: the configuration *)

Section DaemonConfig.
Import MonitorDaemon.

Lemma lookup_merge (a b : Config) k :
  merge a b !! k = match b !! k with Some v => Some v | None => a !! k end.
Proof.
  unfold merge. destruct (b !! k) as [v|] eqn:Eb.
  - apply lookup_union_Some_l. exact Eb.
  - apply lookup_union_r. exact Eb.
Qed.

(** A configuration that has every key of [a] absorbs [a]. *)
Lemma merge_absorbs (a b : Config) :
  (forall k, is_Some (a !! k) -> is_Some (b !! k)) -> merge a b = b.
Proof.
  intros H. apply map_eq. intros k. rewrite lookup_merge.
  destruct (b !! k) as [v|] eqn:Eb; [symmetry; exact Eb|].
  destruct (a !! k) as [v|] eqn:Ea; [|symmetry; exact Eb].
  destruct (H k) as [v' Hv]; [rewrite Ea; eexists; reflexivity|]. congruence.
Qed.

Lemma spread_file_of (c : Config) : spread (JObject (map_to_list c)) = c.
Proof.
  cbn [spread]. rewrite <- (list_to_map_to_list c) at 2.
  assert (rev (map_to_list c) ≡ₚ map_to_list c) as Hp by (symmetry; apply Permutation_rev).
  apply list_to_map_proper; [|exact Hp].
  rewrite Hp. apply NoDup_fst_map_to_list.
Qed.

(** A configuration that was loaded has every default key. *)
Lemma loaded_has_defaults file write_error c k :
  fst (loadConfig file write_error) = Return c ->
  is_Some (defaultConfig !! k) -> is_Some (c !! k).
Proof.
  unfold loadConfig. destruct file as [|e|value].
  - destruct write_error; cbn; [discriminate|]. intros [= <-]. tauto.
  - destruct write_error; cbn; [discriminate|]. intros [= <-]. tauto.
  - cbn. intros [= <-] Hd. rewrite lookup_merge.
    destruct (spread value !! k); [eexists; reflexivity | exact Hd].
Qed.

End DaemonConfig.

(** X22.  [loadConfig] on a configuration file that parses: nothing is written
    or logged, and the configuration is the user's value spread over the
    defaults.  A property the file gives has the file's value, whole (a
    [notifications] object of the file replaces the default one, it is not
    merged with it); any other property has its default, so that every
    default key is present.  A file that holds [null], a number or a
    boolean gives the defaults. *)
Theorem loadConfig_spreads_file_over_defaults value write_error :
  exists c,
    MonitorDaemon.loadConfig (MonitorDaemon.Parsed value) write_error =
      (Return c, {| MonitorDaemon.written := None; MonitorDaemon.logged := [] |}) /\
    (forall k v, MonitorDaemon.spread value !! k = Some v -> c !! k = Some v) /\
    (forall k, MonitorDaemon.spread value !! k = None ->
               c !! k = MonitorDaemon.defaultConfig !! k) /\
    (forall k, is_Some (MonitorDaemon.defaultConfig !! k) -> is_Some (c !! k)) /\
    (MonitorDaemon.spread value = ∅ -> c = MonitorDaemon.defaultConfig).
Proof.
  eexists. split; [reflexivity|]. repeat split.
  - intros k v H. rewrite lookup_merge, H. reflexivity.
  - intros k H. rewrite lookup_merge, H. reflexivity.
  - intros k H. rewrite lookup_merge.
    destruct (MonitorDaemon.spread value !! k); [eexists; reflexivity | exact H].
  - intros ->. unfold MonitorDaemon.merge. apply (left_id ∅ (∪)).
Qed.

(** A file that sets the interval and the notifications, the interval
    twice: the last interval and the file's notifications are loaded, the
    other properties are the defaults. *)
Example loadConfig_user_file :
  let file :=
    MonitorDaemon.Parsed
      (MonitorDaemon.JObject
         [ ("checkInterval", MonitorDaemon.JString "0 * * * *");
           ("notifications", MonitorDaemon.JObject [("slack", MonitorDaemon.JBool true)]);
           ("checkInterval", MonitorDaemon.JString "*/15 * * * *") ]) in
  exists c,
    fst (MonitorDaemon.loadConfig file None) = Return c /\
    c !! "checkInterval" = Some (MonitorDaemon.JString "*/15 * * * *") /\
    c !! "notifications" =
      Some (MonitorDaemon.JObject [("slack", MonitorDaemon.JBool true)]) /\
    c !! "maxConcurrentPRs" = Some (MonitorDaemon.JNumber 3) /\
    c !! "enableAutoTesting" = Some (MonitorDaemon.JBool true).
Proof. eexists. split; [reflexivity|]. vm_compute. repeat split. Qed.

(** X23.  A configuration updated by [updateConfig] reads back.  For a daemon
    whose configuration was loaded by [loadConfig], a successful update
    sets the given properties, keeps the others, and writes the result to
    the file; [loadConfig] on what was written returns that configuration,
    and writes and logs nothing.  An update whose write fails returns
    [false] and leaves the configuration of the daemon as it was. *)
Theorem updated_configuration_reads_back file write_error d newConfig :
  fst (MonitorDaemon.loadConfig file write_error) = Return (MonitorDaemon.config d) ->
  let '(ok, d', effects) := MonitorDaemon.updateConfig d newConfig None in
  ok = true /\
  MonitorDaemon.written effects = Some (MonitorDaemon.config d') /\
  (forall k v, newConfig !! k = Some v -> MonitorDaemon.config d' !! k = Some v) /\
  (forall k, newConfig !! k = None ->
             MonitorDaemon.config d' !! k = MonitorDaemon.config d !! k) /\
  (forall again,
     MonitorDaemon.loadConfig (MonitorDaemon.file_of (MonitorDaemon.config d')) again =
     (Return (MonitorDaemon.config d'),
      {| MonitorDaemon.written := None; MonitorDaemon.logged := [] |})) /\
  (forall e, fst (MonitorDaemon.updateConfig d newConfig (Some e)) = (false, d)).
Proof.
  intros Hloaded. cbn [MonitorDaemon.updateConfig MonitorDaemon.config MonitorDaemon.written].
  repeat split.
  - intros k v H. rewrite lookup_merge, H. reflexivity.
  - intros k H. rewrite lookup_merge, H. reflexivity.
  - intros again. unfold MonitorDaemon.file_of, MonitorDaemon.loadConfig.
    rewrite spread_file_of, merge_absorbs; [reflexivity|].
    intros k Hk. rewrite lookup_merge.
    destruct (newConfig !! k); [eexists; reflexivity|].
    exact (loaded_has_defaults file write_error _ k Hloaded Hk).
Qed.

Lemma updated_configuration_reads_back_witness :
  let d := {| MonitorDaemon.isRunning := false;
              MonitorDaemon.config := MonitorDaemon.defaultConfig |} in
  let newConfig := {[ "maxConcurrentPRs" := MonitorDaemon.JNumber 5 ]} in
  let '(ok, d', effects) := MonitorDaemon.updateConfig d newConfig None in
  ok = true /\
  MonitorDaemon.written effects = Some (MonitorDaemon.config d') /\
  (forall k v, newConfig !! k = Some v -> MonitorDaemon.config d' !! k = Some v) /\
  (forall k, newConfig !! k = None ->
             MonitorDaemon.config d' !! k = MonitorDaemon.config d !! k) /\
  (forall again,
     MonitorDaemon.loadConfig (MonitorDaemon.file_of (MonitorDaemon.config d')) again =
     (Return (MonitorDaemon.config d'),
      {| MonitorDaemon.written := None; MonitorDaemon.logged := [] |})) /\
  (forall e, fst (MonitorDaemon.updateConfig d newConfig (Some e)) = (false, d)).
Proof.
  exact (updated_configuration_reads_back MonitorDaemon.NoFile None
           {| MonitorDaemon.isRunning := false;
              MonitorDaemon.config := MonitorDaemon.defaultConfig |}
           {[ "maxConcurrentPRs" := MonitorDaemon.JNumber 5 ]} eq_refl).
Defined.

(** ** monitor-daemon.js: the checks of the daemon *)

Section DaemonChecks.
Import MonitorDaemon.
Variable env : Env.

(** A check around a cycle: the cycle completes or throws, the check
    returns. *)
Lemma guarded_cycle before after failed w :
  let w0 := snd (MonitorDaemon.log before "info" w) in
  exists w',
    try_catch
      (MonitorDaemon.log before "info";;
       PRMonitor.start env;;
       MonitorDaemon.log after "success")
      (fun e => MonitorDaemon.log (failed +:+ e) "error") w = (Return tt, w') /\
    match PRMonitor.start env w0 with
    | (Return _, wc) =>
        trace w' = trace wc /\ logs w' = logs wc ++ [after] /\
        lastCheckedFile w' = lastCheckedFile wc /\ ticks w' = ticks wc /\
        branch w' = branch wc
    | (Throw e, wc) =>
        trace w' = trace wc /\ logs w' = logs wc ++ [failed +:+ e] /\
        lastCheckedFile w' = lastCheckedFile w /\ ticks w' = ticks wc /\
        branch w' = branch wc
    end.
Proof.
  intros w0. unfold try_catch.
  rewrite (bind_eq (MonitorDaemon.log before "info") _ w tt w0 eq_refl).
  pose proof (start_checkpoint_cases env w0) as Hc.
  unfold bind. destruct (PRMonitor.start env w0) as [[[]|e] wc].
  - eexists. split; [reflexivity|]. repeat split.
  - eexists. split; [reflexivity|]. repeat split. exact Hc.
Qed.

Lemma scheduled_check_returns w :
  exists w', scheduled_check env w = (Return tt, w').
Proof.
  destruct (guarded_cycle "🔍 Running scheduled PR check..." "✅ Scheduled PR check completed"
              "❌ Scheduled PR check failed: " w) as (w' & E & _).
  exists w'. exact E.
Qed.

Lemma scheduled_checks_return gaps : forall w,
  fst (scheduled_checks env gaps w) = Return tt.
Proof.
  induction gaps as [|gap gaps IH]; intros w; [reflexivity|].
  cbn [scheduled_checks].
  destruct (scheduled_check_returns (PRMonitor.idle gap w)) as (w' & ->). apply IH.
Qed.

End DaemonChecks.

(** X24.  A cycle that throws does not stop the daemon.  Every run of the
    scheduled task returns, and so does any sequence of runs.  When the
    cycle of a run throws, the run logs the error as a failed check and
    the checkpoint file is as it was before the run, so that the next run
    looks for the same units again. *)
Theorem daemon_survives_a_failed_cycle env gaps w :
  fst (MonitorDaemon.scheduled_checks env gaps w) = Return tt /\
  exists w',
    MonitorDaemon.scheduled_check env w = (Return tt, w') /\
    forall e wc,
      PRMonitor.start env
        (snd (MonitorDaemon.log "🔍 Running scheduled PR check..." "info" w)) = (Throw e, wc) ->
      List.last (logs w') EmptyString = "❌ Scheduled PR check failed: " +:+ e /\
      trace w' = trace wc /\
      lastCheckedFile w' = lastCheckedFile w.
Proof.
  split; [apply scheduled_checks_return|].
  destruct (guarded_cycle env "🔍 Running scheduled PR check..."
              "✅ Scheduled PR check completed" "❌ Scheduled PR check failed: " w)
    as (w' & E & H).
  exists w'. split; [exact E|].
  intros e wc Hs. cbv zeta in H. rewrite Hs in H. destruct H as (Ht & Hl & Hf & _).
  rewrite Hl, last_last. repeat split; assumption.
Qed.

(** In the scenario where the comment on unit 8 cannot be posted, the
    scheduled check returns, its last line reports the failure, and no
    checkpoint was written. *)
Example scheduled_check_logs_the_failure :
  let run := MonitorDaemon.scheduled_check Examples.env_comment_fails_8 Examples.world0 in
  fst run = Return tt /\
  List.last (logs (snd run)) EmptyString =
    "❌ Scheduled PR check failed: HttpError: Resource not accessible by integration" /\
  lastCheckedFile (snd run) = None.
Proof. vm_compute. repeat split. Qed.

(** X25.  [start] of the daemon.  On a daemon that is running it logs a warning
    and does nothing else.  Otherwise, when [cron.schedule] rejects the
    check interval, [start] throws before any external call; when it
    accepts it, [start] returns with the daemon running, whatever the
    initial cycle does: a cycle that throws is logged as a failed initial
    check, and the daemon is announced as running all the same. *)
Theorem daemon_start_outcome env schedule_error d w :
  let run := MonitorDaemon.start env schedule_error d w in
  if MonitorDaemon.isRunning d then
    fst run = Return d /\
    PRMonitor.new_events w (snd run) = [] /\
    PRMonitor.new_logs w (snd run) = ["Monitor daemon is already running"]
  else
    match schedule_error (MonitorDaemon.config d !! "checkInterval") with
    | Some e =>
        fst run = Throw e /\ PRMonitor.new_events w (snd run) = []
    | None =>
        fst run = Return {| MonitorDaemon.isRunning := true;
                            MonitorDaemon.config := MonitorDaemon.config d |} /\
        let w0 := snd (MonitorDaemon.log "🔍 Running initial PR check..." "info"
                         (snd (MonitorDaemon.announce d w))) in
        match PRMonitor.start env w0 with
        | (Return _, wc) =>
            trace (snd run) = trace wc /\
            logs (snd run) = logs wc ++
              [ "✅ Initial PR check completed"; "✨ PR Monitor Daemon is now running";
                "Press Ctrl+C to stop" ]
        | (Throw e, wc) =>
            trace (snd run) = trace wc /\
            logs (snd run) = logs wc ++
              [ "❌ Initial PR check failed: " +:+ e; "✨ PR Monitor Daemon is now running";
                "Press Ctrl+C to stop" ]
        end
    end.
Proof.
  intros run. subst run. unfold MonitorDaemon.start.
  destruct (MonitorDaemon.isRunning d).
  - cbn. unfold PRMonitor.new_events, PRMonitor.new_logs. cbn.
    rewrite drop_all, drop_app_length. repeat split.
  - set (w4 := snd (MonitorDaemon.announce d w)).
    assert (MonitorDaemon.announce d w = (Return tt, w4)) as Ea by reflexivity.
    assert (trace w4 = trace w) as Ht4 by reflexivity.
    rewrite (bind_eq _ _ w tt w4 Ea).
    destruct (schedule_error (MonitorDaemon.config d !! "checkInterval")) as [e|].
    + unfold bind, throw. cbn [fst snd]. split; [reflexivity|].
      apply new_events_app. rewrite Ht4, app_nil_r. reflexivity.
    + rewrite (bind_eq (ret tt) _ w4 tt w4 eq_refl).
      destruct (guarded_cycle env "🔍 Running initial PR check..."
                  "✅ Initial PR check completed" "❌ Initial PR check failed: " w4)
        as (w5 & E & H).
      rewrite (bind_eq _ _ w4 tt w5 E).
      cbv zeta in H |- *.
      set (w0 := snd (MonitorDaemon.log "🔍 Running initial PR check..." "info" w4)) in *.
      clearbody w0.
      cbn [bind MonitorDaemon.log append_log ret fst snd logs trace].
      split; [reflexivity|].
      destruct (PRMonitor.start env w0) as [[[]|e] wc];
        destruct H as (Ht & Hl & _); rewrite Ht, Hl, <- !app_assoc; split; reflexivity.
Qed.

(** ** monitor-daemon.js: showLogs *)

(** X26.  [showLogs(lines)] prints lines of the log that are not blank, in the
    order of the log, each once.  For a positive [lines] they are the last
    [lines] entries, all of them when the log has fewer.  For [lines = 0]
    the slice from [-0] is the whole list: every entry is printed.  For a
    negative [lines] the first [-lines] entries are left out.  A line that
    holds [[ERROR]] is printed in red, whatever else it holds. *)
Theorem showLogs_prints_the_last_entries lines logContent :
  let entries := MonitorDaemon.log_entries logContent in
  let shown := MonitorDaemon.recent_entries lines logContent in
  MonitorDaemon.showLogs lines (Return logContent) =
    (Some (length shown, map (fun line => (MonitorDaemon.entry_colour line, line)) shown), []) /\
  ((0 < lines)%Z ->
     shown = drop (length entries - Z.to_nat lines) entries /\
     length shown = Nat.min (Z.to_nat lines) (length entries)) /\
  (lines = 0%Z -> shown = entries) /\
  ((lines < 0)%Z -> shown = drop (Z.to_nat (- lines)) entries) /\
  (forall line, In line shown ->
     trim line <> EmptyString /\ In line (split_lines logContent)) /\
  (forall line, includes "[ERROR]" line = true ->
     MonitorDaemon.entry_colour line = MonitorDaemon.red).
Proof.
  intros entries shown. subst shown.
  unfold MonitorDaemon.recent_entries, MonitorDaemon.slice_from. fold entries. cbv zeta.
  split; [reflexivity|]. split; [|split; [|split; [|split]]].
  - intros Hpos. destruct (Z.ltb_spec (- lines) 0) as [_|H]; [|lia].
    replace (Z.to_nat (Z.max (Z.of_nat (length entries) + - lines) 0))
      with (length entries - Z.to_nat lines) by lia.
    split; [reflexivity|]. rewrite length_drop. lia.
  - intros ->. change (- 0 <? 0)%Z with false. cbv iota.
    rewrite Z.min_l by lia. reflexivity.
  - intros Hneg. destruct (Z.ltb_spec (- lines) 0) as [H|_]; [lia|].
    destruct (Z.min_spec (- lines) (Z.of_nat (length entries))) as [[_ ->]|[Hle ->]];
      [reflexivity|].
    rewrite Nat2Z.id, !drop_ge; [reflexivity | lia | lia].
  - intros line Hin.
    assert (In line entries) as He.
    { apply list_elem_of_In. apply list_elem_of_In in Hin.
      eapply (subseteq_drop _ entries). exact Hin. }
    unfold entries, MonitorDaemon.log_entries in He. apply List.filter_In in He as [Hl Hb].
    split; [|exact Hl]. intros Heq. rewrite Heq in Hb. discriminate Hb.
  - intros line H. unfold MonitorDaemon.entry_colour. rewrite H. reflexivity.
Qed.

(** A log of four entries and blank lines, asked for 2, 0 and 10 lines. *)
Example showLogs_bounds :
  let logContent :=
    join_lines [ "[t1] [INFO] one"; ""; "[t2] [ERROR] two [WARNING]"; "   ";
                 "[t3] [SUCCESS] three"; "[t4] [WARNING] four"; "" ] in
  MonitorDaemon.recent_entries 2 logContent = ["[t3] [SUCCESS] three"; "[t4] [WARNING] four"] /\
  length (MonitorDaemon.recent_entries 0 logContent) = 4 /\
  length (MonitorDaemon.recent_entries 10 logContent) = 4 /\
  map MonitorDaemon.entry_colour (MonitorDaemon.recent_entries 0 logContent) =
    [MonitorDaemon.plain; MonitorDaemon.red; MonitorDaemon.green; MonitorDaemon.yellow].
Proof. vm_compute. repeat split. Qed.

(** ** setup.js: the check interval *)

Lemma validate_cron_parts input :
  SetupManager.validate_cron input = None -> count_char " " input = 4.
Proof.
  unfold SetupManager.validate_cron. rewrite length_split_on.
  destruct (Nat.eqb_spec (S (count_char " " input)) 5) as [H|H]; cbn [negb];
    [intros _; lia | discriminate].
Qed.

(** X27.  The validator of the custom cron expression counts the pieces between
    single spaces: it accepts exactly the texts with four space characters.
    So it accepts any five words, and rejects a cron expression whose
    fields are set apart by two spaces. *)
Theorem validate_cron_counts_spaces input :
  SetupManager.validate_cron input = None <-> count_char " " input = 4.
Proof.
  unfold SetupManager.validate_cron. rewrite length_split_on.
  destruct (Nat.eqb_spec (S (count_char " " input)) 5) as [H|H]; cbn [negb]; split.
  - intros _. lia.
  - reflexivity.
  - discriminate.
  - intros H'. lia.
Qed.

Example validate_cron_samples :
  SetupManager.validate_cron "*/10 * * * *" = None /\
  SetupManager.validate_cron "every five minutes of day" = None /\
  SetupManager.validate_cron "*/10  * * * *" <> None /\
  SetupManager.validate_cron "custom" <> None.
Proof. vm_compute. repeat split; discriminate. Qed.

Section SavedConfig.
Import SetupManager.

Lemma choices_have_five_parts choice :
  In choice interval_choices -> choice <> "custom" -> count_char " " choice = 4.
Proof.
  intros [<-|[<-|[<-|[<-|[<-|[]]]]]] Hc; try reflexivity. congruence.
Qed.

Lemma chosen_interval_parts a :
  prompted a -> count_char " " (chosen_interval a) = 4.
Proof.
  intros (_ & Hin & Hcustom & _). unfold chosen_interval.
  destruct (customInterval a) as [expression|].
  - destruct Hcustom as [_ Hv]. apply validate_cron_parts in Hv.
    destruct (String.eqb_spec expression EmptyString) as [->|_]; [discriminate Hv | exact Hv].
  - apply choices_have_five_parts; assumption.
Qed.

End SavedConfig.

(** X28.  The check interval that [setupEnvironment] saves.  For answers as the
    prompt gives them, the interval saved is the custom expression when the
    choice was [custom], and the value of the choice otherwise; in both
    cases it is a text of five parts, and never the word [custom]. *)
Theorem saved_interval_has_five_parts a :
  SetupManager.prompted a ->
  SetupManager.saved_config a !! "checkInterval" =
    Some (MonitorDaemon.JString (SetupManager.chosen_interval a)) /\
  count_char " " (SetupManager.chosen_interval a) = 4 /\
  SetupManager.chosen_interval a <> "custom" /\
  (SetupManager.checkInterval a = "custom" ->
     SetupManager.customInterval a = Some (SetupManager.chosen_interval a)) /\
  (SetupManager.checkInterval a <> "custom" ->
     SetupManager.chosen_interval a = SetupManager.checkInterval a).
Proof.
  intros Hp. pose proof (chosen_interval_parts a Hp) as H4.
  split; [reflexivity|]. split; [exact H4|]. split.
  - intros Heq. rewrite Heq in H4. discriminate H4.
  - destruct Hp as (_ & _ & Hcustom & _). unfold SetupManager.chosen_interval in *.
    destruct (SetupManager.customInterval a) as [expression|].
    + destruct Hcustom as [Hc Hv].
      destruct (String.eqb_spec expression EmptyString) as [->|_].
      * apply validate_cron_parts in Hv. discriminate Hv.
      * split; [reflexivity | congruence].
    + split; [congruence | reflexivity].
Qed.

Lemma saved_interval_has_five_parts_witness :
  let a := {| SetupManager.githubToken := "ghp_0123456789abcdef";
              SetupManager.checkInterval := "custom";
              SetupManager.customInterval := Some "*/10 * * * *";
              SetupManager.enableAutoRefactoring := true;
              SetupManager.enableAutoTesting := false;
              SetupManager.maxConcurrentPRs := Some 4%Z |} in
  SetupManager.saved_config a !! "checkInterval" =
    Some (MonitorDaemon.JString (SetupManager.chosen_interval a)) /\
  count_char " " (SetupManager.chosen_interval a) = 4 /\
  SetupManager.chosen_interval a <> "custom" /\
  (SetupManager.checkInterval a = "custom" ->
     SetupManager.customInterval a = Some (SetupManager.chosen_interval a)) /\
  (SetupManager.checkInterval a <> "custom" ->
     SetupManager.chosen_interval a = SetupManager.checkInterval a).
Proof.
  apply (saved_interval_has_five_parts
           {| SetupManager.githubToken := "ghp_0123456789abcdef";
              SetupManager.checkInterval := "custom";
              SetupManager.customInterval := Some "*/10 * * * *";
              SetupManager.enableAutoRefactoring := true;
              SetupManager.enableAutoTesting := false;
              SetupManager.maxConcurrentPRs := Some 4%Z |}).
  unfold SetupManager.prompted. cbn.
  split; [reflexivity|]. split; [tauto|]. split; [split; reflexivity | reflexivity].
Defined.

(** X29.  The configuration that the setup saves loads in the daemon as it was
    saved, whatever was answered: it has every key the daemon knows, so
    that no default takes the place of an answer, and the daemon neither
    rewrites the file nor logs an error.  The daemon then shows the saved
    interval and takes the two switches as they were answered. *)
Theorem saved_config_loads_in_the_daemon a write_error :
  MonitorDaemon.loadConfig (MonitorDaemon.file_of (SetupManager.saved_config a)) write_error =
    (Return (SetupManager.saved_config a),
     {| MonitorDaemon.written := None; MonitorDaemon.logged := [] |}) /\
  MonitorDaemon.display_property (SetupManager.saved_config a) "checkInterval" =
    SetupManager.chosen_interval a /\
  MonitorDaemon.truthy_property (SetupManager.saved_config a) "enableAutoRefactoring" =
    SetupManager.enableAutoRefactoring a /\
  MonitorDaemon.truthy_property (SetupManager.saved_config a) "enableAutoTesting" =
    SetupManager.enableAutoTesting a.
Proof.
  split; [|split; [reflexivity | split]].
  - unfold MonitorDaemon.file_of, MonitorDaemon.loadConfig.
    rewrite spread_file_of, merge_absorbs; [reflexivity|].
    intros k [v Hk]. unfold MonitorDaemon.defaultConfig in Hk.
    apply elem_of_list_to_map_2 in Hk.
    repeat (apply elem_of_cons in Hk as [Hk|Hk];
            [injection Hk as -> _; eexists; reflexivity|]).
    apply elem_of_nil in Hk. destruct Hk.
  - unfold MonitorDaemon.truthy_property.
    change (SetupManager.saved_config a !! "enableAutoRefactoring")
      with (Some (MonitorDaemon.JBool (SetupManager.enableAutoRefactoring a))).
    destruct (SetupManager.enableAutoRefactoring a); reflexivity.
  - unfold MonitorDaemon.truthy_property.
    change (SetupManager.saved_config a !! "enableAutoTesting")
      with (Some (MonitorDaemon.JBool (SetupManager.enableAutoTesting a))).
    destruct (SetupManager.enableAutoTesting a); reflexivity.
Qed.

(** ** test-runner.js: the run on a project *)

Section OnProject.
Import TestRunner.

Lemma resolves_iff (name : string) (ms : nat) (rejected : option string) (critical : bool) :
  rejects {| test_name := name; fn := {| elapsed := ms; rejection := rejected |};
             test_critical := critical |} = false <-> rejected = None.
Proof. unfold rejects. cbn. destruct rejected; split; congruence. Qed.

Lemma testBuild_resolves r : testBuild_rejection r = None <-> exited0 r = true.
Proof. destruct r; cbn; split; congruence. Qed.

Lemma testTypeScript_resolves r : testTypeScript_rejection r = None <-> exited0 r = true.
Proof. destruct r; cbn; split; congruence. Qed.

Lemma testLinting_resolves r : testLinting_rejection r = None <-> lint_tolerated r = true.
Proof.
  destruct r as [out|st [out|] msg]; cbn; [tauto| |split; discriminate].
  destruct (includes "warning" out && negb (includes "error" out)); split; congruence.
Qed.

Lemma testDependencies_resolves a o :
  testDependencies_rejection a o = None <-> exited0 a = true /\ exited0 o = true.
Proof.
  destruct a as [?|[[|[|?]]|] ? ?], o as [?|[[|[|?]]|] ? ?]; cbn;
    split; try tauto; try discriminate; intros [? ?]; discriminate.
Qed.

Lemma walk_resolves label e : walk_rejection label e = None <-> e = None.
Proof. destruct e; cbn; split; congruence. Qed.

Lemma testPerformance_resolves r e :
  testPerformance_rejection r e = None <-> exited0 r = true /\ e = None.
Proof.
  destruct r, e; cbn; split; try tauto; try discriminate; intros [? ?]; discriminate.
Qed.

End OnProject.

(** X30.  The exit code of the test runner on a project.  The script exits with
    code 0 exactly when the build and the type check exit with code 0; the
    linter exits with code 0 or, failing, prints an output that speaks of a
    warning and nowhere of an error; [npm audit] and [npm outdated] both
    exit with code 0; the build run again by the performance test exits
    with code 0; and no walk of the files throws.  What the walks find is
    no part of the outcome: the test methods log it and resolve. *)
Theorem project_passes_iff p prNumber :
  TestRunner.exit_code (fst (TestRunner.runAllTests prNumber (TestRunner.suite_of p))) = 0 <->
  TestRunner.exited0 (TestRunner.build p) = true /\
  TestRunner.exited0 (TestRunner.typecheck p) = true /\
  TestRunner.lint_tolerated (TestRunner.lint p) = true /\
  (TestRunner.exited0 (TestRunner.audit p) = true /\
   TestRunner.exited0 (TestRunner.outdated p) = true) /\
  TestRunner.quality_walk_error p = None /\
  (TestRunner.exited0 (TestRunner.rebuild p) = true /\ TestRunner.dist_walk_error p = None) /\
  TestRunner.secrets_walk_error p = None /\
  TestRunner.a11y_walk_error p = None.
Proof.
  unfold TestRunner.runAllTests.
  pose proof (run_outcome prNumber (TestRunner.suite_tests (TestRunner.suite_of p))) as H.
  destruct (TestRunner.run_and_report prNumber (TestRunner.suite_tests (TestRunner.suite_of p)))
    as [r [report ok]].
  destruct H as [H _]. cbn [fst]. rewrite H. clear H.
  rewrite <- List.Forall_forall. unfold TestRunner.suite_tests, TestRunner.suite_of.
  cbn [TestRunner.testBuild TestRunner.testTypeScript TestRunner.testLinting
       TestRunner.testDependencies TestRunner.testCodeQuality TestRunner.testPerformance
       TestRunner.testSecurity TestRunner.testAccessibility].
  rewrite !List.Forall_cons_iff, !resolves_iff.
  rewrite testBuild_resolves, testTypeScript_resolves, testLinting_resolves,
    testDependencies_resolves, testPerformance_resolves, !walk_resolves.
  split.
  - intros (? & ? & ? & ? & ? & ? & ? & ? & _). repeat split; tauto.
  - intros (? & ? & ? & ? & ? & ? & ? & ?). repeat split; try tauto. constructor.
Qed.

(** A linter that fails with the usual summary of warnings only, which
    counts the errors too, fails the run. *)
Example lint_summary_with_zero_errors_fails :
  TestRunner.lint_tolerated
    (TestRunner.ExecFailed (Some 1) (Some "3 problems (0 errors, 3 warnings)")
       "Command failed: npm run lint") = false /\
  TestRunner.lint_tolerated
    (TestRunner.ExecFailed (Some 1) (Some "src/App.tsx: warning  Unexpected console statement")
       "Command failed: npm run lint") = true.
Proof. vm_compute. split; reflexivity. Qed.

(** * The baseline branch after a test run and after the remediation workflow *)

Section Replay.
Variable env : Env.

Lemma branch_after_app b evs1 evs2 :
  branch_after b (evs1 ++ evs2) = branch_after (branch_after b evs1) evs2.
Proof. unfold branch_after. apply fold_left_app. Qed.

Lemma replays_refl w : replays w w.
Proof. exists []. rewrite app_nil_r. cbn. repeat split. lia. Qed.

Lemma replays_trans w1 w2 w3 : replays w1 w2 -> replays w2 w3 -> replays w1 w3.
Proof.
  intros (e1 & T1 & B1 & K1) (e2 & T2 & B2 & K2). exists (e1 ++ e2).
  rewrite T2, T1, B2, B1, K2, K1, branch_after_app, length_app, app_assoc.
  repeat split. lia.
Qed.

Lemma replays_log msg : preserves replays (append_log msg).
Proof. intros w. exists []. cbn. rewrite app_nil_r. repeat split. lia. Qed.

Lemma replays_ret {A} (a : A) : preserves replays (ret a).
Proof. apply preserves_ret, replays_refl. Qed.

Lemma replays_bind {A B} (m : M A) (k : A -> M B) :
  preserves replays m -> (forall a, preserves replays (k a)) -> preserves replays (bind m k).
Proof. apply preserves_bind, replays_trans. Qed.

Lemma replays_try_catch {A} (body : M A) (h : string -> M A) :
  preserves replays body -> (forall e, preserves replays (h e)) ->
  preserves replays (try_catch body h).
Proof. apply preserves_try_catch, replays_trans. Qed.

Lemma replays_execSync cmd : preserves replays (execSync env cmd).
Proof.
  intros w. unfold execSync. destruct (exec_error env (ticks w) cmd).
  - exists [Exec cmd false]. cbn. repeat split. lia.
  - exists [Exec cmd true]. cbn. destruct (checkout_target cmd); cbn; repeat split; lia.
Qed.

Lemma replays_pulls_create t h b body : preserves replays (octokit_pulls_create env t h b body).
Proof.
  intros w. unfold octokit_pulls_create.
  destruct (pulls_create env (ticks w) t h b body); eexists [_]; cbn; repeat split; lia.
Qed.

(** The guarded return to the baseline branch after [body]: the command is
    run where [body] left the world; when it succeeds the working tree is
    on [main]; when it fails the branch is left alone and the error is
    logged after [what]. *)
Lemma restore_baseline {A} (body : M A) (what : string) w :
  let w1 := snd (body w) in
  let run :=
    try_finally body
      (try_catch (execSync env "git checkout main") (fun e => append_log (what +:+ e))) w in
  fst run = fst (body w) /\
  match exec_error env (ticks w1) "git checkout main" with
  | None =>
      trace (snd run) = trace w1 ++ [Exec "git checkout main" true] /\
      branch (snd run) = "main"
  | Some e =>
      trace (snd run) = trace w1 ++ [Exec "git checkout main" false] /\
      branch (snd run) = branch w1 /\
      logs (snd run) = logs w1 ++ [what +:+ e]
  end.
Proof.
  unfold try_finally, try_catch, execSync.
  destruct (body w) as [r w1]. cbn [snd fst].
  destruct (exec_error env (ticks w1) "git checkout main") as [e|]; cbn; repeat split.
Qed.

(** What the guarded return gives after a body that only makes external
    calls and logs. *)
Lemma restored_after {A} (body : M A) (what : string) w :
  preserves replays body ->
  let run :=
    try_finally body
      (try_catch (execSync env "git checkout main") (fun e => append_log (what +:+ e))) w in
  fst run = fst (body w) /\
  exists tr ok,
    trace (snd run) = trace w ++ tr ++ [Exec "git checkout main" ok] /\
    (ok = true -> branch (snd run) = "main") /\
    (ok = false ->
       branch (snd run) = branch_after (branch w) tr /\
       exists e,
         exec_error env (ticks w + length tr) "git checkout main" = Some e /\
         List.last (logs (snd run)) EmptyString = what +:+ e).
Proof.
  intros Hbody. destruct (Hbody w) as (tr & Ht & Hb & Hk).
  pose proof (restore_baseline body what w) as [Hf Hr]. cbv zeta in Hr.
  intros run. split; [exact Hf|]. fold run in Hr.
  rewrite Hk in Hr.
  destruct (exec_error env (ticks w + length tr) "git checkout main") as [e|] eqn:Ee.
  - destruct Hr as (Hr & Hbr & Hl). exists tr, false.
    rewrite Hr, Ht, <- app_assoc. split; [reflexivity|]. split; [discriminate|].
    intros _. split; [rewrite Hbr; exact Hb|].
    exists e. split; [exact Ee|]. rewrite Hl. apply last_last.
  - destruct Hr as (Hr & Hbr). exists tr, true.
    rewrite Hr, Ht, <- app_assoc. split; [reflexivity|]. split; [intros _; exact Hbr|].
    discriminate.
Qed.

End Replay.

(** Decomposes a goal [preserves replays m] along the structure of the script. *)
Ltac replayed :=
  repeat first
    [ apply replays_log
    | apply replays_execSync
    | apply replays_pulls_create
    | apply replays_ret
    | apply replays_bind; [ | intros ]
    | apply replays_try_catch; [ | intros ] ].

(** C1, as the code has it.  Every execution of [runTests], and every
    execution of [generateRefactoringPR] on a non-empty suggestion list,
    returns normally, and its last external call is [git checkout main],
    whatever the earlier calls [tr] of the execution did.  When that call
    succeeds the active branch on return is [main].  When it fails the
    branch stays where the earlier calls left it, and the error is only
    logged, in the last log line.  On an empty suggestion list
    [generateRefactoringPR] returns without an external call and leaves the
    branch where it was. *)
Theorem baseline_checkout_always_attempted (env : Env) :
  (forall prNumber branchName w,
     exists r w' tr ok,
       PRMonitor.runTests env prNumber branchName w = (Return r, w') /\
       trace w' = trace w ++ tr ++ [Exec "git checkout main" ok] /\
       (ok = true -> branch w' = "main") /\
       (ok = false ->
          branch w' = branch_after (branch w) tr /\
          exists e,
            exec_error env (ticks w + length tr) "git checkout main" = Some e /\
            List.last (logs w') EmptyString = "Error returning to main branch: " +:+ e)) /\
  (forall prNumber sugg w,
     sugg <> [] ->
     exists w' tr ok,
       RefactorAnalyzer.generateRefactoringPR env prNumber sugg w = (Return tt, w') /\
       trace w' = trace w ++ tr ++ [Exec "git checkout main" ok] /\
       (ok = true -> branch w' = "main") /\
       (ok = false ->
          branch w' = branch_after (branch w) tr /\
          exists e,
            exec_error env (ticks w + length tr) "git checkout main" = Some e /\
            List.last (logs w') EmptyString = "Error returning to main: " +:+ e)) /\
  (forall prNumber w,
     exists w',
       RefactorAnalyzer.generateRefactoringPR env prNumber [] w = (Return tt, w') /\
       trace w' = trace w /\ branch w' = branch w).
Proof.
  split; [|split].
  - intros prNumber branchName w.
    destruct (returns_eq _ (runTests_returns env prNumber branchName) w) as [r Er].
    exists r, (snd (PRMonitor.runTests env prNumber branchName w)).
    revert Er. unfold PRMonitor.runTests, PRMonitor.log.
    unfold bind at 1 3. unfold append_log at 1 7.
    match goal with
    | |- context [try_finally ?b (try_catch _ (fun e => append_log (?what +:+ e))) ?w0] =>
        intros Er;
        destruct (restored_after env b what w0) as (_ & tr & ok & Ht & Hok & Hko)
    end.
    { replayed. }
    exists tr, ok. split; [exact Er|]. split; [exact Ht|]. split; [exact Hok | exact Hko].
  - intros prNumber sugg w Hne.
    destruct (returns_eq _ (generateRefactoringPR_returns env prNumber sugg) w) as [[] Er].
    exists (snd (RefactorAnalyzer.generateRefactoringPR env prNumber sugg w)).
    revert Er. unfold RefactorAnalyzer.generateRefactoringPR, RefactorAnalyzer.log.
    destruct sugg as [|s sugg]; [congruence|]. cbn [length Nat.eqb].
    unfold bind at 1 3. unfold append_log at 1 11.
    match goal with
    | |- context [try_finally ?b (try_catch _ (fun e => append_log (?what +:+ e))) ?w0] =>
        intros Er;
        destruct (restored_after env b what w0) as (_ & tr & ok & Ht & Hok & Hko)
    end.
    { unfold RefactorAnalyzer.applyAutomaticFixes, RefactorAnalyzer.has_changes,
        RefactorAnalyzer.log.
      replayed. destruct a1; replayed. }
    exists tr, ok. split; [exact Er|]. split; [exact Ht|]. split; [exact Hok | exact Hko].
  - intros prNumber w. eexists. split; [reflexivity|]. split; reflexivity.
Qed.


(** * The change detector and the open units it is not given *)

(** C5 as stated fails for an open unit the list call does not return: the
    repository has 31 open units, all created after the checkpoint; the one
    call of the detector names no page, so it is answered with the first
    page, the 30 newest; the detector returns these 30, and the oldest open
    unit, created 1 ms after the checkpoint, is not among them. *)
Lemma open_unit_beyond_first_page_is_missed :
  let w := Examples.with_checkpoint (Some Examples.checkpoint_2024) Examples.world0 in
  let oldest := Examples.opened 1 in
  In oldest Examples.open_units_31 /\
  created_at oldest = Some (Examples.checkpoint_2024 + 1)%Z /\
  date_gt (created_at oldest) (Some Examples.checkpoint_2024) = true /\
  pulls_list Examples.env_31_open (ticks w) = Return (first_page Examples.open_units_31) /\
  exists news,
    fst (PRMonitor.getNewPullRequests Examples.env_31_open w) = Return news /\
    news = map Examples.opened (rev (seq 2 30)) /\
    ~ In oldest news.
Proof.
  cbv zeta. split.
  { unfold Examples.open_units_31. apply in_map, in_rev. rewrite rev_involutive.
    apply in_seq. lia. }
  split; [reflexivity|]. split; [vm_compute; reflexivity|]. split; [reflexivity|].
  eexists. split; [vm_compute; reflexivity|]. split; [vm_compute; reflexivity|].
  intros H. vm_compute in H.
  repeat (destruct H as [H|H]; [discriminate H|]). exact H.
Qed.

(** * An error of the report comment *)

Section CommentError.
Import PRMonitor.
Variable env : Env.

(** In every run of [processPullRequest], an error of the call that posts
    the report comment leaves the function, and the remediation workflow is
    not started. *)
Lemma comment_error_leaves_processPullRequest pr w :
  let w1 := snd (log (processing_line pr) w) in
  exists analysis testResults w2 w4,
    analyzePRChanges env (number pr) w1 = (Return analysis, w2) /\
    runTests env (number pr) (head_ref pr) (snd (log_analysis analysis w2))
      = (Return testResults, w4) /\
    forall e,
      issues_createComment_error env (ticks w4) (number pr)
        (if success testResults then success_body analysis
         else failure_body (errors testResults)) = Some e ->
      fst (processPullRequest env pr w) = Throw e /\
      ~ refactoring_triggered env pr w (snd (processPullRequest env pr w)).
Proof.
  intros w1.
  destruct (processPullRequest_steps env pr w)
    as (analysis & testResults & w2 & w4 & Ea & Et & Ep & Hg).
  exists analysis, testResults, w2, w4. split; [exact Ea|]. split; [exact Et|].
  intros e He.
  destruct (refactoring_triggered_iff env pr w)
    as (analysis' & testResults' & w2' & w4' & Ea' & Et' & Hiff).
  subst w1. cbv zeta in Ea, Ea'. rewrite Ea in Ea'. injection Ea' as <- <-.
  rewrite Et in Et'. injection Et' as <- <-.
  split.
  - rewrite Ep. unfold report_results, log, bind, append_log, octokit_issues_createComment.
    destruct (success testResults); cbn [ticks]; rewrite He; reflexivity.
  - intros Htr. apply Hiff in Htr as (Hs & Hc & _). rewrite Hs in He.
    rewrite Hc in He. discriminate He.
Qed.

(** An error that leaves the processing of a unit leaves the loop over the
    detected units and the cycle: the units after it are not reached and
    the checkpoint is not written. *)
Lemma unit_error_ends_the_cycle w pr rest w1 e w' :
  getNewPullRequests env (snd (log "Starting PR monitor..." w)) = (Return (pr :: rest), w1) ->
  processPullRequest env pr
    (snd (log ("Found " +:+ string_of_nat (length (pr :: rest)) +:+ " new pull request(s)")
            w1)) = (Throw e, w') ->
  start env w = (Throw e, w') /\ lastCheckedFile w' = lastCheckedFile w.
Proof.
  intros En Ep.
  assert (start env w = (Throw e, w')) as Es.
  { unfold start.
    rewrite (bind_eq (log "Starting PR monitor...") _ w tt _ eq_refl).
    rewrite (bind_eq (getNewPullRequests env) _ _ _ w1 En).
    cbn [length Nat.eqb process_all].
    apply bind_throw.
    rewrite (bind_eq (log _) _ w1 tt _ eq_refl).
    apply bind_throw. exact Ep. }
  split; [exact Es|].
  pose proof (start_checkpoint_cases env w) as H. rewrite Es in H. exact H.
Qed.

End CommentError.
